(** * BMS_py: the ledger core of [firstpbl.py]

    A shallow embedding of the classes [Account] and [BankManagementSystem]
    of [src/firstpbl.py], and the properties of the ledger core proved on it;
    then the menus of [BankUI] that change the directory, with the form of
    [src/BMS.py] that opens an account, and their properties.

    Conventions of the embedding.
    - Python methods mutate [self] and may raise: a method is a computation
      in the state-and-exception monad [M S A := S -> result A * S].  The
      state returned next to a [Raise] is the object as the exception left
      it, so "a failed call changes nothing" is a statement about it.
    - Monetary amounts are Python [float]s in the source.  The directory and
      the console are modelled with exact rationals [Q] for them: sums,
      differences, products and quotients are the exact ones, numeric
      equality is [Qeq] ([==]), and rounding, infinities and NaN are outside
      that model.  What is proved there follows the branches the code takes
      and the expressions it computes.  The class [Account] is modelled a
      second time, in the module [Float64], over the binary64 numbers the
      interpreter computes with; what depends on the arithmetic itself (the
      sign of a balance, the replay of a log) is proved there.
    - [datetime.now()] is an input: every method that reads the clock takes
      the formatted time it reads as an argument.
    - [print] output is not modelled.
    - The dictionary [self.accounts] is a finite map [gmap string Account];
      the order in which Python iterates over it is abstracted.
    - The data file holds a JSON document; [json.dump]/[json.load] are
      modelled at the level of the document tree ([json]), not of its text.
      Writing the file is taken to succeed. *)

From Stdlib Require Import Floats.
From Stdlib Require Import QArith Lqa ZArith Ascii String Decimal DecimalString DecimalZ.
From stdpp Require Import gmap strings list fin_maps.

(** ** Exceptions *)

(** The four exception classes of the module, the built-in exceptions the
    core can meet, and the generic [Exception] that [create_account] raises
    around whatever it caught. *)
Inductive error : Type :=
| InsufficientBalanceError (available : Q)
    (* f"Insufficient balance. Available: ₹{self.balance:.2f}": the message
       is determined by the balance it carries *)
| InvalidAccountError (msg : string)
| InvalidPINError (msg : string)
| InvalidAmountError (msg : string)
| ValueError              (* int() on a text that is no integer literal *)
| KeyError (key : string) (* acc_data[key] on a record without that key *)
| TypeError               (* a JSON value of an unexpected kind *)
| Exception_ (prefix : string) (cause : error).
    (* Exception(f"{prefix}{cause}") *)

Inductive result (A : Type) : Type :=
| Ok (a : A)
| Raise (e : error).
Arguments Ok {A} a.
Arguments Raise {A} e.

(** ** The state-and-exception monad *)

Definition M (S A : Type) : Type := S -> result A * S.

Definition ret {S A} (a : A) : M S A := fun s => (Ok a, s).
Definition raise {S A} (e : error) : M S A := fun s => (Raise e, s).
Definition bind {S A B} (m : M S A) (k : A -> M S B) : M S B :=
  fun s => match m s with
           | (Ok a, s') => k a s'
           | (Raise e, s') => (Raise e, s')
           end.
Definition get {S} : M S S := fun s => (Ok s, s).
Definition put {S} (s : S) : M S unit := fun _ => (Ok tt, s).
Definition modify {S} (f : S -> S) : M S unit := fun s => (Ok tt, f s).

(** [try: m except Exception as e: h e] *)
Definition try_except {S A} (m : M S A) (h : error -> M S A) : M S A :=
  fun s => match m s with
           | (Ok a, s') => (Ok a, s')
           | (Raise e, s') => h e s'
           end.

Declare Scope py_scope.
Delimit Scope py_scope with py.
Notation "x <- m ;; k" := (bind m (fun x => k))
  (at level 100, m at next level, right associativity) : py_scope.
Notation "m ;; k" := (bind m (fun _ => k))
  (at level 100, right associativity) : py_scope.
Open Scope py_scope.

(** ** Account *)

(** One entry of [self.transactions]: the dict
    [{"type": .., "amount": .., "balance": .., "date": ..}]. *)
Record Transaction : Type := mkTransaction {
  tx_type : string;
  tx_amount : Q;
  tx_balance : Q;
  tx_date : string
}.

Record Account : Type := mkAccount {
  account_number : string;
  name : string;
  pin : string;
  balance : Q;
  account_type : string;
  creation_date : string;
  transactions : list Transaction
}.

Definition set_balance (b : Q) (self : Account) : Account :=
  mkAccount (account_number self) (name self) (pin self) b
            (account_type self) (creation_date self) (transactions self).

Definition set_pin (p : string) (self : Account) : Account :=
  mkAccount (account_number self) (name self) p (balance self)
            (account_type self) (creation_date self) (transactions self).

Definition set_creation_date (d : string) (self : Account) : Account :=
  mkAccount (account_number self) (name self) (pin self) (balance self)
            (account_type self) d (transactions self).

Definition set_transactions (l : list Transaction) (self : Account) : Account :=
  mkAccount (account_number self) (name self) (pin self) (balance self)
            (account_type self) (creation_date self) l.

(** [Account.__init__]; [now] is what [datetime.now()] formats to. *)
Definition Account_init (now account_number name pin : string) (balance : Q)
    (account_type : string) : Account :=
  mkAccount account_number name pin balance account_type now [].

(** [x > y] and [x < y] on amounts. *)
Definition Qgt_bool (x y : Q) : bool := negb (Qle_bool x y).
Definition Qlt_bool (x y : Q) : bool := Qgt_bool y x.

Definition _add_transaction (now trans_type : string) (amount balance : Q)
    : M Account unit :=
  let transaction := mkTransaction trans_type amount balance now in
  modify (fun self => set_transactions (transactions self ++ [transaction]) self).

Definition deposit (now : string) (amount : Q) : M Account unit :=
  if Qle_bool amount 0%Q then
    raise (InvalidAmountError "Deposit amount must be positive")
  else
    modify (fun self => set_balance (balance self + amount)%Q self) ;;
    self <- get ;;
    _add_transaction now "Deposit" amount (balance self).

Definition withdraw (now : string) (amount : Q) : M Account unit :=
  if Qle_bool amount 0%Q then
    raise (InvalidAmountError "Withdrawal amount must be positive")
  else
    self <- get ;;
    if Qgt_bool amount (balance self) then
      raise (InsufficientBalanceError (balance self))
    else
      modify (fun self => set_balance (balance self - amount)%Q self) ;;
      self <- get ;;
      _add_transaction now "Withdrawal" amount (balance self).

(** The default value of the [rate] parameter. *)
Definition default_rate : Q := 3.5%Q.

(** [rate] is [None] when the caller omits the argument. *)
Definition calculate_interest (rate : option Q) : M Account Q :=
  let rate := default default_rate rate in
  self <- get ;;
  let interest := ((balance self * rate) / 100)%Q in
  ret interest.

Definition add_interest (now : string) (rate : option Q) : M Account unit :=
  let rate := default default_rate rate in
  interest <- calculate_interest (Some rate) ;;
  modify (fun self => set_balance (balance self + interest)%Q self) ;;
  self <- get ;;
  _add_transaction now "Interest Credit" interest (balance self).

Definition verify_pin (candidate : string) : M Account bool :=
  self <- get ;;
  ret (bool_decide (pin self = candidate)).

Definition update_pin (new_pin : string) : M Account unit :=
  modify (set_pin new_pin).

(** ** Python built-ins used by the directory *)

(** [s[3:]] *)
Definition drop3 (s : string) : string :=
  match s with
  | String _ (String _ (String _ r)) => r
  | _ => ""
  end.

Definition is_digit (c : ascii) : bool :=
  (48 <=? nat_of_ascii c)%nat && (nat_of_ascii c <=? 57)%nat.

(** The characters [str.strip()] removes (characters are code points below
    256): tab, line feed, vertical tab, form feed, carriage return, the
    separators 0x1c-0x1f, space, NEL and no-break space. *)
Definition is_space (c : ascii) : bool :=
  let n := nat_of_ascii c in
  ((9 <=? n)%nat && (n <=? 13)%nat) || ((28 <=? n)%nat && (n <=? 32)%nat)
  || (n =? 133)%nat || (n =? 160)%nat.

(** The characters [int()] skips around a literal: the same ones, without
    the separators 0x1c-0x1f ([int] on a text that starts with one of them
    raises [ValueError]). *)
Definition is_int_space (c : ascii) : bool :=
  let n := nat_of_ascii c in
  ((9 <=? n)%nat && (n <=? 13)%nat) || (n =? 32)%nat
  || (n =? 133)%nat || (n =? 160)%nat.

(** [s] without its leading, resp. trailing, characters among [skipped]. *)
Fixpoint lskip (skipped : ascii -> bool) (s : string) : string :=
  match s with
  | String c r => if skipped c then lskip skipped r else s
  | EmptyString => EmptyString
  end.

Fixpoint rskip (skipped : ascii -> bool) (s : string) : string :=
  match s with
  | String c r =>
      match rskip skipped r with
      | EmptyString => if skipped c then EmptyString else String c EmptyString
      | r' => String c r'
      end
  | EmptyString => EmptyString
  end.

(** [s.strip()] *)
Definition strip (s : string) : string := rskip is_space (lskip is_space s).

(** The digits of a literal: one or more decimal digits, with single
    underscores allowed between two digits.  [after_digit] tells whether
    the previous character was a digit. *)
Fixpoint literal_digits (after_digit : bool) (s : string) : option string :=
  match s with
  | EmptyString => if after_digit then Some EmptyString else None
  | String c r =>
      if Ascii.eqb c "_" then
        if after_digit then literal_digits false r else None
      else if is_digit c then
        String c <$> literal_digits true r
      else None
  end.

Definition magnitude (s : string) : option Z :=
  ds ← literal_digits false s;
  d ← NilEmpty.uint_of_string ds;
  Some (Z.of_uint d).

(** [int(s)] for a text [s], base 10: [None] is [ValueError].  CPython
    (3.11 and later) also raises [ValueError] on a literal of more than
    [sys.get_int_max_str_digits()] digits, 4300 unless configured; that
    limit is not modelled, so [py_int] is [int] on texts within it. *)
Definition py_int (s : string) : option Z :=
  match rskip is_int_space (lskip is_int_space s) with
  | String "-" r => Z.opp <$> magnitude r
  | String "+" r => magnitude r
  | r => magnitude r
  end.

(** [str(n)] for an integer, as in [f"ACC{n}"]; like [py_int], on numbers
    within CPython's limit of 4300 digits. *)
Definition py_str (n : Z) : string := NilZero.string_of_int (Z.to_int n).

(** [max(l)] for a non-empty list of integers, [hd :: tl]. *)
Definition py_max (hd : Z) (tl : list Z) : Z := foldl Z.max hd tl.

(** Evaluates [f] on every element, left to right; the first failure
    aborts the list comprehension. *)
Fixpoint comprehension {S A B} (f : A -> M S B) (l : list A) : M S (list B) :=
  match l with
  | [] => ret []
  | x :: r => y <- f x ;; ys <- comprehension f r ;; ret (y :: ys)
  end.

(** ** JSON documents *)

#[warnings="-register-all"]
Inductive json : Type :=
| JNull
| JBool (b : bool)
| JNumber (q : Q)
| JString (s : string)
| JArray (l : list json)
| JObject (items : list (string * json)).

(** [d[key]] on a parsed JSON value: [KeyError] when the key is missing,
    [TypeError] when [d] is no object. *)
Fixpoint items_lookup (key : string) (items : list (string * json)) : option json :=
  match items with
  | [] => None
  | (k, v) :: r => if String.eqb k key then Some v else items_lookup key r
  end.

Definition subscript {S} (d : json) (key : string) : M S json :=
  match d with
  | JObject items =>
      match items_lookup key items with
      | Some v => ret v
      | None => raise (KeyError key)
      end
  | _ => raise TypeError
  end.

(** The embedding is typed: an account holds texts, numbers and a list of
    transaction records.  A document whose fields have another kind is
    rejected with [TypeError]. *)
Definition as_string {S} (j : json) : M S string :=
  match j with JString s => ret s | _ => raise TypeError end.
Definition as_number {S} (j : json) : M S Q :=
  match j with JNumber q => ret q | _ => raise TypeError end.
Definition as_array {S} (j : json) : M S (list json) :=
  match j with JArray l => ret l | _ => raise TypeError end.

(** In Python an entry of the log is already the dict that is written;
    here it is a record, and these two functions go between the record and
    the JSON object with the same four keys. *)
Definition transaction_to_json (t : Transaction) : json :=
  JObject [("type", JString (tx_type t)); ("amount", JNumber (tx_amount t));
           ("balance", JNumber (tx_balance t)); ("date", JString (tx_date t))].

Definition transaction_of_json {S} (j : json) : M S Transaction :=
  ty <- (v <- subscript j "type" ;; as_string v) ;;
  amount <- (v <- subscript j "amount" ;; as_number v) ;;
  bal <- (v <- subscript j "balance" ;; as_number v) ;;
  date <- (v <- subscript j "date" ;; as_string v) ;;
  ret (mkTransaction ty amount bal date).

(** [Account.get_details] *)
Definition get_details (self : Account) : json :=
  JObject [("account_number", JString (account_number self));
           ("name", JString (name self));
           ("pin", JString (pin self));
           ("balance", JNumber (balance self));
           ("account_type", JString (account_type self));
           ("creation_date", JString (creation_date self));
           ("transactions", JArray (transaction_to_json <$> transactions self))].

(** ** BankManagementSystem *)

(** [data_file] is the content of the file named [self.data_file]:
    [None] when no such file exists. *)
Record BankManagementSystem : Type := mkBank {
  data_file : option json;
  accounts : gmap string Account
}.

Definition set_accounts (f : gmap string Account -> gmap string Account)
    (self : BankManagementSystem) : BankManagementSystem :=
  mkBank (data_file self) (f (accounts self)).

Definition set_data_file (d : option json) (self : BankManagementSystem)
    : BankManagementSystem :=
  mkBank d (accounts self).

(** A method call on the object stored under [key] in [self.accounts].
    The dictionary holds a reference, so what the method does to the object
    is seen through the dictionary.  The state is the directory: an object
    that has been deleted from it is no longer followed, and a call through
    a stale reference is a [KeyError] here. *)
Definition on_account {A} (key : string) (m : M Account A)
    : M BankManagementSystem A :=
  fun self =>
    match accounts self !! key with
    | Some obj =>
        let '(r, obj') := m obj in
        (r, set_accounts (insert key obj') self)
    | None => (Raise (KeyError key), self)
    end.

(** The body of the loop of [load_data] for one record.  Python stores
    whatever values the seven fields hold; an [Account] here has texts, a
    number and a list of transactions, so a field of another kind is a
    [TypeError] of the embedding.  On the records [save_data] writes, and
    on records without one of the fields, the two agree. *)
Definition account_of_json {S} (now : string) (acc_data : json) : M S Account :=
  number <- (v <- subscript acc_data "account_number" ;; as_string v) ;;
  name <- (v <- subscript acc_data "name" ;; as_string v) ;;
  pin <- (v <- subscript acc_data "pin" ;; as_string v) ;;
  bal <- (v <- subscript acc_data "balance" ;; as_number v) ;;
  type <- (v <- subscript acc_data "account_type" ;; as_string v) ;;
  let account := Account_init now number name pin bal type in
  created <- (v <- subscript acc_data "creation_date" ;; as_string v) ;;
  let account := set_creation_date created account in
  txs <- (v <- subscript acc_data "transactions" ;; l <- as_array v ;;
          comprehension transaction_of_json l) ;;
  let account := set_transactions txs account in
  ret account.

Fixpoint load_items (now : string) (items : list (string * json))
    : M BankManagementSystem unit :=
  match items with
  | [] => ret tt
  | (acc_num, acc_data) :: rest =>
      account <- account_of_json now acc_data ;;
      modify (set_accounts (insert acc_num account)) ;;
      load_items now rest
  end.

Definition load_data (now : string) : M BankManagementSystem unit :=
  self <- get ;;
  match data_file self with
  | Some data =>
      try_except
        (match data with
         | JObject items => load_items now items
         | _ => raise TypeError
         end)
        (fun e => ret tt)
  | None => ret tt
  end.

(** [BankManagementSystem.__init__] *)
Definition Bank_init (now : string) (file : option json) : BankManagementSystem :=
  snd (load_data now (mkBank file ∅)).

(** Writing the file is taken to succeed: [open] and [json.dump] do not
    raise here.  When they do the source prints the error, raises nothing
    and leaves the file as the failed write left it; that case is outside
    the embedding. *)
Definition save_data : M BankManagementSystem unit :=
  try_except
    (self <- get ;;
     let data := JObject (map_to_list (get_details <$> accounts self)) in
     modify (set_data_file (Some data)))
    (fun e => ret tt).

Definition generate_account_number : M BankManagementSystem string :=
  self <- get ;;
  if bool_decide (accounts self = ∅) then ret "ACC1001"
  else
    nums <- comprehension
              (fun acc => match py_int (drop3 acc) with
                          | Some n => ret n
                          | None => raise ValueError
                          end)
              (map_to_list (accounts self)).*1 ;;
    match nums with
    | [] => raise ValueError
    | hd :: tl =>
        let last_num := py_max hd tl in
        ret ("ACC" +:+ py_str (last_num + 1))
    end.

(** [now_created] is the time read by [Account.__init__], [now_logged] the
    one read by [_add_transaction].  A caller that omits [initial_deposit]
    or [account_type] passes [0.0] and ["Savings"]. *)
Definition create_account (now_created now_logged name pin : string)
    (initial_deposit : Q) (account_type : string)
    : M BankManagementSystem string :=
  try_except
    (if Qlt_bool initial_deposit 0%Q then
       raise (InvalidAmountError "Initial deposit cannot be negative")
     else
       account_number <- generate_account_number ;;
       let account := Account_init now_created account_number name pin
                                   initial_deposit account_type in
       let account :=
         if Qgt_bool initial_deposit 0%Q then
           snd (_add_transaction now_logged "Initial Deposit"
                                 initial_deposit initial_deposit account)
         else account in
       modify (set_accounts (insert account_number account)) ;;
       save_data ;;
       ret account_number)
    (fun e => raise (Exception_ "Failed to create account: " e)).

Definition get_account (account_number pin : string)
    : M BankManagementSystem Account :=
  self <- get ;;
  match accounts self !! account_number with
  | None => raise (InvalidAccountError "Account not found")
  | Some account =>
      ok <- on_account account_number (verify_pin pin) ;;
      if negb ok then raise (InvalidPINError "Incorrect PIN")
      else ret account
  end.

Definition delete_account (account_number pin : string)
    : M BankManagementSystem unit :=
  account <- get_account account_number pin ;;
  modify (set_accounts (delete account_number)) ;;
  save_data.

(** ** Sessions *)

(** What a caller of the core can do: the directory's own operations, and
    the account operations on an account it holds a reference to (named
    here by its key in the directory). *)
Inductive command : Type :=
| CreateAccount (now_created now_logged name pin : string)
                (initial_deposit : Q) (account_type : string)
| DeleteAccount (account_number pin : string)
| Deposit (account_number now : string) (amount : Q)
| Withdraw (account_number now : string) (amount : Q)
| AddInterest (account_number now : string) (rate : option Q).

Definition run_command (c : command) : M BankManagementSystem unit :=
  match c with
  | CreateAccount t0 t1 name pin initial_deposit account_type =>
      create_account t0 t1 name pin initial_deposit account_type ;; ret tt
  | DeleteAccount account_number pin => delete_account account_number pin
  | Deposit account_number now amount =>
      on_account account_number (deposit now amount)
  | Withdraw account_number now amount =>
      on_account account_number (withdraw now amount)
  | AddInterest account_number now rate =>
      on_account account_number (add_interest now rate)
  end.

(** A session: the commands in order; an exception ends the command that
    raised it, not the session. *)
Definition run (cs : list command) (self : BankManagementSystem)
    : BankManagementSystem :=
  foldl (fun bank c => snd (run_command c bank)) self cs.

Definition empty_bank : BankManagementSystem := mkBank None ∅.

(** * The console front end: [BankUI]

    The menus of [BankUI] that change the directory.  [input()] is an
    input: a menu takes the lines the user types at its prompts, in the
    order of the prompts (a line that the menu never gets to read is not
    used); the end of the input is not modelled.  An account the user is
    logged into is a reference, named here by its key. *)

(** [bool(s)] for a text: a text is true when it is not empty. *)
Definition truthy (s : string) : bool :=
  match s with EmptyString => false | _ => true end.

(** The characters [str.isdigit] accepts (code points below 256): the
    decimal digits and the superscripts two, three and one. *)
Definition isdigit_char (c : ascii) : bool :=
  let n := nat_of_ascii c in
  is_digit c || (n =? 178)%nat || (n =? 179)%nat || (n =? 185)%nat.

Fixpoint all_isdigit (s : string) : bool :=
  match s with
  | EmptyString => true
  | String c r => isdigit_char c && all_isdigit r
  end.

(** [s.isdigit()] *)
Definition isdigit (s : string) : bool := truthy s && all_isdigit s.

(** [str.lower] on one character (code points below 256). *)
Definition lower_char (c : ascii) : ascii :=
  let n := nat_of_ascii c in
  if ((65 <=? n)%nat && (n <=? 90)%nat)
     || ((192 <=? n)%nat && (n <=? 222)%nat && negb (n =? 215)%nat)
  then ascii_of_nat (n + 32) else c.

(** [s.lower()] *)
Fixpoint lower (s : string) : string :=
  match s with
  | EmptyString => EmptyString
  | String c r => String (lower_char c) (lower r)
  end.

(** [isinstance(e, cls)] for the classes the menus catch. *)
Definition is_ValueError (e : error) : bool :=
  match e with ValueError => true | _ => false end.
Definition is_InvalidPINError (e : error) : bool :=
  match e with InvalidPINError _ => true | _ => false end.
Definition is_InvalidAmountError (e : error) : bool :=
  match e with InvalidAmountError _ => true | _ => false end.
Definition is_InsufficientBalanceError (e : error) : bool :=
  match e with InsufficientBalanceError _ => true | _ => false end.

Definition is_Exception (e : error) : bool := true.

(** [try: m except classes: print(..)]: the handlers of the menus only
    print, and an exception of another class goes on to the caller. *)
Definition try_print {S} (caught : error -> bool) (m : M S unit) : M S unit :=
  try_except m (fun e => if caught e then ret tt else raise e).

(** The test both front ends make on a pin:
    [len(pin) != 4 or not pin.isdigit()]. *)
Definition pin_rejected (pin : string) : bool :=
  negb (String.length pin =? 4)%nat || negb (isdigit pin).

(** The menus of [BankUI] that can change the directory. *)
Inductive menu : Type :=
| CreateAccountMenu (now_created now_logged line1 line2 line3 line4 : string)
| DepositMenu (account now line : string)
| WithdrawMenu (account now line : string)
| CalculateInterestMenu (account now line1 line2 : string)
| UpdatePinMenu (account line1 line2 line3 : string)
| DeleteAccountMenu (account line1 line2 : string).

Section Console.
(** [float(text)]: the amount a text denotes, [None] for [ValueError].
    Nothing below depends on how texts denote amounts.  The texts that
    [float] reads as NaN or as an infinity (["nan"], ["inf"], ["1e999"])
    denote no rational: a menu that is given one is outside what is proved
    of the menus. *)
Variable py_float : string -> option Q.

Definition float_ {S} (text : string) : M S Q :=
  match py_float text with
  | Some x => ret x
  | None => raise ValueError
  end.

(** [float(line or default)], [default] being a number *)
Definition float_or {S} (line : string) (default : Q) : M S Q :=
  if truthy line then float_ line else ret default.

Definition create_account_menu (now_created now_logged : string)
    (line1 line2 line3 line4 : string) : M BankManagementSystem unit :=
  try_print (fun e => is_ValueError e || is_Exception e)
    (let name := strip line1 in
     if negb (truthy name) then raise ValueError
     else
       let pin := strip line2 in
       if pin_rejected pin then raise ValueError
       else
         let account_type := strip line3 in
         let account_type :=
           if negb (truthy account_type) then "Savings" else account_type in
         initial_deposit <- float_or line4 0%Q ;;
         account_number <- create_account now_created now_logged name pin
                                          initial_deposit account_type ;;
         ret tt).

Definition deposit_menu (account now line : string)
    : M BankManagementSystem unit :=
  try_print (fun e => is_InvalidAmountError e || is_ValueError e)
    (amount <- float_ line ;;
     on_account account (deposit now amount) ;;
     save_data).

Definition withdraw_menu (account now line : string)
    : M BankManagementSystem unit :=
  try_print (fun e => is_InvalidAmountError e || is_InsufficientBalanceError e
                      || is_ValueError e)
    (amount <- float_ line ;;
     on_account account (withdraw now amount) ;;
     save_data).

Definition calculate_interest_menu (account now line1 line2 : string)
    : M BankManagementSystem unit :=
  try_print is_ValueError
    (rate <- float_or line1 3.5%Q ;;
     interest <- on_account account (calculate_interest (Some rate)) ;;
     let add := lower line2 in
     if bool_decide (add = "y") then
       on_account account (add_interest now (Some rate)) ;;
       save_data
     else ret tt).

Definition update_pin_menu (account line1 line2 line3 : string)
    : M BankManagementSystem unit :=
  try_print (fun e => is_InvalidPINError e || is_ValueError e)
    (let old_pin := strip line1 in
     ok <- on_account account (verify_pin old_pin) ;;
     if negb ok then raise (InvalidPINError "Incorrect current PIN")
     else
       let new_pin := strip line2 in
       if pin_rejected new_pin then raise ValueError
       else
         let confirm_pin := strip line3 in
         if negb (bool_decide (new_pin = confirm_pin)) then raise ValueError
         else
           on_account account (update_pin new_pin) ;;
           save_data).

Definition delete_account_menu (account line1 line2 : string)
    : M BankManagementSystem bool :=
  try_except
    (let confirm := strip line1 in
     if negb (bool_decide (confirm = "DELETE")) then ret false
     else
       let pin := strip line2 in
       number <- on_account account
                   (self <- get ;; ret (account_number self)) ;;
       delete_account number pin ;;
       ret true)
    (fun e => ret false).

(** The callback [create_account] of [BankApp.create_account_menu] in
    [BMS.py]; the three texts are the contents of the entry fields. *)
Definition BankApp_create_account (now_created now_logged : string)
    (name_text pin_text deposit_text : string) : M BankManagementSystem unit :=
  let name := strip name_text in
  let pin := strip pin_text in
  deposit <- float_or deposit_text 0%Q ;;
  if negb (truthy name) || pin_rejected pin then ret tt
  else
    try_print is_Exception
      (acc_num <- create_account now_created now_logged name pin deposit
                                 "Savings" ;;
       ret tt).

Definition run_menu (c : menu) : M BankManagementSystem unit :=
  match c with
  | CreateAccountMenu t0 t1 line1 line2 line3 line4 =>
      create_account_menu t0 t1 line1 line2 line3 line4
  | DepositMenu account now line => deposit_menu account now line
  | WithdrawMenu account now line => withdraw_menu account now line
  | CalculateInterestMenu account now line1 line2 =>
      calculate_interest_menu account now line1 line2
  | UpdatePinMenu account line1 line2 line3 =>
      update_pin_menu account line1 line2 line3
  | DeleteAccountMenu account line1 line2 =>
      delete_account_menu account line1 line2 ;; ret tt
  end.

(** A console session: the menus the user goes through, in order. *)
Definition run_menus (cs : list menu) (self : BankManagementSystem)
    : BankManagementSystem :=
  foldl (fun bank c => snd (run_menu c bank)) self cs.

End Console.

(** * The account over binary64: [Account], once more

    The class [Account] with its amounts as the interpreter has them:
    binary64 floating-point numbers ([float] of [PrimFloat]), with their
    rounding, their infinities and their NaN, and with the comparisons of
    IEEE 754, for which every comparison with a NaN is false.  The methods
    are the ones of the first embedding, line by line; only the type of the
    amounts and the operations on it differ. *)

Module Float64.
Local Open Scope float_scope.

Inductive error : Type :=
| InsufficientBalanceError (available : float)
| InvalidAmountError (msg : string)
| Exception_ (prefix : string) (cause : error).

Inductive result (A : Type) : Type :=
| Ok (a : A)
| Raise (e : error).
Arguments Ok {A} a.
Arguments Raise {A} e.

Definition M (S A : Type) : Type := S -> result A * S.

Definition ret {S A} (a : A) : M S A := fun s => (Ok a, s).
Definition raise {S A} (e : error) : M S A := fun s => (Raise e, s).
Definition bind {S A B} (m : M S A) (k : A -> M S B) : M S B :=
  fun s => match m s with
           | (Ok a, s') => k a s'
           | (Raise e, s') => (Raise e, s')
           end.
Definition get {S} : M S S := fun s => (Ok s, s).
Definition modify {S} (f : S -> S) : M S unit := fun s => (Ok tt, f s).

Declare Scope py64_scope.
Notation "x <- m ;; k" := (bind m (fun x => k))
  (at level 100, m at next level, right associativity) : py64_scope.
Notation "m ;; k" := (bind m (fun _ => k))
  (at level 100, right associativity) : py64_scope.
Local Open Scope py64_scope.

Record Transaction : Type := mkTransaction {
  tx_type : string;
  tx_amount : float;
  tx_balance : float;
  tx_date : string
}.

Record Account : Type := mkAccount {
  account_number : string;
  name : string;
  pin : string;
  balance : float;
  account_type : string;
  creation_date : string;
  transactions : list Transaction
}.

Definition set_balance (b : float) (self : Account) : Account :=
  mkAccount (account_number self) (name self) (pin self) b
            (account_type self) (creation_date self) (transactions self).

Definition set_transactions (l : list Transaction) (self : Account) : Account :=
  mkAccount (account_number self) (name self) (pin self) (balance self)
            (account_type self) (creation_date self) l.

(** [Account.__init__] *)
Definition Account_init (now account_number name pin : string) (balance : float)
    (account_type : string) : Account :=
  mkAccount account_number name pin balance account_type now [].

Definition _add_transaction (now trans_type : string) (amount balance : float)
    : M Account unit :=
  let transaction := mkTransaction trans_type amount balance now in
  modify (fun self => set_transactions (transactions self ++ [transaction]) self).

Definition deposit (now : string) (amount : float) : M Account unit :=
  if amount <=? 0 then
    raise (InvalidAmountError "Deposit amount must be positive")
  else
    modify (fun self => set_balance (balance self + amount) self) ;;
    self <- get ;;
    _add_transaction now "Deposit" amount (balance self).

(** [amount > self.balance] is [balance self <? amount]. *)
Definition withdraw (now : string) (amount : float) : M Account unit :=
  if amount <=? 0 then
    raise (InvalidAmountError "Withdrawal amount must be positive")
  else
    self <- get ;;
    if balance self <? amount then
      raise (InsufficientBalanceError (balance self))
    else
      modify (fun self => set_balance (balance self - amount) self) ;;
      self <- get ;;
      _add_transaction now "Withdrawal" amount (balance self).

Definition default_rate : float := 3.5.

Definition calculate_interest (rate : option float) : M Account float :=
  let rate := default default_rate rate in
  self <- get ;;
  let interest := balance self * rate / 100 in
  ret interest.

Definition add_interest (now : string) (rate : option float) : M Account unit :=
  let rate := default default_rate rate in
  interest <- calculate_interest (Some rate) ;;
  modify (fun self => set_balance (balance self + interest) self) ;;
  self <- get ;;
  _add_transaction now "Interest Credit" interest (balance self).

(** The steps of [BankManagementSystem.create_account] that build the
    account, between the generation of the identifier [account_number] and
    the insertion of the account in the directory: the guard on the initial
    deposit, whose exception leaves wrapped in [Exception], the
    construction, and the first log entry. *)
Definition new_account (now_created now_logged account_number name pin : string)
    (initial_deposit : float) (account_type : string) : result Account :=
  if initial_deposit <? 0 then
    Raise (Exception_ "Failed to create account: "
             (InvalidAmountError "Initial deposit cannot be negative"))
  else
    let account := Account_init now_created account_number name pin
                                initial_deposit account_type in
    if 0 <? initial_deposit then
      Ok (snd (_add_transaction now_logged "Initial Deposit" initial_deposit
                                initial_deposit account))
    else Ok account.

(** A call of one of the methods that move money. *)
Inductive operation : Type :=
| Deposit (now : string) (amount : float)
| Withdraw (now : string) (amount : float)
| AddInterest (now : string) (rate : option float).

Definition perform (op : operation) : M Account unit :=
  match op with
  | Deposit now amount => deposit now amount
  | Withdraw now amount => withdraw now amount
  | AddInterest now rate => add_interest now rate
  end.

(** The account after the calls [ops], in order; a call that raises leaves
    the account as the exception left it, and the next call goes on. *)
Definition session (ops : list operation) (self : Account) : Account :=
  foldl (fun account op => snd (perform op account)) self ops.

(** ** The vocabulary of the properties *)

(** The effect of one log entry on a running balance: entries of type
    ["Initial Deposit"], ["Deposit"] and ["Interest Credit"] add their
    amount, entries of type ["Withdrawal"] subtract it. *)
Definition replay_step (running : float) (t : Transaction) : float :=
  if bool_decide (tx_type t = "Withdrawal") then running - tx_amount t
  else if bool_decide (tx_type t = "Initial Deposit")
          || bool_decide (tx_type t = "Deposit")
          || bool_decide (tx_type t = "Interest Credit")
  then running + tx_amount t
  else running.

(** The balance obtained by replaying a log from 0, in log order. *)
Definition replay (log : list Transaction) : float := foldl replay_step 0 log.

(** The same float, or two zeros: [0.0] and [-0.0] are the only two
    distinct floats that [==] holds equal.  [PrimFloat] has one NaN, so two
    NaNs are the same float here, although [==] is false of them. *)
Definition same_number (x y : float) : Prop :=
  x = y \/ ((x =? 0) = true /\ (y =? 0) = true).

(** Every entry of a log records the balance that replaying the log up to
    and including that entry gives, [running] being the balance before the
    first entry. *)
Fixpoint snapshots_from (running : float) (log : list Transaction) : Prop :=
  match log with
  | [] => True
  | t :: rest =>
      same_number (replay_step running t) (tx_balance t)
      /\ snapshots_from (replay_step running t) rest
  end.

Definition snapshots_consistent (self : Account) : Prop :=
  snapshots_from 0 (transactions self)
  /\ same_number (replay (transactions self)) (balance self).

(** The argument of a call is a finite number, and the rate of an interest
    credit is positive. *)
Definition finite_inputs (op : operation) : bool :=
  match op with
  | Deposit _ amount | Withdraw _ amount => is_finite amount
  | AddInterest _ rate =>
      is_finite (default default_rate rate) && (0 <? default default_rate rate)
  end.

(** What the methods write into a log: an entry of one of the four types;
    an initial deposit with an amount above 0; a deposit or a withdrawal
    with an amount that [<= 0] does not hold of. *)
Definition entry_well_formed (t : Transaction) : Prop :=
  (tx_type t = "Initial Deposit" /\ (0 <? tx_amount t) = true)
  \/ ((tx_type t = "Deposit" \/ tx_type t = "Withdrawal")
      /\ (tx_amount t <=? 0) = false)
  \/ tx_type t = "Interest Credit".

(** The sign of a number of the specification of binary64: a zero of
    either sign, a positive finite number or plus infinity. *)
Definition sf_nonneg (f : spec_float) : bool :=
  match f with
  | S754_zero _ | S754_infinity false | S754_finite false _ _ => true
  | _ => false
  end.

Definition sf_signed (s : bool) (f : spec_float) : Prop :=
  match f with
  | S754_zero s' | S754_infinity s' | S754_finite s' _ _ => s' = s
  | S754_nan => False
  end.

Definition sf_finite (f : spec_float) : bool :=
  match f with
  | S754_zero _ | S754_finite _ _ _ => true
  | _ => false
  end.

End Float64.

(** * The vocabulary of the properties *)

(** Two accounts that differ at most in balance and transaction log. *)
Definition same_identity (a b : Account) : Prop :=
  account_number a = account_number b /\ name a = name b /\ pin a = pin b
  /\ account_type a = account_type b /\ creation_date a = creation_date b.

(** [int(acc[3:])], the number an identifier ends with. *)
Definition id_number (acc : string) : option Z := py_int (drop3 acc).

(** The account that [create_account] builds and stores. *)
Definition opened_account (now_created now_logged number name pin : string)
    (initial_deposit : Q) (account_type : string) : Account :=
  mkAccount number name pin initial_deposit account_type now_created
    (if Qgt_bool initial_deposit 0%Q
     then [mkTransaction "Initial Deposit" initial_deposit initial_deposit
                         now_logged]
     else []).

(** [P] holds of every account stored in the directory. *)
Definition every_account (P : Account -> Prop) (self : BankManagementSystem)
    : Prop :=
  map_Forall (fun _ account => P account) (accounts self).

Fixpoint all_digits (s : string) : bool :=
  match s with
  | EmptyString => true
  | String c r => is_digit c && all_digits r
  end.

(** An identifier of the shape the directory generates: ["ACC"] followed
    by a decimal numeral. *)
Definition acc_shaped (key : string) : Prop :=
  exists ds, key = "ACC" +:+ ds /\ ds <> EmptyString /\ all_digits ds = true.

(** [m] is the largest number an identifier of the directory ends with. *)
Definition last_number (self : BankManagementSystem) (m : Z) : Prop :=
  (exists k, is_Some (accounts self !! k) /\ id_number k = Some m)
  /\ (forall k v, is_Some (accounts self !! k) -> id_number k = Some v ->
                  (v <= m)%Z).

(** Every identifier of the directory ends with an integer literal. *)
Definition keys_numbered (self : BankManagementSystem) : Prop :=
  forall k, is_Some (accounts self !! k) -> is_Some (id_number k).

(** CPython's default limit on the digits of a text converted to an
    integer, or of an integer converted to text. *)
Definition max_str_digits : nat := 4300.

(** No key is longer than that limit: then neither [int(key[3:])] nor the
    [str] of a number one above those of the keys can reach it. *)
Definition keys_within_limit (self : BankManagementSystem) : Prop :=
  map_Forall (fun k _ => (String.length k <=? max_str_digits)%nat = true)
             (accounts self).

(** The document that [save_data] writes for a mapping. *)
Definition saved_document (accs : gmap string Account) : json :=
  JObject (map_to_list (get_details <$> accs)).

(** The file holds what [save_data] would write now. *)
Definition file_in_sync (self : BankManagementSystem) : Prop :=
  data_file self = Some (saved_document (accounts self)).

(** The seven fields [load_data] reads from a record. *)
Definition account_fields : list string :=
  ["account_number"; "name"; "pin"; "balance"; "account_type";
   "creation_date"; "transactions"].

Definition is_Some_b {A} (o : option A) : bool :=
  match o with Some _ => true | None => false end.

(** The record is a JSON object with the seven fields: [acc_data[key]]
    raises for none of them. *)
Definition has_all_fields (acc_data : json) : bool :=
  match acc_data with
  | JObject items =>
      forallb (fun key => is_Some_b (items_lookup key items)) account_fields
  | _ => false
  end.

(** What one account operation does to the log and to the fields that
    identify the account. *)
Definition extends_log (obj obj' : Account) : Prop :=
  exists added,
    transactions obj' = transactions obj ++ added
    /\ length added <= 1 /\ same_identity obj obj'.

(** A computation that only computes: its result does not depend on the
    state and it leaves the state alone. *)
Definition stateless {S A} (m : M S A) : Prop :=
  exists r, forall s, m s = (r, s).

(** Every account is stored under its own number, and every key has the
    shape the directory generates. *)
Definition directory_consistent (self : BankManagementSystem) : Prop :=
  map_Forall (fun k account => account_number account = k /\ acc_shaped k)
             (accounts self).

(** The accounts both front ends let into the directory: a name that is
    not empty, a pin of four [isdigit] characters, a type that is not
    empty. *)
Definition presentable (self : Account) : Prop :=
  truthy (name self) = true /\ pin_rejected (pin self) = false
  /\ truthy (account_type self) = true.

(** What [create_account_menu] asks of [create_account]: the name, pin,
    deposit and type, or nothing when it stops before the call. *)
Definition create_request (py_float : string -> option Q)
    (line1 line2 line3 line4 : string) : option (string * string * Q * string) :=
  if negb (truthy (strip line1)) || pin_rejected (strip line2) then None
  else
    match (if truthy line4 then py_float line4 else Some 0%Q) with
    | Some d =>
        Some (strip line1, strip line2, d,
              if truthy (strip line3) then strip line3 else "Savings")
    | None => None
    end.

(** The state an account menu leaves when it has called [method] on the
    account and then [save_data]. *)
Definition saved_after (account : string) (obj' : Account)
    (self : BankManagementSystem) : BankManagementSystem :=
  snd (save_data (set_accounts (insert account obj') self)).

(** A reading of amounts that knows whole numbers only, for examples. *)
Definition whole_number (text : string) : option Q := inject_Z <$> py_int text.

(** The directory after Alice has opened the first account with 100. *)
Definition alice_bank : BankManagementSystem :=
  snd (create_account "t0" "t1" "Alice" "1234" 100 "Savings" empty_bank).

Definition alice : Account :=
  mkAccount "ACC1001" "Alice" "1234" 100 "Savings" "t0"
            [mkTransaction "Initial Deposit" 100 100 "t1"].

(** * Properties *)

(** ** Comparisons on amounts *)

Lemma Qle_bool_false (x y : Q) : Qle_bool x y = false <-> (y < x)%Q.
Proof.
  split.
  - intros H. destruct (Qlt_le_dec y x) as [Hlt | Hle]; [exact Hlt |].
    apply Qle_bool_iff in Hle. congruence.
  - intros H. destruct (Qle_bool x y) eqn:E; [| reflexivity].
    apply Qle_bool_iff in E. lra.
Qed.

Lemma Qgt_bool_true (x y : Q) : Qgt_bool x y = true <-> (y < x)%Q.
Proof.
  unfold Qgt_bool. rewrite negb_true_iff. apply Qle_bool_false.
Qed.

Lemma Qgt_bool_false (x y : Q) : Qgt_bool x y = false <-> (x <= y)%Q.
Proof.
  unfold Qgt_bool. rewrite negb_false_iff. apply Qle_bool_iff.
Qed.

Lemma Qlt_bool_true (x y : Q) : Qlt_bool x y = true <-> (x < y)%Q.
Proof. apply Qgt_bool_true. Qed.

Lemma Qlt_bool_false (x y : Q) : Qlt_bool x y = false <-> (y <= x)%Q.
Proof. apply Qgt_bool_false. Qed.

(** ** Account.deposit *)

(** C6: [deposit amount] raises [InvalidAmountError] when [amount <= 0] and
    leaves the account (balance and log included) as it was; when
    [amount > 0] it returns, the balance is the old balance plus [amount],
    and the log is the old log followed by exactly one ["Deposit"] entry
    that records [amount] and the new balance. *)
Theorem deposit_spec (self : Account) (now : string) (amount : Q) :
  ((amount <= 0)%Q ->
     deposit now amount self
     = (Raise (InvalidAmountError "Deposit amount must be positive"), self))
  /\ ((0 < amount)%Q ->
     exists self',
       deposit now amount self = (Ok tt, self')
       /\ balance self' = (balance self + amount)%Q
       /\ transactions self'
          = transactions self
            ++ [mkTransaction "Deposit" amount (balance self') now]
       /\ same_identity self self').
Proof.
  unfold deposit. split; intros H.
  - apply Qle_bool_iff in H. rewrite H. reflexivity.
  - apply Qle_bool_false in H. rewrite H.
    eexists. split; [reflexivity |]. cbn. repeat split.
Qed.

Lemma deposit_spec_witness :
  fst (deposit "t" 50 (Account_init "t0" "ACC1001" "Alice" "1234" 100 "Savings"))
  = Ok tt
  /\ fst (deposit "t" 0 (Account_init "t0" "ACC1001" "Alice" "1234" 100 "Savings"))
     = Raise (InvalidAmountError "Deposit amount must be positive").
Proof.
  set (self := Account_init "t0" "ACC1001" "Alice" "1234" 100 "Savings").
  split.
  - destruct (proj2 (deposit_spec self "t" 50) ltac:(reflexivity))
      as (self' & -> & _). reflexivity.
  - rewrite (proj1 (deposit_spec self "t" 0) ltac:(discriminate)). reflexivity.
Defined.

(** ** Account.withdraw *)

(** C1: [withdraw amount] raises [InvalidAmountError] when [amount <= 0];
    raises [InsufficientBalanceError], carrying the available balance, when
    [amount] is positive and exceeds the balance; in both cases the account
    is left as it was.  When [0 < amount <= balance] it returns, the balance
    is the old balance minus [amount], and the log is the old log followed
    by exactly one ["Withdrawal"] entry that records [amount] and the new
    balance.  It never returns when [amount > balance]. *)
Theorem withdraw_spec (self : Account) (now : string) (amount : Q) :
  ((amount <= 0)%Q ->
     withdraw now amount self
     = (Raise (InvalidAmountError "Withdrawal amount must be positive"), self))
  /\ ((0 < amount)%Q -> (balance self < amount)%Q ->
     withdraw now amount self
     = (Raise (InsufficientBalanceError (balance self)), self))
  /\ ((0 < amount)%Q -> (amount <= balance self)%Q ->
     exists self',
       withdraw now amount self = (Ok tt, self')
       /\ balance self' = (balance self - amount)%Q
       /\ transactions self'
          = transactions self
            ++ [mkTransaction "Withdrawal" amount (balance self') now]
       /\ same_identity self self')
  /\ ((balance self < amount)%Q ->
     exists e, withdraw now amount self = (Raise e, self)).
Proof.
  assert (Hpos : (0 < amount)%Q -> (balance self < amount)%Q ->
                 withdraw now amount self
                 = (Raise (InsufficientBalanceError (balance self)), self)).
  { intros H0 H1. unfold withdraw.
    apply Qle_bool_false in H0. rewrite H0. cbn.
    apply Qgt_bool_true in H1. rewrite H1. reflexivity. }
  assert (Hneg : (amount <= 0)%Q ->
                 withdraw now amount self
                 = (Raise (InvalidAmountError "Withdrawal amount must be positive"),
                    self)).
  { intros H. unfold withdraw. apply Qle_bool_iff in H. rewrite H. reflexivity. }
  repeat split; try assumption.
  - intros H0 H1. unfold withdraw.
    apply Qle_bool_false in H0. rewrite H0. cbn.
    apply Qgt_bool_false in H1. rewrite H1.
    eexists. split; [reflexivity |]. cbn. repeat split.
  - intros H. destruct (Qlt_le_dec 0 amount) as [Hp | Hn]; eauto.
Qed.

Lemma withdraw_spec_witness :
  fst (withdraw "t" 200 (Account_init "t0" "ACC1001" "Alice" "1234" 150 "Savings"))
  = Raise (InsufficientBalanceError 150)
  /\ fst (withdraw "t" 150 (Account_init "t0" "ACC1001" "Alice" "1234" 150 "Savings"))
     = Ok tt
  /\ fst (withdraw "t" (-1) (Account_init "t0" "ACC1001" "Alice" "1234" 150 "Savings"))
     = Raise (InvalidAmountError "Withdrawal amount must be positive").
Proof.
  set (self := Account_init "t0" "ACC1001" "Alice" "1234" 150 "Savings").
  split; [| split].
  - destruct (withdraw_spec self "t" 200) as (_ & H & _).
    rewrite H; reflexivity.
  - destruct (withdraw_spec self "t" 150) as (_ & _ & H & _).
    destruct H as (self' & -> & _); [reflexivity | discriminate | reflexivity].
  - destruct (withdraw_spec self "t" (-1)) as (H & _).
    rewrite H; [reflexivity | discriminate].
Defined.

(** ** Account.calculate_interest and Account.add_interest *)

(** C7: [calculate_interest rate] returns [balance * rate / 100], with
    [rate = 3.5] when the argument is omitted, and leaves the account as it
    was; [add_interest rate] adds exactly that value to the balance and
    appends one ["Interest Credit"] entry whose amount is that value.  On a
    balance of 150 at rate 3.5 the interest is 5.25 and the new balance
    155.25. *)
Theorem interest_spec (self : Account) (now : string) (rate : option Q) :
  let r := match rate with Some r => r | None => 3.5%Q end in
  let interest := ((balance self * r) / 100)%Q in
  calculate_interest rate self = (Ok interest, self)
  /\ (exists self',
        add_interest now rate self = (Ok tt, self')
        /\ balance self' = (balance self + interest)%Q
        /\ transactions self'
           = transactions self
             ++ [mkTransaction "Interest Credit" interest (balance self') now]
        /\ same_identity self self')
  /\ ((balance self == 150)%Q -> (r == 3.5)%Q ->
        (interest == 5.25)%Q /\ (balance self + interest == 155.25)%Q).
Proof.
  cbv zeta. split; [| split].
  - destruct rate; reflexivity.
  - eexists. split; [destruct rate; reflexivity |]. cbn.
    destruct rate; repeat split.
  - intros Hb Hr. rewrite Hb, Hr. split; reflexivity.
Qed.

Lemma interest_spec_witness :
  let self := Account_init "t0" "ACC1001" "Alice" "1234" 150 "Savings" in
  (fst (calculate_interest None self) = Ok (150 * 3.5 / 100)%Q)
  /\ (150 * 3.5 / 100 == 5.25)%Q
  /\ (150 + 150 * 3.5 / 100 == 155.25)%Q.
Proof.
  intros self.
  destruct (interest_spec self "t" None) as (Hc & _ & Hex).
  split; [rewrite Hc; reflexivity |].
  apply Hex; reflexivity.
Defined.

(** ** Unfolding the directory's methods *)

Lemma save_data_eq (self : BankManagementSystem) :
  save_data self
  = (Ok tt, mkBank (Some (JObject (map_to_list (get_details <$> accounts self))))
                   (accounts self)).
Proof. reflexivity. Qed.

Lemma on_account_Some {A} (key : string) (m : M Account A)
    (self : BankManagementSystem) (obj : Account) :
  accounts self !! key = Some obj ->
  on_account key m self
  = (fst (m obj), set_accounts (insert key (snd (m obj))) self).
Proof.
  intros H. unfold on_account. rewrite H. destruct (m obj); reflexivity.
Qed.

Lemma on_account_None {A} (key : string) (m : M Account A)
    (self : BankManagementSystem) :
  accounts self !! key = None ->
  on_account key m self = (Raise (KeyError key), self).
Proof. intros H. unfold on_account. rewrite H. reflexivity. Qed.

Lemma set_accounts_insert_id (key : string) (obj : Account)
    (self : BankManagementSystem) :
  accounts self !! key = Some obj ->
  set_accounts (insert key obj) self = self.
Proof.
  intros H. destruct self as [d m]. unfold set_accounts. cbn in *.
  f_equal. apply insert_id, H.
Qed.

(** [get_account] as a case distinction on the stored entry. *)
Lemma get_account_eq (number candidate : string) (self : BankManagementSystem) :
  get_account number candidate self
  = match accounts self !! number with
    | None => (Raise (InvalidAccountError "Account not found"), self)
    | Some account =>
        if bool_decide (pin account = candidate) then (Ok account, self)
        else (Raise (InvalidPINError "Incorrect PIN"), self)
    end.
Proof.
  unfold get_account, bind, get.
  destruct (accounts self !! number) as [account |] eqn:E; [| reflexivity].
  rewrite (on_account_Some _ _ _ _ E). cbn.
  rewrite (set_accounts_insert_id _ _ _ E).
  destruct (bool_decide (pin account = candidate)); reflexivity.
Qed.

Lemma delete_account_eq (number candidate : string) (self : BankManagementSystem) :
  delete_account number candidate self
  = match get_account number candidate self with
    | (Ok _, _) => save_data (set_accounts (delete number) self)
    | (Raise e, _) => (Raise e, self)
    end.
Proof.
  unfold delete_account, bind. rewrite get_account_eq.
  destruct (accounts self !! number) as [account |]; [| reflexivity].
  destruct (bool_decide (pin account = candidate)); reflexivity.
Qed.

Lemma comprehension_id_number {S} (keys : list string) (s : S) :
  comprehension
    (fun acc => match py_int (drop3 acc) with
                | Some n => ret n
                | None => raise ValueError
                end) keys s
  = match mapM id_number keys with
    | Some nums => (Ok nums, s)
    | None => (Raise ValueError, s)
    end.
Proof.
  unfold id_number.
  induction keys as [| k keys IH]; [reflexivity |].
  cbn [comprehension mapM]. unfold bind at 1.
  destruct (py_int (drop3 k)) as [n |]; [| reflexivity].
  unfold ret at 1. unfold bind at 1. rewrite IH. cbn.
  destruct (mapM _ keys); reflexivity.
Qed.

Lemma py_max_ge (tl : list Z) : forall (hd x : Z),
  x ∈ hd :: tl -> (x <= py_max hd tl)%Z.
Proof.
  unfold py_max. induction tl as [| y tl IH]; intros hd x Hx; cbn.
  - apply list_elem_of_singleton in Hx. lia.
  - apply elem_of_cons in Hx as [-> | Hx].
    + apply (Z.le_trans _ (Z.max hd y)); [lia |]. apply IH. left.
    + apply elem_of_cons in Hx as [-> | Hx].
      * apply (Z.le_trans _ (Z.max hd y)); [lia |]. apply IH. left.
      * apply IH. right. exact Hx.
Qed.

Lemma py_max_in (tl : list Z) : forall hd : Z, py_max hd tl ∈ hd :: tl.
Proof.
  unfold py_max. induction tl as [| y tl IH]; intros hd; cbn.
  - left.
  - specialize (IH (Z.max hd y)). apply elem_of_cons in IH as [E | IH].
    + rewrite E. destruct (Z.max_spec hd y) as [[_ ->] | [_ ->]].
      * right. left.
      * left.
    + right. right. exact IH.
Qed.

(** [generate_account_number] reads the directory and changes nothing. *)
Lemma generate_account_number_eq (self : BankManagementSystem) :
  generate_account_number self
  = (if bool_decide (accounts self = ∅) then Ok "ACC1001"
     else match mapM id_number (map_to_list (accounts self)).*1 with
          | Some (hd :: tl) => Ok ("ACC" +:+ py_str (py_max hd tl + 1))
          | _ => Raise ValueError
          end,
     self).
Proof.
  unfold generate_account_number, bind, get.
  destruct (bool_decide (accounts self = ∅)); [reflexivity |].
  rewrite comprehension_id_number.
  destruct (mapM id_number _) as [[| hd tl] |]; reflexivity.
Qed.

Lemma create_account_eq (t0 t1 name pin : string) (initial_deposit : Q)
    (account_type : string) (self : BankManagementSystem) :
  create_account t0 t1 name pin initial_deposit account_type self
  = if Qlt_bool initial_deposit 0%Q then
      (Raise (Exception_ "Failed to create account: "
                (InvalidAmountError "Initial deposit cannot be negative")),
       self)
    else
      match fst (generate_account_number self) with
      | Ok number =>
          let account := opened_account t0 t1 number name pin
                                        initial_deposit account_type in
          let accs := <[number := account]> (accounts self) in
          (Ok number,
           mkBank (Some (JObject (map_to_list (get_details <$> accs)))) accs)
      | Raise e => (Raise (Exception_ "Failed to create account: " e), self)
      end.
Proof.
  unfold create_account, try_except.
  destruct (Qlt_bool initial_deposit 0%Q); [reflexivity |].
  unfold bind at 1. rewrite generate_account_number_eq. cbn [fst].
  destruct (if bool_decide (accounts self = ∅) then _ else _)
    as [number | e]; [| reflexivity].
  cbn. unfold opened_account.
  destruct (Qgt_bool initial_deposit 0%Q); reflexivity.
Qed.

(** ** BankManagementSystem.get_account *)

(** C5: [get_account number candidate] raises [InvalidAccountError] exactly
    when [number] is not a key of the mapping, raises [InvalidPINError]
    exactly when it is a key and the stored pin differs from [candidate],
    and returns the stored account exactly when it is a key and the pins
    agree; in every case the directory is left as it was. *)
Theorem get_account_spec (self : BankManagementSystem)
    (number candidate : string) :
  (accounts self !! number = None
   <-> get_account number candidate self
       = (Raise (InvalidAccountError "Account not found"), self))
  /\ ((exists account,
         accounts self !! number = Some account /\ pin account <> candidate)
      <-> get_account number candidate self
          = (Raise (InvalidPINError "Incorrect PIN"), self))
  /\ (forall account,
        (accounts self !! number = Some account /\ pin account = candidate)
        <-> get_account number candidate self = (Ok account, self))
  /\ snd (get_account number candidate self) = self.
Proof.
  rewrite get_account_eq.
  destruct (accounts self !! number) as [stored |] eqn:E.
  - destruct (bool_decide_reflect (pin stored = candidate)) as [Hp | Hp].
    + split_and!.
      * split; discriminate.
      * split; [intros (a & [= <-] & Hne); contradiction | discriminate].
      * intros account. split.
        -- intros [[= <-] _]. reflexivity.
        -- intros [= <-]. split; [reflexivity | exact Hp].
      * reflexivity.
    + split_and!.
      * split; discriminate.
      * split; [reflexivity |].
        intros _. exists stored. split; [reflexivity | exact Hp].
      * intros account. split.
        -- intros [[= <-] Heq]. contradiction.
        -- discriminate.
      * reflexivity.
  - split_and!.
    + split; reflexivity.
    + split; [intros (a & [=] & _) | discriminate].
    + intros account. split; [intros [[=] _] | discriminate].
    + reflexivity.
Qed.

(** ** BankManagementSystem.create_account *)

(** C2, as the code has it: with [initial_deposit < 0], [create_account]
    fails with the generic [Exception] that wraps the [InvalidAmountError]
    it caught, and the directory is left as it was; it checks neither
    [name] nor [pin]: with [initial_deposit >= 0] and an identifier
    generated, it stores an account with the name and pin it was given,
    whatever they are, and returns the identifier. *)
Theorem create_account_spec (self : BankManagementSystem)
    (t0 t1 name_ pin_ : string) (initial_deposit : Q) (account_type_ : string) :
  ((initial_deposit < 0)%Q ->
     create_account t0 t1 name_ pin_ initial_deposit account_type_ self
     = (Raise (Exception_ "Failed to create account: "
                 (InvalidAmountError "Initial deposit cannot be negative")),
        self))
  /\ ((0 <= initial_deposit)%Q ->
      forall number, fst (generate_account_number self) = Ok number ->
      exists self' account,
        create_account t0 t1 name_ pin_ initial_deposit account_type_ self
        = (Ok number, self')
        /\ accounts self' = <[number := account]> (accounts self)
        /\ account = opened_account t0 t1 number name_ pin_ initial_deposit
                                    account_type_
        /\ name account = name_ /\ pin account = pin_).
Proof.
  rewrite create_account_eq. split.
  - intros H. apply Qlt_bool_true in H. rewrite H. reflexivity.
  - intros H number Hgen. apply Qlt_bool_false in H. rewrite H, Hgen.
    eexists _, _. repeat split.
Qed.

Lemma create_account_spec_witness :
  fst (create_account "t0" "t1" "Alice" "1234" (-1) "Savings" empty_bank)
  = Raise (Exception_ "Failed to create account: "
             (InvalidAmountError "Initial deposit cannot be negative"))
  /\ fst (create_account "t0" "t1" "" "12" 0 "Savings" empty_bank)
     = Ok "ACC1001".
Proof.
  split.
  - rewrite (proj1 (create_account_spec empty_bank "t0" "t1" "Alice" "1234"
                      (-1) "Savings"));
      reflexivity.
  - destruct (proj2 (create_account_spec empty_bank "t0" "t1" "" "12" 0
                       "Savings") ltac:(discriminate) "ACC1001" eq_refl)
      as (self' & account & -> & _).
    reflexivity.
Defined.

(** C2 as stated fails twice: a negative initial deposit does not surface
    as [InvalidAmountError], and an account with an empty name and a
    two-character pin is accepted into the directory. *)
Lemma create_account_counterexample :
  (forall msg,
     fst (create_account "t0" "t1" "Alice" "1234" (-1) "Savings" empty_bank)
     <> Raise (InvalidAmountError msg))
  /\ (exists self' account,
        create_account "t0" "t1" "" "12" 0 "Savings" empty_bank
        = (Ok "ACC1001", self')
        /\ accounts self' !! "ACC1001" = Some account
        /\ name account = "" /\ pin account = "12").
Proof.
  split.
  - intros msg. vm_compute. discriminate.
  - eexists _, _. split; [vm_compute; reflexivity |].
    split; [vm_compute; reflexivity |]. split; reflexivity.
Qed.

(** ** The arithmetic of binary64: signs and zeros *)

Section Binary64.
Import Float64.
Local Open Scope Z_scope.

Lemma sf_signed_nonneg (f : spec_float) :
  sf_signed false f -> sf_nonneg f = true.
Proof. destruct f as [s|s| |s m e]; cbn; try intros ->; auto; contradiction. Qed.

(** Rounding keeps the sign: shifting a mantissa that is not negative, and
    rounding it to nearest, leave it not negative. *)
Lemma shr_1_nonneg (mrs : shr_record) : 0 <= shr_m mrs -> 0 <= shr_m (shr_1 mrs).
Proof.
  destruct mrs as [m r s]. cbn [shr_m]. intros H.
  destruct m as [|[p|p|]|p]; cbn; lia.
Qed.

Lemma iter_pos_nonneg (p : positive) : forall mrs,
  0 <= shr_m mrs -> 0 <= shr_m (SpecFloat.iter_pos shr_1 p mrs).
Proof.
  induction p as [p IH|p IH|]; intros mrs H; cbn [SpecFloat.iter_pos].
  - apply IH, IH, shr_1_nonneg, H.
  - apply IH, IH, H.
  - apply shr_1_nonneg, H.
Qed.

Lemma shr_fexp_nonneg (m e : Z) (l : location) :
  0 <= m -> 0 <= shr_m (fst (shr_fexp prec emax m e l)).
Proof.
  intros H. unfold shr_fexp, shr.
  assert (H0 : 0 <= shr_m (shr_record_of_loc m l))
    by (destruct l as [|[]]; exact H).
  destruct (fexp prec emax (Zdigits2 m + e) - e); cbn [fst]; auto.
  apply iter_pos_nonneg, H0.
Qed.

Lemma round_nearest_even_nonneg (m : Z) (l : location) :
  0 <= m -> 0 <= round_nearest_even m l.
Proof.
  intros H. destruct l as [|[]]; cbn [round_nearest_even]; try lia.
  destruct (Z.even m); lia.
Qed.

Lemma binary_round_aux_signed (sx : bool) (mx ex : Z) (lx : location) :
  0 <= mx -> sf_signed sx (binary_round_aux prec emax sx mx ex lx).
Proof.
  intros H. unfold binary_round_aux.
  pose proof (shr_fexp_nonneg mx ex lx H) as H1.
  destruct (shr_fexp prec emax mx ex lx) as [mrs' e']. cbn [fst] in H1.
  pose proof (shr_fexp_nonneg
    (round_nearest_even (shr_m mrs') (loc_of_shr_record mrs')) e' loc_Exact
    (round_nearest_even_nonneg _ _ H1)) as H2.
  destruct (shr_fexp prec emax _ e' loc_Exact) as [mrs'' e'']. cbn [fst] in H2.
  destruct (shr_m mrs'') as [|m|m]; [reflexivity | | lia].
  destruct (e'' <=? emax - prec); reflexivity.
Qed.

Lemma binary_round_signed (sx : bool) (mx : positive) (ex : Z) :
  sf_signed sx (binary_round prec emax sx mx ex).
Proof.
  unfold binary_round. destruct (shl_align mx ex _) as [mz ez].
  apply binary_round_aux_signed. lia.
Qed.

Lemma binary_normalize_nonneg (m e : Z) :
  0 <= m -> sf_nonneg (binary_normalize prec emax m e false) = true.
Proof.
  intros H. destruct m as [|m|m]; [reflexivity | | lia].
  apply sf_signed_nonneg, binary_round_signed.
Qed.

Lemma SFadd_nonneg (x y : spec_float) :
  sf_nonneg x = true -> sf_nonneg y = true -> sf_nonneg (SF64add x y) = true.
Proof.
  destruct x as [sx|[]| |[] mx ex]; try discriminate;
  destruct y as [sy|[]| |[] my ey]; try discriminate; intros _ _;
    try reflexivity.
  - destruct sx, sy; reflexivity.
  - unfold SF64add, SFadd. apply binary_normalize_nonneg. cbn [cond_Zopp]. lia.
Qed.

Lemma SFmul_nonneg (x : spec_float) (my : positive) (ey : Z) :
  sf_nonneg x = true ->
  sf_nonneg (SF64mul x (S754_finite false my ey)) = true.
Proof.
  destruct x as [sx|[]| |[] mx ex]; try discriminate; intros _.
  - reflexivity.
  - reflexivity.
  - unfold SF64mul, SFmul. apply sf_signed_nonneg.
    apply (binary_round_aux_signed false). lia.
Qed.

Lemma SFdiv_nonneg (x : spec_float) (my : positive) (ey : Z) :
  sf_nonneg x = true ->
  sf_nonneg (SF64div x (S754_finite false my ey)) = true.
Proof.
  destruct x as [sx|[]| |[] mx ex]; try discriminate; intros _.
  - reflexivity.
  - reflexivity.
  - unfold SF64div, SFdiv.
    destruct (SFdiv_core_binary prec emax (Z.pos mx) ex (Z.pos my) ey)
      as [[mz ez] lz] eqn:E.
    apply sf_signed_nonneg. apply (binary_round_aux_signed false).
    unfold SFdiv_core_binary in E.
    set (m' := match _ - _ - _ with Z0 => _ | Zpos _ => _ | Zneg _ => _ end) in E.
    assert (Hm : 0 <= m').
    { subst m'. destruct (_ - _ - _); try lia.
      rewrite Z.shiftl_mul_pow2 by lia. apply Z.mul_nonneg_nonneg; lia. }
    pose proof (Z.div_pos m' (Z.pos my) Hm ltac:(lia)) as Hq.
    unfold Z.div in Hq.
    destruct (Z.div_eucl m' (Z.pos my)) as [q r]. injection E as <- _ _.
    exact Hq.
Qed.

(** The mantissa of a binary64 number has at most 53 bits, and exactly 53
    unless the exponent is the least one. *)
Lemma iter_xO_ge (m d : positive) : 2 * Z.pos m <= Z.pos (Pos.iter xO m d).
Proof.
  apply (Pos.iter_ind _ xO m (fun _ x => 2 * Z.pos m <= Z.pos x)); intros; lia.
Qed.

Lemma digits2_size (m : positive) : digits2_pos m = Pos.size m.
Proof. induction m; cbn; congruence. Qed.

Lemma valid_finite (s : bool) (m : positive) (e : Z) :
  valid_binary (S754_finite s m e) = true ->
  Z.pos m < 2 ^ 53 /\ -1074 <= e /\ (-1074 < e -> 2 ^ 52 <= Z.pos m).
Proof.
  cbn [SpecFloat.valid_binary]. unfold bounded, canonical_mantissa, fexp.
  intros [H _]%andb_prop. apply Z.eqb_eq in H.
  change (SpecFloat.emin prec emax) with (-1074) in H.
  change prec with 53 in H. rewrite digits2_size in H.
  pose proof (Pos.size_gt m) as Hgt. pose proof (Pos.size_le m) as Hle.
  apply Pos2Z.pos_lt_pos in Hgt. apply Pos2Z.pos_le_pos in Hle.
  rewrite Pos2Z.inj_pow in Hgt, Hle.
  set (D := Z.pos (Pos.size m)) in *.
  assert (HD : D <= 53) by lia.
  split; [| split; [lia |]].
  - eapply Z.lt_le_trans; [exact Hgt |]. apply Z.pow_le_mono_r; lia.
  - intros He. assert (D = 53) as HD' by lia. rewrite HD' in Hle.
    change (2 ^ 53) with (2 * 2 ^ 52) in Hle. lia.
Qed.

(** A difference [x - y] of a number [x] that is not negative and a
    positive finite [y] that [x < y] does not hold of is not negative. *)
Lemma SFsub_nonneg (x y : spec_float) (my : positive) (ey : Z) :
  y = S754_finite false my ey ->
  valid_binary x = true -> valid_binary y = true ->
  sf_nonneg x = true -> SFltb x y = false ->
  sf_nonneg (SF64sub x y) = true.
Proof.
  intros -> Vx Vy.
  destruct x as [sx|[]| |[] mx ex]; try discriminate; intros _.
  - reflexivity.
  - unfold SFltb, SFcompare. intros Hcmp.
    unfold SF64sub, SFsub. apply binary_normalize_nonneg. cbn [cond_Zopp].
    apply valid_finite in Vx as (Hx1 & Hx2 & Hx3).
    apply valid_finite in Vy as (Hy1 & Hy2 & Hy3).
    unfold shl_align.
    destruct (Z.compare_spec ex ey) as [-> | Hlt | Hgt]; [| discriminate |].
    + rewrite Z.min_id, Z.sub_diag. cbn [fst].
      rewrite Pos.compare_cont_spec in Hcmp. cbn in Hcmp.
      destruct (Pos.compare_spec mx my) as [-> | Hlt | Hgt];
        [lia | discriminate | lia].
    + rewrite Z.min_r by lia. rewrite Z.sub_diag. cbn [fst].
      destruct (ey - ex) as [|d|d] eqn:Ed; try lia. cbn [fst].
      pose proof (iter_xO_ge mx d). lia.
Qed.

Local Open Scope float_scope.

Lemma SFeqb_refl (f : spec_float) :
  SFeqb f f = match f with S754_nan => false | _ => true end.
Proof.
  destruct f as [s|s| |s m e]; try destruct s; try reflexivity;
    unfold SFeqb, SFcompare;
    rewrite Z.compare_refl, Pos.compare_cont_refl; reflexivity.
Qed.

(** The tests of [PrimFloat], read on the specification. *)
Lemma is_nan_spec (x : float) :
  is_nan x = match Prim2SF x with S754_nan => true | _ => false end.
Proof.
  unfold is_nan. rewrite FloatAxioms.eqb_spec, SFeqb_refl.
  destruct (Prim2SF x); reflexivity.
Qed.

Lemma is_finite_spec (x : float) : is_finite x = sf_finite (Prim2SF x).
Proof.
  unfold is_finite. rewrite is_nan_spec. unfold is_infinity.
  rewrite FloatAxioms.eqb_spec, abs_spec.
  change (Prim2SF infinity) with (S754_infinity false).
  destruct (Prim2SF x) as [s|s| |s m e]; reflexivity.
Qed.

Lemma leb_zero (x : float) : (0 <=? x) = sf_nonneg (Prim2SF x).
Proof.
  rewrite FloatAxioms.leb_spec. change (Prim2SF 0) with (S754_zero false).
  destruct (Prim2SF x) as [s|s| |s m e]; try destruct s; reflexivity.
Qed.

Lemma eqb_zero (x : float) :
  (x =? 0) = match Prim2SF x with S754_zero _ => true | _ => false end.
Proof.
  rewrite FloatAxioms.eqb_spec. change (Prim2SF 0) with (S754_zero false).
  destruct (Prim2SF x) as [s|s| |s m e]; try destruct s; reflexivity.
Qed.

(** What passing a guard says of a number. *)
Lemma positive_finite (x : float) :
  (x <=? 0) = false -> is_finite x = true ->
  exists m e, Prim2SF x = S754_finite false m e.
Proof.
  rewrite FloatAxioms.leb_spec, is_finite_spec.
  change (Prim2SF 0) with (S754_zero false).
  destruct (Prim2SF x) as [s|s| |s m e]; try destruct s; try discriminate.
  intros _ _. eauto.
Qed.

Lemma gt_zero_finite (x : float) :
  (0 <? x) = true -> is_finite x = true ->
  exists m e, Prim2SF x = S754_finite false m e.
Proof.
  rewrite FloatAxioms.ltb_spec, is_finite_spec.
  change (Prim2SF 0) with (S754_zero false).
  destruct (Prim2SF x) as [s|s| |s m e]; try destruct s; try discriminate.
  intros _ _. eauto.
Qed.

Lemma not_lt_zero_finite (x : float) :
  (x <? 0) = false -> is_finite x = true -> (0 <=? x) = true.
Proof.
  rewrite FloatAxioms.ltb_spec, is_finite_spec, leb_zero.
  change (Prim2SF 0) with (S754_zero false).
  destruct (Prim2SF x) as [s|s| |s m e]; try destruct s; try discriminate;
    reflexivity.
Qed.

Lemma not_le_zero (x : float) :
  (x <=? 0) = false -> (0 <? x) = true \/ is_nan x = true.
Proof.
  rewrite FloatAxioms.leb_spec, FloatAxioms.ltb_spec, is_nan_spec.
  change (Prim2SF 0) with (S754_zero false).
  destruct (Prim2SF x) as [s|s| |s m e]; try destruct s; try discriminate;
    auto.
Qed.

Lemma zero_add_positive (d : float) : (0 <? d) = true -> 0 + d = d.
Proof.
  rewrite FloatAxioms.ltb_spec. change (Prim2SF 0) with (S754_zero false).
  intros H. apply Prim2SF_inj. rewrite add_spec.
  change (Prim2SF 0) with (S754_zero false).
  destruct (Prim2SF d) as [s|s| |s m e]; try destruct s; try discriminate;
    reflexivity.
Qed.

Lemma neither_sign_zero (d : float) :
  (d <? 0) = false -> (0 <? d) = false -> is_nan d = false -> (d =? 0) = true.
Proof.
  rewrite !FloatAxioms.ltb_spec, is_nan_spec, eqb_zero.
  change (Prim2SF 0) with (S754_zero false).
  destruct (Prim2SF d) as [s|s| |s m e]; try destruct s; try discriminate;
    reflexivity.
Qed.

(** The sign of what the methods compute. *)
Lemma add_nonneg (b a : float) :
  (0 <=? b) = true -> (0 <=? a) = true -> (0 <=? b + a) = true.
Proof. rewrite !leb_zero, add_spec. apply SFadd_nonneg. Qed.

Lemma deposit_nonneg (b a : float) :
  (0 <=? b) = true -> (a <=? 0) = false -> is_finite a = true ->
  (0 <=? b + a) = true.
Proof.
  intros Hb Ha Hf. apply add_nonneg; [exact Hb |].
  destruct (positive_finite a Ha Hf) as (m & e & E).
  rewrite leb_zero, E. reflexivity.
Qed.

Lemma withdraw_nonneg (b a : float) :
  (0 <=? b) = true -> (a <=? 0) = false -> (b <? a) = false ->
  is_finite a = true -> (0 <=? b - a) = true.
Proof.
  intros Hb Ha Hlt Hf. destruct (positive_finite a Ha Hf) as (m & e & E).
  rewrite leb_zero in *. rewrite sub_spec. rewrite FloatAxioms.ltb_spec in Hlt.
  apply (SFsub_nonneg _ _ m e E); auto using Prim2SF_valid.
Qed.

Lemma interest_nonneg (b r : float) :
  (0 <=? b) = true -> (0 <? r) = true -> is_finite r = true ->
  (0 <=? b * r / 100) = true.
Proof.
  intros Hb Hr Hf. destruct (gt_zero_finite r Hr Hf) as (m & e & E).
  rewrite leb_zero in *. rewrite div_spec, mul_spec, E.
  change (Prim2SF 100) with (S754_finite false 7036874417766400 (-46)).
  apply SFdiv_nonneg, SFmul_nonneg, Hb.
Qed.

(** Two numbers that are the same stay the same when the same amount is
    added to or subtracted from both. *)
Lemma same_number_refl (x : float) : same_number x x.
Proof. left. reflexivity. Qed.

Lemma same_number_add (x y a : float) :
  same_number x y -> same_number (x + a) (y + a).
Proof.
  intros [-> | [Hx Hy]]; [left; reflexivity |].
  rewrite eqb_zero in Hx, Hy.
  destruct (Prim2SF x) as [sx| | |] eqn:Ex; try discriminate.
  destruct (Prim2SF y) as [sy| | |] eqn:Ey; try discriminate.
  destruct (Prim2SF a) as [sa|sa| |sa ma ea] eqn:Ea.
  - right. rewrite !eqb_zero, !add_spec, Ex, Ey, Ea.
    destruct sx, sy, sa; split; reflexivity.
  - left. apply Prim2SF_inj. rewrite !add_spec, Ex, Ey, Ea. reflexivity.
  - left. apply Prim2SF_inj. rewrite !add_spec, Ex, Ey, Ea. reflexivity.
  - left. apply Prim2SF_inj. rewrite !add_spec, Ex, Ey, Ea. reflexivity.
Qed.

Lemma same_number_sub (x y a : float) :
  same_number x y -> same_number (x - a) (y - a).
Proof.
  intros [-> | [Hx Hy]]; [left; reflexivity |].
  rewrite eqb_zero in Hx, Hy.
  destruct (Prim2SF x) as [sx| | |] eqn:Ex; try discriminate.
  destruct (Prim2SF y) as [sy| | |] eqn:Ey; try discriminate.
  destruct (Prim2SF a) as [sa|sa| |sa ma ea] eqn:Ea.
  - right. rewrite !eqb_zero, !sub_spec, Ex, Ey, Ea.
    destruct sx, sy, sa; split; reflexivity.
  - left. apply Prim2SF_inj. rewrite !sub_spec, Ex, Ey, Ea. reflexivity.
  - left. apply Prim2SF_inj. rewrite !sub_spec, Ex, Ey, Ea. reflexivity.
  - left. apply Prim2SF_inj. rewrite !sub_spec, Ex, Ey, Ea. reflexivity.
Qed.

Lemma same_number_eqb (x y : float) :
  same_number x y -> is_nan y = false -> (x =? y) = true.
Proof.
  intros [-> | [Hx Hy]] Hn.
  - unfold is_nan in Hn. apply negb_false_iff in Hn. exact Hn.
  - rewrite eqb_zero in Hx, Hy. rewrite FloatAxioms.eqb_spec.
    destruct (Prim2SF x); try discriminate.
    destruct (Prim2SF y); try discriminate. reflexivity.
Qed.

(** ** The methods of the account over binary64, case by case *)

Lemma deposit_eq (now : string) (amount : float) (self : Account) :
  deposit now amount self
  = if amount <=? 0
    then (Raise (InvalidAmountError "Deposit amount must be positive"), self)
    else (Ok tt,
          set_transactions
            (transactions self
               ++ [mkTransaction "Deposit" amount (balance self + amount) now])
            (set_balance (balance self + amount) self)).
Proof. unfold deposit. destruct (amount <=? 0); reflexivity. Qed.

Lemma withdraw_eq (now : string) (amount : float) (self : Account) :
  withdraw now amount self
  = if amount <=? 0
    then (Raise (InvalidAmountError "Withdrawal amount must be positive"), self)
    else if balance self <? amount
    then (Raise (InsufficientBalanceError (balance self)), self)
    else (Ok tt,
          set_transactions
            (transactions self
               ++ [mkTransaction "Withdrawal" amount (balance self - amount) now])
            (set_balance (balance self - amount) self)).
Proof.
  unfold withdraw. destruct (amount <=? 0); [reflexivity |].
  unfold bind, get. destruct (balance self <? amount); reflexivity.
Qed.

Lemma add_interest_eq (now : string) (rate : option float) (self : Account) :
  add_interest now rate self
  = let interest := balance self * default default_rate rate / 100 in
    (Ok tt,
     set_transactions
       (transactions self
          ++ [mkTransaction "Interest Credit" interest
                            (balance self + interest) now])
       (set_balance (balance self + interest) self)).
Proof. reflexivity. Qed.

Lemma new_account_eq t0 t1 number name_ pin_ d type_ account :
  new_account t0 t1 number name_ pin_ d type_ = Ok account ->
  (d <? 0) = false
  /\ account = mkAccount number name_ pin_ d type_ t0
                 (if 0 <? d then [mkTransaction "Initial Deposit" d d t1]
                  else []).
Proof.
  unfold new_account. destruct (d <? 0); [discriminate |].
  destruct (0 <? d); intros [= <-]; split; reflexivity.
Qed.

Lemma session_invariant (P : Account -> Prop) (ok : operation -> Prop) :
  (forall op self, ok op -> P self -> P (snd (perform op self))) ->
  forall ops self, Forall ok ops -> P self -> P (session ops self).
Proof.
  intros Hstep ops. induction ops as [| op ops IH]; intros self Hok HP.
  - exact HP.
  - inversion Hok; subst. cbn. apply IH; [assumption |]. apply Hstep; assumption.
Qed.

(** ** The balance is never negative *)

Lemma perform_nonneg (op : operation) (self : Account) :
  finite_inputs op = true -> (0 <=? balance self) = true ->
  (0 <=? balance (snd (perform op self))) = true.
Proof.
  destruct op as [now a | now a | now r]; intros Hop Hb;
    cbn [perform finite_inputs] in *.
  - rewrite deposit_eq. destruct (a <=? 0) eqn:Ha; [exact Hb |].
    cbn. apply deposit_nonneg; assumption.
  - rewrite withdraw_eq. destruct (a <=? 0) eqn:Ha; [exact Hb |].
    destruct (balance self <? a) eqn:Hlt; [exact Hb |].
    cbn. apply withdraw_nonneg; assumption.
  - apply andb_prop in Hop as [Hf Hr].
    rewrite add_interest_eq. cbn. apply add_nonneg; [exact Hb |].
    apply interest_nonneg; assumption.
Qed.

(** C3, as the code has it: the balance of an account that [create_account]
    opened is [>= 0] after any sequence of [deposit], [withdraw] and
    [add_interest] calls, failed ones included, provided the initial
    deposit and every amount are finite numbers and every rate credited is
    a finite number above 0 (the default 3.5 is one); and each such call
    keeps a balance that is [>= 0] so. *)
Theorem balance_nonneg t0 t1 number name_ pin_ (d : float) type_
    (ops : list operation) (account : Account) :
  is_finite d = true ->
  Forall (fun op => finite_inputs op = true) ops ->
  new_account t0 t1 number name_ pin_ d type_ = Ok account ->
  (0 <=? balance (session ops account)) = true
  /\ (forall op self,
        finite_inputs op = true -> (0 <=? balance self) = true ->
        (0 <=? balance (snd (perform op self))) = true).
Proof.
  intros Hd Hops Hnew. split; [| apply perform_nonneg].
  apply (session_invariant (fun self => (0 <=? balance self) = true)
           (fun op => finite_inputs op = true)); [| exact Hops |].
  - apply perform_nonneg.
  - apply new_account_eq in Hnew as [Hlt ->]. cbn.
    apply not_lt_zero_finite; assumption.
Qed.

Lemma balance_nonneg_witness :
  (0 <=? balance
           (session [Deposit "t2" 50; Withdraw "t3" 200; Withdraw "t4" 30;
                     AddInterest "t5" None; AddInterest "t6" (Some 0.5)]
                    (mkAccount "ACC1001" "Alice" "1234" 100 "Savings" "t0"
                       [mkTransaction "Initial Deposit" 100 100 "t1"])))
  = true.
Proof.
  refine (proj1 (balance_nonneg "t0" "t1" "ACC1001" "Alice" "1234" 100
                   "Savings"
                   [Deposit "t2" 50; Withdraw "t3" 200; Withdraw "t4" 30;
                    AddInterest "t5" None; AddInterest "t6" (Some 0.5)]
                   (mkAccount "ACC1001" "Alice" "1234" 100 "Savings" "t0"
                      [mkTransaction "Initial Deposit" 100 100 "t1"])
                   _ _ _)).
  - reflexivity.
  - repeat constructor.
  - reflexivity.
Defined.

(** C3 as stated fails: crediting interest at rate -200 on a balance of 100
    leaves the balance at -100. *)
Lemma balance_nonneg_counterexample :
  exists account,
    new_account "t0" "t1" "ACC1001" "Alice" "1234" 100 "Savings" = Ok account
    /\ balance (session [AddInterest "t2" (Some (-200))] account) = -100
    /\ (0 <=? balance (session [AddInterest "t2" (Some (-200))] account))
       = false.
Proof. eexists. split_and!; reflexivity. Qed.

(** The bounds of C3 are the ones binary64 asks for.  At rate -100 the
    interest on 865.5272369789457 is rounded to more than the balance; a
    NaN passes the guard of [deposit]; at rate 0 the interest on a balance
    that has overflowed is NaN; withdrawing infinity from such a balance
    leaves NaN. *)
Example balance_nonneg_bounds :
  (0 <=? balance (snd (add_interest "t" (Some (-100))
                         (Account_init "t0" "ACC1001" "Alice" "1234"
                            0x1.b0c37c8056e82p+9 "Savings")))) = false
  /\ (0 <=? balance (snd (deposit "t" nan
                            (Account_init "t0" "ACC1001" "Alice" "1234"
                               100 "Savings")))) = false
  /\ (0 <=? balance
              (session [Deposit "t1" 0x1p+1023; Deposit "t2" 0x1p+1023;
                        AddInterest "t3" (Some 0)]
                       (Account_init "t0" "ACC1001" "Alice" "1234"
                                     0 "Savings"))) = false
  /\ (0 <=? balance
              (session [Deposit "t1" 0x1p+1023; Deposit "t2" 0x1p+1023;
                        Withdraw "t3" infinity]
                       (Account_init "t0" "ACC1001" "Alice" "1234"
                                     0 "Savings"))) = false.
Proof. split_and!; reflexivity. Qed.

(** ** Replaying the transaction log *)

Lemma replay_snoc (log : list Transaction) (t : Transaction) :
  replay (log ++ [t]) = replay_step (replay log) t.
Proof. unfold replay. apply foldl_snoc. Qed.

Lemma replay_step_credit (running : float) (ty : string) (amount bal : float)
    (date : string) :
  ty = "Initial Deposit" \/ ty = "Deposit" \/ ty = "Interest Credit" ->
  replay_step running (mkTransaction ty amount bal date) = running + amount.
Proof. intros [-> | [-> | ->]]; reflexivity. Qed.

Lemma replay_step_debit (running amount bal : float) (date : string) :
  replay_step running (mkTransaction "Withdrawal" amount bal date)
  = running - amount.
Proof. reflexivity. Qed.

Lemma snapshots_from_snoc (log : list Transaction) : forall running t,
  snapshots_from running log ->
  same_number (replay_step (foldl replay_step running log) t) (tx_balance t) ->
  snapshots_from running (log ++ [t]).
Proof.
  induction log as [| t0 log IH]; intros running t Hs Ht; cbn in *.
  - auto.
  - destruct Hs as [H0 Hs]. split; [exact H0 |]. apply IH; assumption.
Qed.

Lemma snapshots_from_entry (pre : list Transaction) : forall running t post,
  snapshots_from running (pre ++ t :: post) ->
  same_number (foldl replay_step running (pre ++ [t])) (tx_balance t).
Proof.
  induction pre as [| u pre IH]; intros running t post; cbn.
  - intros [H _]. exact H.
  - intros [_ H]. apply (IH _ _ _ H).
Qed.

Lemma new_account_snapshots t0 t1 number name_ pin_ d type_ account :
  is_nan d = false ->
  new_account t0 t1 number name_ pin_ d type_ = Ok account ->
  snapshots_consistent account.
Proof.
  intros Hn [Hlt ->]%new_account_eq. unfold snapshots_consistent. cbn.
  destruct (0 <? d) eqn:Hgt; cbn.
  - rewrite replay_step_credit by auto. rewrite (zero_add_positive d Hgt).
    auto using same_number_refl.
  - split; [exact I |]. right. split; [reflexivity |].
    apply neither_sign_zero; assumption.
Qed.

Lemma perform_snapshots (op : operation) (self : Account) :
  snapshots_consistent self -> snapshots_consistent (snd (perform op self)).
Proof.
  intros [Hs Hr].
  assert (Hadd : forall ty amount now,
    ty = "Initial Deposit" \/ ty = "Deposit" \/ ty = "Interest Credit" ->
    snapshots_consistent
      (set_transactions
         (transactions self
            ++ [mkTransaction ty amount (balance self + amount) now])
         (set_balance (balance self + amount) self))).
  { intros ty amount now Hty. unfold snapshots_consistent.
    cbn [transactions balance set_transactions set_balance]. split.
    - apply snapshots_from_snoc; [exact Hs |].
      rewrite replay_step_credit by exact Hty. cbn [tx_balance].
      apply same_number_add, Hr.
    - rewrite replay_snoc, replay_step_credit by exact Hty.
      apply same_number_add, Hr. }
  destruct op as [now a | now a | now r]; cbn [perform].
  - rewrite deposit_eq. destruct (a <=? 0); [split; assumption |].
    apply Hadd. auto.
  - rewrite withdraw_eq. destruct (a <=? 0); [split; assumption |].
    destruct (balance self <? a); [split; assumption |].
    unfold snapshots_consistent.
    cbn [snd transactions balance set_transactions set_balance]. split.
    + apply snapshots_from_snoc; [exact Hs |].
      rewrite replay_step_debit. cbn [tx_balance]. apply same_number_sub, Hr.
    + rewrite replay_snoc, replay_step_debit. apply same_number_sub, Hr.
  - rewrite add_interest_eq. apply Hadd. auto.
Qed.

Lemma session_snapshots t0 t1 number name_ pin_ d type_ ops account :
  is_nan d = false ->
  new_account t0 t1 number name_ pin_ d type_ = Ok account ->
  snapshots_consistent (session ops account).
Proof.
  intros Hn Hnew.
  apply (session_invariant snapshots_consistent (fun _ => True)).
  - intros op self _. apply perform_snapshots.
  - apply Forall_true. auto.
  - eapply new_account_snapshots; eassumption.
Qed.

(** C8, as the code has it: for an account that [create_account] opened
    with an initial deposit that is not NaN, after any sequence of
    [deposit], [withdraw] and [add_interest] calls (any amounts, any
    rates, failed calls included), replaying the log from 0 gives the
    stored balance: the same float, or two zeros; so [==] holds between
    the two unless the balance is NaN. *)
Theorem replay_reproduces_balance t0 t1 number name_ pin_ (d : float) type_
    (ops : list operation) (account : Account) :
  is_nan d = false ->
  new_account t0 t1 number name_ pin_ d type_ = Ok account ->
  same_number (replay (transactions (session ops account)))
              (balance (session ops account))
  /\ (is_nan (balance (session ops account)) = false ->
      (replay (transactions (session ops account))
       =? balance (session ops account)) = true).
Proof.
  intros Hn Hnew.
  destruct (session_snapshots _ _ _ _ _ _ _ ops _ Hn Hnew) as [_ Hr].
  split; [exact Hr |]. apply same_number_eqb, Hr.
Qed.

Lemma replay_reproduces_balance_witness :
  (replay (transactions
             (session [Deposit "t2" 50; Withdraw "t3" 200; Withdraw "t4" 30;
                       AddInterest "t5" (Some 3.5);
                       AddInterest "t6" (Some (-200))]
                      (mkAccount "ACC1001" "Alice" "1234" 100 "Savings" "t0"
                         [mkTransaction "Initial Deposit" 100 100 "t1"])))
   =? balance
        (session [Deposit "t2" 50; Withdraw "t3" 200; Withdraw "t4" 30;
                  AddInterest "t5" (Some 3.5);
                  AddInterest "t6" (Some (-200))]
                 (mkAccount "ACC1001" "Alice" "1234" 100 "Savings" "t0"
                    [mkTransaction "Initial Deposit" 100 100 "t1"])))
  = true.
Proof.
  refine (proj2 (replay_reproduces_balance "t0" "t1" "ACC1001" "Alice" "1234"
                   100 "Savings"
                   [Deposit "t2" 50; Withdraw "t3" 200; Withdraw "t4" 30;
                    AddInterest "t5" (Some 3.5);
                    AddInterest "t6" (Some (-200))]
                   (mkAccount "ACC1001" "Alice" "1234" 100 "Savings" "t0"
                      [mkTransaction "Initial Deposit" 100 100 "t1"])
                   _ _) _); reflexivity.
Defined.

(** C8 as stated fails: [create_account] lets a NaN through as initial
    deposit ([initial_deposit < 0] is false of it), stores it as the
    balance and logs nothing ([initial_deposit > 0] is false too); the
    replay of the empty log gives 0. *)
Lemma replay_nan_counterexample :
  exists account,
    new_account "t0" "t1" "ACC1001" "Alice" "1234" nan "Savings" = Ok account
    /\ transactions account = []
    /\ is_nan (balance account) = true
    /\ replay (transactions account) = 0
    /\ (replay (transactions account) =? balance account) = false
    /\ ~ same_number (replay (transactions account)) (balance account).
Proof.
  eexists. split_and!; try reflexivity.
  intros [H | [_ H]]; vm_compute in H; discriminate H.
Qed.

End Binary64.

(** ** Decimal numerals: [int] and [str] *)

Ltac ascii_cases c H :=
  destruct c as [[] [] [] [] [] [] [] []]; vm_compute in H; try discriminate H.

Lemma digit_not_space (c : ascii) : is_digit c = true -> is_int_space c = false.
Proof. intros H. ascii_cases c H; reflexivity. Qed.

Lemma digit_not_underscore (c : ascii) :
  is_digit c = true -> Ascii.eqb c "_" = false.
Proof. intros H. ascii_cases c H; reflexivity. Qed.

Lemma digit_uint_of_char (c : ascii) (d : uint) :
  is_digit c = true -> is_Some (uint_of_char c (Some d)).
Proof. intros H. ascii_cases c H; eexists; reflexivity. Qed.

Lemma all_digits_string_of_uint (d : uint) :
  all_digits (NilEmpty.string_of_uint d) = true.
Proof. induction d; cbn; auto. Qed.

Lemma string_of_uint_nonempty (d : uint) :
  d <> Nil -> NilEmpty.string_of_uint d <> EmptyString.
Proof. destruct d; cbn; congruence. Qed.

Lemma rskip_digits (s : string) :
  all_digits s = true -> rskip is_int_space s = s.
Proof.
  induction s as [| c r IH]; [reflexivity |].
  cbn. intros [Hc Hr]%andb_prop. rewrite (IH Hr).
  destruct r; [| reflexivity].
  rewrite (digit_not_space c Hc). reflexivity.
Qed.

Lemma strip_digits (s : string) :
  all_digits s = true -> rskip is_int_space (lskip is_int_space s) = s.
Proof.
  intros H. destruct s as [| c r]; [reflexivity |].
  cbn [lskip]. pose proof H as [Hc _]%andb_prop.
  rewrite (digit_not_space c Hc). apply rskip_digits, H.
Qed.

Lemma strip_minus_digits (s : string) :
  all_digits s = true -> s <> EmptyString ->
  rskip is_int_space (lskip is_int_space (String "-" s)) = String "-" s.
Proof.
  intros H Hne.
  change (lskip is_int_space (String "-" s)) with (String "-" s).
  change (rskip is_int_space (String "-" s))
    with (match rskip is_int_space s with
          | EmptyString => String "-" EmptyString
          | String c r => String "-" (String c r)
          end).
  rewrite (rskip_digits s H).
  destruct s; [congruence | reflexivity].
Qed.

Lemma literal_digits_all (s : string) : forall after_digit : bool,
  all_digits s = true -> after_digit = true \/ s <> EmptyString ->
  literal_digits after_digit s = Some s.
Proof.
  induction s as [| c r IH]; intros b H Hb; cbn.
  - destruct Hb as [-> | Hne]; [reflexivity | congruence].
  - cbn in H. apply andb_prop in H as [Hc Hr].
    rewrite (digit_not_underscore c Hc), Hc, (IH true Hr) by auto.
    reflexivity.
Qed.

Lemma uint_of_string_digits (s : string) :
  all_digits s = true -> is_Some (NilEmpty.uint_of_string s).
Proof.
  induction s as [| c r IH]; cbn; [eauto |].
  intros [Hc Hr]%andb_prop. destruct (IH Hr) as [d ->].
  apply digit_uint_of_char, Hc.
Qed.

Lemma magnitude_digits (s : string) :
  all_digits s = true -> s <> EmptyString ->
  exists d, NilEmpty.uint_of_string s = Some d
            /\ magnitude s = Some (Z.of_uint d).
Proof.
  intros H Hne. destruct (uint_of_string_digits s H) as [d Hd].
  exists d. split; [exact Hd |].
  unfold magnitude. rewrite literal_digits_all by auto. cbn.
  rewrite Hd. reflexivity.
Qed.

Lemma py_int_digits (s : string) :
  all_digits s = true -> s <> EmptyString -> py_int s = magnitude s.
Proof.
  intros H Hne. unfold py_int. rewrite (strip_digits s H).
  destruct s as [| c r]; [congruence |].
  pose proof H as [Hc _]%andb_prop.
  ascii_cases c Hc; reflexivity.
Qed.

Lemma of_uint_nonneg (d : uint) : (0 <= Z.of_uint d)%Z.
Proof. unfold Z.of_uint. apply N2Z.is_nonneg. Qed.

(** [int(str(n)) = n] *)
Lemma py_int_py_str (n : Z) : py_int (py_str n) = Some n.
Proof.
  destruct n as [| p | p]; [reflexivity | |].
  - unfold py_str. cbn [Z.to_int NilZero.string_of_int].
    pose proof (DecimalPos.Unsigned.to_uint_nonnil p) as Hnil.
    pose proof (DecimalZ.of_to (Z.pos p)) as Hval. cbn in Hval.
    set (d := Pos.to_uint p) in *.
    assert (E : NilZero.string_of_uint d = NilEmpty.string_of_uint d)
      by (destruct d; [congruence | reflexivity ..]).
    rewrite E, py_int_digits
      by auto using all_digits_string_of_uint, string_of_uint_nonempty.
    unfold magnitude.
    rewrite literal_digits_all
      by auto using all_digits_string_of_uint, string_of_uint_nonempty.
    cbn. rewrite NilEmpty.usu. cbn. rewrite Hval. reflexivity.
  - unfold py_str. cbn [Z.to_int NilZero.string_of_int].
    pose proof (DecimalPos.Unsigned.to_uint_nonnil p) as Hnil.
    pose proof (DecimalZ.of_to (Z.neg p)) as Hval. cbn in Hval.
    set (d := Pos.to_uint p) in *.
    assert (E : NilZero.string_of_uint d = NilEmpty.string_of_uint d)
      by (destruct d; [congruence | reflexivity ..]).
    rewrite E. unfold py_int.
    rewrite strip_minus_digits
      by auto using all_digits_string_of_uint, string_of_uint_nonempty.
    unfold magnitude.
    rewrite literal_digits_all
      by auto using all_digits_string_of_uint, string_of_uint_nonempty.
    cbn. rewrite NilEmpty.usu. cbn. rewrite Hval. reflexivity.
Qed.

Lemma id_number_generated (n : Z) : id_number ("ACC" +:+ py_str n) = Some n.
Proof. apply py_int_py_str. Qed.

Lemma acc_shaped_number (key : string) :
  acc_shaped key -> exists n, id_number key = Some n /\ (0 <= n)%Z.
Proof.
  intros (ds & -> & Hne & Hd). unfold id_number.
  change (drop3 ("ACC" +:+ ds)) with ds.
  rewrite py_int_digits by assumption.
  destruct (magnitude_digits ds Hd Hne) as (d & _ & ->).
  eauto using of_uint_nonneg.
Qed.

(** ** BankManagementSystem.generate_account_number *)

Lemma elem_of_keys {A} (m : gmap string A) (k : string) :
  k ∈ (map_to_list m).*1 <-> is_Some (m !! k).
Proof.
  rewrite list_elem_of_fmap. split.
  - intros [[k' v] [-> H]]. apply elem_of_map_to_list in H. eauto.
  - intros [v H]. exists (k, v). split; [reflexivity |].
    apply elem_of_map_to_list, H.
Qed.

Lemma Forall2_elem_l {A B} (R : A -> B -> Prop) (l : list A) (k : list B) x :
  Forall2 R l k -> x ∈ l -> exists y, y ∈ k /\ R x y.
Proof.
  induction 1 as [| a b l k Hab _ IH]; intros Hx.
  - inversion Hx.
  - apply elem_of_cons in Hx as [-> | Hx].
    + exists b. split; [left | exact Hab].
    + destruct (IH Hx) as (y & Hy & Hxy). exists y. split; [right |]; assumption.
Qed.

Lemma Forall2_elem_r {A B} (R : A -> B -> Prop) (l : list A) (k : list B) y :
  Forall2 R l k -> y ∈ k -> exists x, x ∈ l /\ R x y.
Proof.
  induction 1 as [| a b l k Hab _ IH]; intros Hy.
  - inversion Hy.
  - apply elem_of_cons in Hy as [-> | Hy].
    + exists a. split; [left | exact Hab].
    + destruct (IH Hy) as (x & Hx & Hxy). exists x. split; [right |]; assumption.
Qed.

Lemma generate_empty (self : BankManagementSystem) :
  accounts self = ∅ -> generate_account_number self = (Ok "ACC1001", self).
Proof.
  intros H. rewrite generate_account_number_eq.
  rewrite bool_decide_eq_true_2 by exact H. reflexivity.
Qed.

Lemma generate_nonempty (self : BankManagementSystem) :
  accounts self <> ∅ -> keys_numbered self ->
  exists m, last_number self m
            /\ generate_account_number self
               = (Ok ("ACC" +:+ py_str (m + 1)), self).
Proof.
  intros Hne Hkeys. rewrite generate_account_number_eq.
  rewrite bool_decide_eq_false_2 by exact Hne.
  destruct (mapM id_number (map_to_list (accounts self)).*1) as [nums |] eqn:E.
  - apply mapM_Some_1 in E.
    destruct nums as [| hd tl].
    + apply Forall2_length in E. rewrite length_fmap in E.
      destruct (map_to_list (accounts self)) eqn:El; [| discriminate E].
      apply map_to_list_empty_iff in El. contradiction.
    + exists (py_max hd tl). split; [split |]; [| | reflexivity].
      * destruct (Forall2_elem_r _ _ _ _ E (py_max_in tl hd)) as (k & Hk & Hn).
        exists k. split; [apply elem_of_keys, Hk | exact Hn].
      * intros k v Hk Hv. apply elem_of_keys in Hk.
        destruct (Forall2_elem_l _ _ _ _ E Hk) as (y & Hy & Hky).
        assert (y = v) as -> by congruence.
        apply py_max_ge, Hy.
  - exfalso. apply mapM_None_1, Exists_exists in E as (k & Hk & Hnone).
    apply elem_of_keys, Hkeys in Hk.
    rewrite Hnone in Hk. destruct Hk as [? [=]].
Qed.

Lemma generate_fails (self : BankManagementSystem) :
  ~ keys_numbered self ->
  generate_account_number self = (Raise ValueError, self).
Proof.
  intros Hkeys. rewrite generate_account_number_eq.
  destruct (bool_decide_reflect (accounts self = ∅)) as [Hm | Hm].
  - exfalso. apply Hkeys. intros k [v Hk]. rewrite Hm, lookup_empty in Hk.
    discriminate.
  - destruct (mapM id_number (map_to_list (accounts self)).*1) as [nums |] eqn:E.
    + exfalso. apply Hkeys. intros k Hk%elem_of_keys.
      apply mapM_Some_1 in E.
      destruct (Forall2_elem_l _ _ _ _ E Hk) as (y & _ & Hy). eauto.
    + reflexivity.
Qed.

Lemma keys_numbered_dec (self : BankManagementSystem) :
  keys_numbered self \/ ~ keys_numbered self.
Proof.
  destruct (mapM id_number (map_to_list (accounts self)).*1) as [nums |] eqn:E.
  - left. intros k Hk%elem_of_keys. apply mapM_Some_1 in E.
    destruct (Forall2_elem_l _ _ _ _ E Hk) as (y & _ & Hy). eauto.
  - right. intros Hkeys.
    apply mapM_None_1, Exists_exists in E as (k & Hk & Hnone).
    apply elem_of_keys, Hkeys in Hk.
    rewrite Hnone in Hk. destruct Hk as [? [=]].
Qed.

(** Whatever [generate_account_number] returns ends with a number larger
    than the number of every identifier of the directory. *)
Lemma generate_above (self : BankManagementSystem) (id : string) :
  fst (generate_account_number self) = Ok id ->
  exists n, id_number id = Some n
            /\ forall k v, is_Some (accounts self !! k) ->
                           id_number k = Some v -> (v < n)%Z.
Proof.
  intros Hgen.
  destruct (decide (accounts self = ∅)) as [Hm | Hm].
  - rewrite (generate_empty self Hm) in Hgen. injection Hgen as <-.
    exists 1001%Z. split; [reflexivity |].
    intros k v [a Hk]. rewrite Hm, lookup_empty in Hk. discriminate.
  - destruct (keys_numbered_dec self) as [Hkeys | Hkeys].
    + destruct (generate_nonempty self Hm Hkeys) as (m & [_ Hmax] & E).
      rewrite E in Hgen. injection Hgen as <-.
      exists (m + 1)%Z. split; [apply id_number_generated |].
      intros k v Hk Hv. specialize (Hmax k v Hk Hv). lia.
    + rewrite (generate_fails self Hkeys) in Hgen. discriminate.
Qed.

Lemma generate_fresh (self : BankManagementSystem) (id : string) :
  fst (generate_account_number self) = Ok id -> accounts self !! id = None.
Proof.
  intros Hgen. destruct (generate_above self id Hgen) as (n & Hn & Habove).
  destruct (accounts self !! id) as [a |] eqn:E; [| reflexivity].
  specialize (Habove id n (ex_intro _ a E) Hn). lia.
Qed.

Lemma keys_numbered_cases (self : BankManagementSystem) :
  keys_numbered self
  \/ exists k, is_Some (accounts self !! k) /\ id_number k = None.
Proof.
  destruct (mapM id_number (map_to_list (accounts self)).*1) as [nums |] eqn:E.
  - left. intros k Hk%elem_of_keys. apply mapM_Some_1 in E.
    destruct (Forall2_elem_l _ _ _ _ E Hk) as (y & _ & Hy). eauto.
  - right. apply mapM_None_1, Exists_exists in E as (k & Hk & Hnone).
    exists k. split; [apply elem_of_keys, Hk | exact Hnone].
Qed.

Lemma generate_total (self : BankManagementSystem) :
  keys_numbered self ->
  exists id, generate_account_number self = (Ok id, self).
Proof.
  intros Hkeys. destruct (decide (accounts self = ∅)) as [Hm | Hm].
  - eexists. apply generate_empty, Hm.
  - destruct (generate_nonempty self Hm Hkeys) as (m & _ & E). eauto.
Qed.

Lemma create_account_returns (self : BankManagementSystem)
    (t0 t1 name_ pin_ : string) (d : Q) (type_ : string) :
  keys_numbered self -> (0 <= d)%Q ->
  exists id self',
    create_account t0 t1 name_ pin_ d type_ self = (Ok id, self')
    /\ fst (generate_account_number self) = Ok id
    /\ accounts self'
       = <[id := opened_account t0 t1 id name_ pin_ d type_]> (accounts self)
    /\ keys_numbered self'.
Proof.
  intros Hkeys Hd. destruct (generate_total self Hkeys) as [id Hgen].
  assert (Hfst : fst (generate_account_number self) = Ok id)
    by (rewrite Hgen; reflexivity).
  rewrite create_account_eq. apply Qlt_bool_false in Hd. rewrite Hd, Hfst.
  eexists _, _. split; [reflexivity |]. split; [reflexivity |].
  split; [reflexivity |]. cbn.
  intros k [a Hk]. cbn in Hk. destruct (decide (id = k)) as [<- | Hne].
  - destruct (generate_above self id Hfst) as (n & Hn & _). eauto.
  - rewrite lookup_insert_ne in Hk by exact Hne. eauto.
Qed.

Lemma delete_account_returns (self : BankManagementSystem)
    (number candidate : string) (account : Account) :
  accounts self !! number = Some account -> pin account = candidate ->
  exists self',
    delete_account number candidate self = (Ok tt, self')
    /\ accounts self' = delete number (accounts self).
Proof.
  intros Hk Hp. rewrite delete_account_eq, get_account_eq, Hk.
  rewrite bool_decide_eq_true_2 by exact Hp.
  eexists. split; reflexivity.
Qed.

(** The scenario "create A, create B, delete A, create C". *)
Lemma create_create_delete_create (self : BankManagementSystem)
    (tA tA' nameA pinA : string) (dA : Q) (typeA : string)
    (tB tB' nameB pinB : string) (dB : Q) (typeB : string)
    (tC tC' nameC pinC : string) (dC : Q) (typeC : string) :
  keys_numbered self -> (0 <= dA)%Q -> (0 <= dB)%Q -> (0 <= dC)%Q ->
  exists a b c self1 self2 self3 self4,
    create_account tA tA' nameA pinA dA typeA self = (Ok a, self1)
    /\ create_account tB tB' nameB pinB dB typeB self1 = (Ok b, self2)
    /\ delete_account a pinA self2 = (Ok tt, self3)
    /\ create_account tC tC' nameC pinC dC typeC self3 = (Ok c, self4)
    /\ c <> a /\ c <> b.
Proof.
  intros Hkeys HdA HdB HdC.
  destruct (create_account_returns self tA tA' nameA pinA dA typeA Hkeys HdA)
    as (a & self1 & HcA & HgA & Hacc1 & Hkeys1).
  destruct (create_account_returns self1 tB tB' nameB pinB dB typeB Hkeys1 HdB)
    as (b & self2 & HcB & HgB & Hacc2 & Hkeys2).
  destruct (generate_above self a HgA) as (na & Hna & _).
  destruct (generate_above self1 b HgB) as (nb & Hnb & HaboveB).
  assert (Ha1 : is_Some (accounts self1 !! a))
    by (rewrite Hacc1, lookup_insert_eq; eauto).
  assert (Hab : (na < nb)%Z) by exact (HaboveB a na Ha1 Hna).
  assert (Hne : b <> a) by (intros ->; rewrite Hna in Hnb; injection Hnb; lia).
  assert (Ha2 : accounts self2 !! a
                = Some (opened_account tA tA' a nameA pinA dA typeA)).
  { rewrite Hacc2, lookup_insert_ne by exact Hne.
    rewrite Hacc1. apply lookup_insert_eq. }
  destruct (delete_account_returns self2 a pinA _ Ha2 eq_refl)
    as (self3 & Hdel & Hacc3).
  assert (Hkeys3 : keys_numbered self3).
  { intros k [x Hk]. rewrite Hacc3 in Hk.
    apply lookup_delete_Some in Hk as [_ Hk]. apply Hkeys2. eauto. }
  destruct (create_account_returns self3 tC tC' nameC pinC dC typeC Hkeys3 HdC)
    as (c & self4 & HcC & HgC & _ & _).
  destruct (generate_above self3 c HgC) as (nc & Hnc & HaboveC).
  assert (Hb3 : is_Some (accounts self3 !! b)).
  { rewrite Hacc3, lookup_delete_ne by congruence.
    rewrite Hacc2, lookup_insert_eq. eauto. }
  assert (Hbc : (nb < nc)%Z) by exact (HaboveC b nb Hb3 Hnb).
  exists a, b, c, self1, self2, self3, self4.
  repeat (split; [assumption |]).
  split; intros ->; rewrite Hnc in *; [injection Hna | injection Hnb]; lia.
Qed.

(** C4, as the code has it: [generate_account_number] returns ["ACC1001"]
    on an empty mapping, and otherwise ["ACC"] followed by one more than
    the largest number the existing identifiers end with; what it returns
    is never an identifier of the mapping; and after create A, create B,
    delete A, create C the identifier of C differs from those of A and B. *)
Theorem generate_account_number_spec (self : BankManagementSystem) :
  (accounts self = ∅ ->
     generate_account_number self = (Ok "ACC1001", self))
  /\ (accounts self <> ∅ -> keys_numbered self ->
      exists m, last_number self m
                /\ generate_account_number self
                   = (Ok ("ACC" +:+ py_str (m + 1)), self))
  /\ (forall id, fst (generate_account_number self) = Ok id ->
                 accounts self !! id = None)
  /\ (forall tA tA' nameA pinA dA typeA tB tB' nameB pinB dB typeB
             tC tC' nameC pinC dC typeC,
        keys_numbered self -> (0 <= dA)%Q -> (0 <= dB)%Q -> (0 <= dC)%Q ->
        exists a b c self1 self2 self3 self4,
          create_account tA tA' nameA pinA dA typeA self = (Ok a, self1)
          /\ create_account tB tB' nameB pinB dB typeB self1 = (Ok b, self2)
          /\ delete_account a pinA self2 = (Ok tt, self3)
          /\ create_account tC tC' nameC pinC dC typeC self3 = (Ok c, self4)
          /\ c <> a /\ c <> b).
Proof.
  split_and!.
  - apply generate_empty.
  - apply generate_nonempty.
  - apply generate_fresh.
  - intros. apply create_create_delete_create; assumption.
Qed.

Lemma empty_bank_numbered : keys_numbered empty_bank.
Proof. intros k [a Hk]. cbn in Hk. rewrite lookup_empty in Hk. discriminate. Qed.

Lemma generate_account_number_spec_witness :
  generate_account_number empty_bank = (Ok "ACC1001", empty_bank)
  /\ exists a b c self1 self2 self3 self4,
       create_account "t0" "t1" "Alice" "1111" 100 "Savings" empty_bank
       = (Ok a, self1)
       /\ create_account "t2" "t3" "Bob" "2222" 0 "Current" self1 = (Ok b, self2)
       /\ delete_account a "1111" self2 = (Ok tt, self3)
       /\ create_account "t4" "t5" "Carol" "3333" 5 "Savings" self3
          = (Ok c, self4)
       /\ c <> a /\ c <> b.
Proof.
  destruct (generate_account_number_spec empty_bank) as (H1 & _ & _ & H4).
  split.
  - apply H1. reflexivity.
  - apply H4; [exact empty_bank_numbered | discriminate ..].
Defined.

(** C4 as stated fails: an identifier that was deleted while it was the
    highest is issued again.  After create A, create B, delete B, the next
    identifier is the one B had. *)
Lemma identifier_reuse_counterexample :
  fst (create_account "t2" "t3" "Bob" "2222" 0 "Current"
         (run [CreateAccount "t0" "t1" "Alice" "1111" 100 "Savings"] empty_bank))
  = Ok "ACC1002"
  /\ fst (delete_account "ACC1002" "2222"
            (run [CreateAccount "t0" "t1" "Alice" "1111" 100 "Savings";
                  CreateAccount "t2" "t3" "Bob" "2222" 0 "Current"] empty_bank))
     = Ok tt
  /\ fst (create_account "t4" "t5" "Carol" "3333" 5 "Savings"
            (run [CreateAccount "t0" "t1" "Alice" "1111" 100 "Savings";
                  CreateAccount "t2" "t3" "Bob" "2222" 0 "Current";
                  DeleteAccount "ACC1002" "2222"] empty_bank))
     = Ok "ACC1002".
Proof. split_and!; vm_compute; reflexivity. Qed.

(** C10, as the code has it.  On a mapping whose keys have at most 4300
    characters (CPython refuses to convert more than 4300 digits, a limit
    such keys stay within): [generate_account_number] raises exactly when
    for some key of the mapping [int(key[3:])] raises, the first three
    characters of a key being skipped without a look at them; it never
    changes the directory.  When every key is ["ACC"] followed by a decimal
    numeral it returns, the number its result ends with is larger than the
    number of every key, and its result is not a key of the mapping. *)
Theorem generate_account_number_total (self : BankManagementSystem) :
  keys_within_limit self ->
  ((exists e, fst (generate_account_number self) = Raise e)
   <-> exists k, is_Some (accounts self !! k) /\ py_int (drop3 k) = None)
  /\ snd (generate_account_number self) = self
  /\ (map_Forall (fun k _ => acc_shaped k) (accounts self) ->
      exists id n,
        generate_account_number self = (Ok id, self)
        /\ id = "ACC" +:+ py_str n
        /\ (forall k v, is_Some (accounts self !! k) ->
                        id_number k = Some v -> (v < n)%Z)
        /\ accounts self !! id = None).
Proof.
  intros _. split_and!.
  - split.
    + intros [e He].
      destruct (keys_numbered_cases self) as [Hkeys | Hbad]; [| exact Hbad].
      destruct (generate_total self Hkeys) as [id Hid].
      rewrite Hid in He. discriminate.
    + intros (k & Hk & Hnone). exists ValueError.
      rewrite generate_fails; [reflexivity |].
      intros Hkeys. destruct (Hkeys k Hk) as [v Hv].
      unfold id_number in Hv. congruence.
  - rewrite generate_account_number_eq. reflexivity.
  - intros Hshape.
    assert (Hkeys : keys_numbered self).
    { intros k [a Hk]. destruct (acc_shaped_number k (Hshape k a Hk)) as [n [Hn _]].
      eauto. }
    destruct (decide (accounts self = ∅)) as [Hm | Hm].
    + exists "ACC1001", 1001%Z. split_and!.
      * apply generate_empty, Hm.
      * reflexivity.
      * intros k v [a Hk]. rewrite Hm, lookup_empty in Hk. discriminate.
      * rewrite Hm. apply lookup_empty.
    + destruct (generate_nonempty self Hm Hkeys) as (m & [_ Hmax] & E).
      exists ("ACC" +:+ py_str (m + 1)), (m + 1)%Z. split_and!.
      * exact E.
      * reflexivity.
      * intros k v Hk Hv. specialize (Hmax k v Hk Hv). lia.
      * apply generate_fresh. rewrite E. reflexivity.
Qed.

Lemma generate_account_number_total_witness :
  exists id n,
    generate_account_number
      (run [CreateAccount "t0" "t1" "Alice" "1111" 100 "Savings";
            CreateAccount "t2" "t3" "Bob" "2222" 0 "Current";
            DeleteAccount "ACC1001" "1111"] empty_bank)
    = (Ok id,
       run [CreateAccount "t0" "t1" "Alice" "1111" 100 "Savings";
            CreateAccount "t2" "t3" "Bob" "2222" 0 "Current";
            DeleteAccount "ACC1001" "1111"] empty_bank)
    /\ id = "ACC" +:+ py_str n.
Proof.
  destruct (generate_account_number_total
              (run [CreateAccount "t0" "t1" "Alice" "1111" 100 "Savings";
                    CreateAccount "t2" "t3" "Bob" "2222" 0 "Current";
                    DeleteAccount "ACC1001" "1111"] empty_bank))
    as (_ & _ & H).
  { apply map_Forall_to_list. vm_compute. repeat constructor. }
  destruct H as (id & n & Hgen & Hid & _).
  - apply map_Forall_to_list. vm_compute.
    repeat constructor. exists "1002". repeat split. discriminate.
  - exists id, n. split; assumption.
Defined.

(** C10 as stated fails: a key of another shape need not make
    [generate_account_number] fail.  A directory loaded from a file whose
    only key is ["XYZ7"] yields ["ACC8"]. *)
Lemma generate_other_shape_counterexample :
  is_Some
    (accounts
       (Bank_init "t"
          (Some (JObject
             [("XYZ7",
               get_details (Account_init "t0" "XYZ7" "Alice" "1234" 10
                                         "Savings"))])))
     !! "XYZ7")
  /\ ~ acc_shaped "XYZ7"
  /\ fst (generate_account_number
            (Bank_init "t"
               (Some (JObject
                  [("XYZ7",
                    get_details (Account_init "t0" "XYZ7" "Alice" "1234" 10
                                              "Savings"))]))))
     = Ok "ACC8".
Proof.
  split_and!.
  - vm_compute. eauto.
  - intros (ds & H & _). discriminate H.
  - vm_compute. reflexivity.
Qed.

(** ** save_data and load_data *)

Lemma transaction_of_to_json {S} (t : Transaction) (s : S) :
  transaction_of_json (transaction_to_json t) s = (Ok t, s).
Proof. destruct t. reflexivity. Qed.

Lemma transactions_of_to_json {S} (l : list Transaction) (s : S) :
  comprehension transaction_of_json (transaction_to_json <$> l) s = (Ok l, s).
Proof.
  induction l as [| t l IH]; [reflexivity |].
  cbn [comprehension fmap list_fmap]. unfold bind at 1.
  rewrite transaction_of_to_json. unfold bind at 1. rewrite IH. reflexivity.
Qed.

(** What [load_data] builds from the record [get_details] wrote is the
    account itself, whenever it is read. *)
Lemma account_of_get_details {S} (now : string) (self : Account) (s : S) :
  account_of_json now (get_details self) s = (Ok self, s).
Proof.
  destruct self as [number nm pn bal ty created txs].
  unfold account_of_json, get_details. cbn [account_number name pin balance
    account_type creation_date transactions].
  repeat (unfold bind at 1;
          cbn [subscript items_lookup String.eqb Ascii.eqb Bool.eqb
               as_string as_number as_array ret]).
  rewrite transactions_of_to_json. reflexivity.
Qed.

Lemma get_details_inj (a b : Account) : get_details a = get_details b -> a = b.
Proof.
  intros H.
  pose proof (account_of_get_details "" a tt) as Ha.
  rewrite H, account_of_get_details in Ha. congruence.
Qed.

Lemma load_items_details (now : string) (items : list (string * json)) :
  NoDup items.*1 ->
  (forall k j, (k, j) ∈ items -> exists account, j = get_details account) ->
  forall self, exists accs,
    load_items now items self = (Ok tt, mkBank (data_file self) accs)
    /\ (forall k account, (k, get_details account) ∈ items ->
                          accs !! k = Some account)
    /\ (forall k, k ∉ items.*1 -> accs !! k = accounts self !! k).
Proof.
  induction items as [| [k0 j0] items IH]; intros Hnd Hall self.
  - exists (accounts self). destruct self. split; [reflexivity |].
    split; [| reflexivity]. intros k a H. inversion H.
  - cbn in Hnd. apply NoDup_cons in Hnd as [Hk0 Hnd].
    destruct (Hall k0 j0 ltac:(left)) as [a0 ->].
    destruct (IH Hnd (fun k j H => Hall k j ltac:(right; exact H))
                 (set_accounts (insert k0 a0) self))
      as (accs & Hload & Hin & Hout).
    exists accs. split_and!.
    + cbn [load_items]. unfold bind at 1. rewrite account_of_get_details.
      unfold bind at 1. cbn [modify]. exact Hload.
    + intros k a Hk. apply elem_of_cons in Hk as [Heq | Hk].
      * pose proof (f_equal fst Heq) as Hkey.
        pose proof (f_equal snd Heq) as Hd. cbn [fst snd] in Hkey, Hd.
        apply get_details_inj in Hd. subst k a.
        rewrite (Hout k0 Hk0). cbn. apply lookup_insert_eq.
      * apply Hin, Hk.
    + intros k Hk. cbn in Hk. apply not_elem_of_cons in Hk as [Hne Hk].
      rewrite (Hout k Hk). cbn. apply lookup_insert_ne. congruence.
Qed.

Lemma load_saved (now : string) (saved : gmap string Account)
    (self : BankManagementSystem) :
  data_file self = Some (JObject (map_to_list (get_details <$> saved))) ->
  (forall k, saved !! k = None -> accounts self !! k = None) ->
  load_data now self = (Ok tt, mkBank (data_file self) saved).
Proof.
  intros Hfile Hsub. unfold load_data, bind, get. rewrite Hfile. rewrite <- Hfile.
  unfold try_except.
  destruct (load_items_details now (map_to_list (get_details <$> saved))
              (NoDup_fst_map_to_list _)) with (self := self)
    as (accs & -> & Hin & Hout).
  - intros k j Hkj. apply elem_of_map_to_list in Hkj.
    rewrite lookup_fmap in Hkj.
    destruct (saved !! k) as [a |]; [| discriminate].
    injection Hkj as <-. eauto.
  - f_equal. f_equal. apply map_eq. intros k.
    destruct (saved !! k) as [a |] eqn:E.
    + apply Hin, elem_of_map_to_list. rewrite lookup_fmap, E. reflexivity.
    + rewrite Hout; [apply Hsub, E |].
      intros Hk. apply elem_of_keys in Hk as [j Hj].
      rewrite lookup_fmap, E in Hj. discriminate.
Qed.

(** C9: whatever accounts a directory holds, [save_data] followed by
    [load_data], in a fresh [BankManagementSystem] on the file just written
    or in the same object, gives a mapping equal to the one saved: the same
    identifiers, and under each an account equal in every field and in
    every entry of its transaction log. *)
Theorem save_load_roundtrip (self : BankManagementSystem) (now : string) :
  accounts (Bank_init now (data_file (snd (save_data self)))) = accounts self
  /\ accounts (snd (load_data now (snd (save_data self)))) = accounts self
  /\ fst (load_data now (snd (save_data self))) = Ok tt.
Proof.
  rewrite save_data_eq. cbn [snd data_file]. unfold Bank_init.
  split_and!.
  - rewrite (load_saved now (accounts self)); [reflexivity .. |].
    intros k _. apply lookup_empty.
  - rewrite (load_saved now (accounts self)); [reflexivity .. |].
    intros k H. exact H.
  - rewrite (load_saved now (accounts self)); [reflexivity .. |].
    intros k H. exact H.
Qed.

(** ** A session of the ledger

    Alice opens the first account with 100, deposits 50, tries to withdraw
    200 and is refused, and is credited interest at 3.5. *)
Example alice_session :
  let opened :=
    create_account "t0" "t1" "Alice" "1234" 100 "Savings" empty_bank in
  let session :=
    run [Deposit "ACC1001" "t2" 50;
         Withdraw "ACC1001" "t3" 200;
         AddInterest "ACC1001" "t4" (Some 3.5%Q)] (snd opened) in
  fst opened = Ok "ACC1001"
  /\ accounts (snd opened) !! "ACC1001"
     = Some (mkAccount "ACC1001" "Alice" "1234" 100 "Savings" "t0"
               [mkTransaction "Initial Deposit" 100 100 "t1"])
  /\ fst (on_account "ACC1001" (withdraw "t3" 200)
            (run [Deposit "ACC1001" "t2" 50] (snd opened)))
     = Raise (InsufficientBalanceError 150)
  /\ (transactions <$> accounts session !! "ACC1001")
     = Some [mkTransaction "Initial Deposit" 100 100 "t1";
             mkTransaction "Deposit" 50 150 "t2";
             mkTransaction "Interest Credit" 5.250 155.250 "t4"]
  /\ (exists account, accounts session !! "ACC1001" = Some account
                      /\ (balance account == 155.25)%Q).
Proof.
  cbv zeta. split_and!; try (vm_compute; reflexivity).
  eexists. split; [vm_compute; reflexivity | reflexivity].
Qed.

(** * Further properties of the ledger core *)

(** ** BankManagementSystem.delete_account *)

(** X1: [delete_account] fails as [get_account] does, with
    [InvalidAccountError] for an unknown identifier and [InvalidPINError]
    for a wrong pin, and then changes neither the mapping nor the file.
    With the right pin it removes that account and no other, rewrites the
    file from the new mapping, and the identifier is unknown afterwards. *)
Theorem delete_account_spec (self : BankManagementSystem)
    (number candidate : string) :
  (accounts self !! number = None ->
     delete_account number candidate self
     = (Raise (InvalidAccountError "Account not found"), self))
  /\ (forall account,
        accounts self !! number = Some account -> pin account <> candidate ->
        delete_account number candidate self
        = (Raise (InvalidPINError "Incorrect PIN"), self))
  /\ (forall account,
        accounts self !! number = Some account -> pin account = candidate ->
        exists self',
          delete_account number candidate self = (Ok tt, self')
          /\ accounts self' !! number = None
          /\ (forall k, k <> number -> accounts self' !! k = accounts self !! k)
          /\ file_in_sync self'
          /\ forall p, get_account number p self'
                       = (Raise (InvalidAccountError "Account not found"),
                          self')).
Proof.
  rewrite delete_account_eq, get_account_eq. split_and!.
  - intros ->. reflexivity.
  - intros account -> Hp.
    rewrite bool_decide_eq_false_2 by exact Hp. reflexivity.
  - intros account -> Hp.
    rewrite bool_decide_eq_true_2 by exact Hp. rewrite save_data_eq.
    eexists. split; [reflexivity |]. split_and!.
    + apply lookup_delete_eq.
    + intros k Hk. apply lookup_delete_ne. congruence.
    + reflexivity.
    + intros p. rewrite get_account_eq.
      cbn [accounts set_accounts]. rewrite lookup_delete_eq. reflexivity.
Qed.

Lemma delete_account_spec_witness :
  let self := run [CreateAccount "t0" "t1" "Alice" "1111" 100 "Savings";
                   CreateAccount "t2" "t3" "Bob" "2222" 0 "Current"]
                  empty_bank in
  fst (delete_account "ACC1009" "1111" self)
  = Raise (InvalidAccountError "Account not found")
  /\ fst (delete_account "ACC1001" "2222" self)
     = Raise (InvalidPINError "Incorrect PIN")
  /\ fst (delete_account "ACC1001" "1111" self) = Ok tt.
Proof.
  intros self.
  destruct (delete_account_spec self "ACC1009" "1111") as (H1 & _ & _).
  destruct (delete_account_spec self "ACC1001" "2222") as (_ & H2 & _).
  destruct (delete_account_spec self "ACC1001" "1111") as (_ & _ & H3).
  split_and!.
  - rewrite H1; reflexivity.
  - erewrite H2; [reflexivity | vm_compute; reflexivity | discriminate].
  - edestruct H3 as (self' & -> & _);
      [vm_compute; reflexivity | reflexivity | reflexivity].
Defined.

(** ** Account.update_pin and Account.verify_pin *)

(** X2: [update_pin] accepts any text, the empty one included, and never
    fails; it changes the pin and nothing else, and does not write the
    file.  Afterwards [get_account] returns the account for the new pin
    and raises [InvalidPINError] for every other candidate, the old pin
    included. *)
Theorem update_pin_then_get_account (self : BankManagementSystem)
    (number new_pin : string) (account : Account) :
  accounts self !! number = Some account ->
  exists self',
    on_account number (update_pin new_pin) self = (Ok tt, self')
    /\ accounts self' !! number = Some (set_pin new_pin account)
    /\ (forall k, k <> number -> accounts self' !! k = accounts self !! k)
    /\ data_file self' = data_file self
    /\ get_account number new_pin self' = (Ok (set_pin new_pin account), self')
    /\ (forall candidate, candidate <> new_pin ->
          get_account number candidate self'
          = (Raise (InvalidPINError "Incorrect PIN"), self')).
Proof.
  intros Hk. rewrite (on_account_Some _ _ _ _ Hk).
  change (update_pin new_pin account) with (Ok tt, set_pin new_pin account).
  cbn [fst snd].
  eexists. split; [reflexivity |]. split_and!.
  - apply lookup_insert_eq.
  - intros k Hne. apply lookup_insert_ne. congruence.
  - reflexivity.
  - rewrite get_account_eq. cbn [accounts set_accounts].
    rewrite lookup_insert_eq.
    rewrite bool_decide_eq_true_2 by reflexivity. reflexivity.
  - intros candidate Hne. rewrite get_account_eq. cbn [accounts set_accounts].
    rewrite lookup_insert_eq.
    rewrite bool_decide_eq_false_2 by (cbn; congruence). reflexivity.
Qed.

Lemma update_pin_then_get_account_witness :
  exists self',
    on_account "ACC1001" (update_pin "")
      (run [CreateAccount "t0" "t1" "Alice" "1111" 100 "Savings"] empty_bank)
    = (Ok tt, self')
    /\ fst (get_account "ACC1001" "1111" self')
       = Raise (InvalidPINError "Incorrect PIN").
Proof.
  edestruct (update_pin_then_get_account
               (run [CreateAccount "t0" "t1" "Alice" "1111" 100 "Savings"]
                    empty_bank) "ACC1001" "")
    as (self' & Hup & _ & _ & _ & _ & Hold).
  - vm_compute. reflexivity.
  - exists self'. split; [exact Hup |].
    rewrite (Hold "1111"); [reflexivity | discriminate].
Defined.

(** ** BankManagementSystem.create_account, once more *)

(** X4: [create_account] is all or nothing and never overwrites.  Either
    it raises and leaves the mapping and the file as they were, or it
    returns an identifier that was not a key, stores the new account under
    it, leaves every other entry alone, so that the directory has one more
    account, and rewrites the file from the new mapping. *)
Theorem create_account_atomic (self : BankManagementSystem)
    (t0 t1 name_ pin_ : string) (d : Q) (type_ : string) :
  (exists e, create_account t0 t1 name_ pin_ d type_ self = (Raise e, self))
  \/ (exists id self',
        create_account t0 t1 name_ pin_ d type_ self = (Ok id, self')
        /\ accounts self !! id = None
        /\ accounts self' !! id
           = Some (opened_account t0 t1 id name_ pin_ d type_)
        /\ (forall k, k <> id -> accounts self' !! k = accounts self !! k)
        /\ size (accounts self') = S (size (accounts self))
        /\ file_in_sync self').
Proof.
  rewrite create_account_eq.
  destruct (Qlt_bool d 0); [left; eauto |].
  destruct (fst (generate_account_number self)) as [id | e] eqn:Hgen;
    [right | left; eauto].
  pose proof (generate_fresh self id Hgen) as Hfresh.
  eexists _, _. split; [reflexivity |]. cbn [accounts]. split_and!.
  - exact Hfresh.
  - apply lookup_insert_eq.
  - intros k Hk. apply lookup_insert_ne. congruence.
  - apply map_size_insert_None, Hfresh.
  - reflexivity.
Qed.

(** X5: the identifier [create_account] returns opens the account with the
    pin given at creation: [get_account] returns an account with that
    identifier, the name, pin and type given, the initial deposit as its
    balance, and a log that holds one ["Initial Deposit"] entry when the
    deposit is positive and nothing otherwise; any other pin is refused. *)
Theorem create_then_get_account (self self' : BankManagementSystem)
    (t0 t1 name_ pin_ : string) (d : Q) (type_ id : string) :
  create_account t0 t1 name_ pin_ d type_ self = (Ok id, self') ->
  exists account,
    get_account id pin_ self' = (Ok account, self')
    /\ account_number account = id /\ name account = name_
    /\ pin account = pin_ /\ account_type account = type_
    /\ creation_date account = t0 /\ balance account = d
    /\ (0 <= d)%Q
    /\ ((0 < d)%Q ->
        transactions account = [mkTransaction "Initial Deposit" d d t1])
    /\ ((d == 0)%Q -> transactions account = [])
    /\ (forall candidate, candidate <> pin_ ->
          get_account id candidate self'
          = (Raise (InvalidPINError "Incorrect PIN"), self')).
Proof.
  rewrite create_account_eq.
  destruct (Qlt_bool d 0) eqn:Hd; [discriminate |].
  apply Qlt_bool_false in Hd.
  destruct (fst (generate_account_number self)) as [number | e];
    [| discriminate].
  cbv zeta. intros [= -> <-].
  exists (opened_account t0 t1 id name_ pin_ d type_).
  split_and!; try reflexivity.
  - rewrite get_account_eq. cbn [accounts]. rewrite lookup_insert_eq.
    rewrite bool_decide_eq_true_2 by reflexivity. reflexivity.
  - exact Hd.
  - intros Hpos. unfold opened_account. cbn [transactions].
    apply Qgt_bool_true in Hpos. rewrite Hpos. reflexivity.
  - intros Hzero. unfold opened_account. cbn [transactions].
    assert (H : Qgt_bool d 0 = false) by (apply Qgt_bool_false; lra).
    rewrite H. reflexivity.
  - intros candidate Hne. rewrite get_account_eq. cbn [accounts].
    rewrite lookup_insert_eq.
    rewrite bool_decide_eq_false_2 by (cbn; congruence). reflexivity.
Qed.

Lemma create_then_get_account_witness :
  exists account,
    get_account "ACC1001" "1234"
      (snd (create_account "t0" "t1" "Alice" "1234" 100 "Savings" empty_bank))
    = (Ok account,
       snd (create_account "t0" "t1" "Alice" "1234" 100 "Savings" empty_bank))
    /\ balance account = 100%Q.
Proof.
  edestruct (create_then_get_account empty_bank
               (snd (create_account "t0" "t1" "Alice" "1234" 100 "Savings"
                                    empty_bank))
               "t0" "t1" "Alice" "1234" 100 "Savings" "ACC1001")
    as (account & Hget & _ & _ & _ & _ & _ & Hbal & _).
  - vm_compute. reflexivity.
  - exists account. split; assumption.
Defined.

(** ** Failure leaves no trace *)

Lemma deposit_raises (now : string) (amount : Q) (obj : Account) (e : error) :
  fst (deposit now amount obj) = Raise e -> snd (deposit now amount obj) = obj.
Proof.
  unfold deposit. destruct (Qle_bool amount 0); [reflexivity | discriminate].
Qed.

Lemma withdraw_raises (now : string) (amount : Q) (obj : Account) (e : error) :
  fst (withdraw now amount obj) = Raise e -> snd (withdraw now amount obj) = obj.
Proof.
  unfold withdraw. destruct (Qle_bool amount 0); [reflexivity |].
  cbn. destruct (Qgt_bool amount (balance obj)); [reflexivity | discriminate].
Qed.

Lemma on_account_raises {A} (key : string) (m : M Account A)
    (self : BankManagementSystem) (e : error) :
  (forall obj e', fst (m obj) = Raise e' -> snd (m obj) = obj) ->
  fst (on_account key m self) = Raise e ->
  snd (on_account key m self) = self.
Proof.
  intros Hm. destruct (accounts self !! key) as [obj |] eqn:E.
  - rewrite (on_account_Some _ _ _ _ E). cbn [fst snd]. intros H.
    rewrite (Hm obj e H). apply set_accounts_insert_id, E.
  - rewrite (on_account_None _ _ _ E). reflexivity.
Qed.

(** X6: a core operation that raises has changed nothing.  Whenever
    [create_account], [delete_account], or [deposit], [withdraw] or
    [add_interest] on an account of the directory raises, the directory,
    mapping and file, is exactly what it was before the call. *)
Theorem failed_command_changes_nothing (c : command)
    (self : BankManagementSystem) (e : error) :
  fst (run_command c self) = Raise e -> snd (run_command c self) = self.
Proof.
  destruct c as [t0 t1 name_ pin_ d type_ | number candidate
                | number now amount | number now amount | number now rate];
    cbn [run_command].
  - unfold bind. rewrite create_account_eq.
    destruct (Qlt_bool d 0); [reflexivity |].
    destruct (fst (generate_account_number self)); [discriminate | reflexivity].
  - rewrite delete_account_eq, get_account_eq.
    destruct (accounts self !! number) as [account |]; [| reflexivity].
    destruct (bool_decide (pin account = candidate));
      [discriminate | reflexivity].
  - apply on_account_raises. intros obj e'. apply deposit_raises.
  - apply on_account_raises. intros obj e'. apply withdraw_raises.
  - apply on_account_raises. intros obj e'. discriminate.
Qed.

Lemma failed_command_changes_nothing_witness :
  snd (run_command (Withdraw "ACC1001" "t2" 200)
         (run [CreateAccount "t0" "t1" "Alice" "1234" 100 "Savings"]
              empty_bank))
  = run [CreateAccount "t0" "t1" "Alice" "1234" 100 "Savings"] empty_bank.
Proof.
  apply (failed_command_changes_nothing _ _ (InsufficientBalanceError 100)).
  vm_compute. reflexivity.
Defined.

(** ** The transaction log *)

Lemma extends_log_refl (obj : Account) : extends_log obj obj.
Proof.
  exists []. rewrite app_nil_r. repeat split. cbn. lia.
Qed.

Lemma deposit_extends_log now amount obj :
  extends_log obj (snd (deposit now amount obj)).
Proof.
  unfold deposit. destruct (Qle_bool amount 0); [apply extends_log_refl |].
  eexists [_]. repeat split. cbn. lia.
Qed.

Lemma withdraw_extends_log now amount obj :
  extends_log obj (snd (withdraw now amount obj)).
Proof.
  unfold withdraw. destruct (Qle_bool amount 0); [apply extends_log_refl |].
  cbn. destruct (Qgt_bool amount (balance obj)); [apply extends_log_refl |].
  eexists [_]. repeat split. cbn. lia.
Qed.

Lemma add_interest_extends_log now rate obj :
  extends_log obj (snd (add_interest now rate obj)).
Proof. eexists [_]. repeat split. cbn. lia. Qed.




(** ** The transaction log over binary64 *)

Section Binary64Log.
Import Float64.
Local Open Scope float_scope.

(** X8: the balance recorded in a log entry is a true snapshot.  For an
    account that [create_account] opened with an initial deposit that is
    not NaN, after any sequence of [deposit], [withdraw] and [add_interest]
    calls, replaying the log from 0 up to and including an entry gives the
    balance the entry records (the same float, or two zeros); and the last
    entry records the stored balance. *)
Theorem log_snapshots_consistent t0 t1 number name_ pin_ (d : float) type_
    (ops : list operation) (account : Account) :
  is_nan d = false ->
  new_account t0 t1 number name_ pin_ d type_ = Ok account ->
  (forall pre t post,
     transactions (session ops account) = pre ++ t :: post ->
     same_number (replay (pre ++ [t])) (tx_balance t))
  /\ (forall pre t,
        transactions (session ops account) = pre ++ [t] ->
        tx_balance t = balance (session ops account)).
Proof.
  intros Hn Hnew. split.
  - destruct (session_snapshots _ _ _ _ _ _ _ ops _ Hn Hnew) as [Hs _].
    intros pre t post E. rewrite E in Hs.
    apply (snapshots_from_entry _ _ _ _ Hs).
  - clear Hn.
    apply (session_invariant
             (fun self => forall pre t,
                transactions self = pre ++ [t] -> tx_balance t = balance self)
             (fun _ => True)).
    + intros op self _ Hself pre t.
      destruct op as [now a | now a | now r]; cbn [perform].
      * rewrite deposit_eq. destruct (a <=? 0); [apply Hself |].
        cbn. intros [_ <-]%app_inj_tail. reflexivity.
      * rewrite withdraw_eq. destruct (a <=? 0); [apply Hself |].
        destruct (balance self <? a); [apply Hself |].
        cbn. intros [_ <-]%app_inj_tail. reflexivity.
      * rewrite add_interest_eq.
        cbn. intros [_ <-]%app_inj_tail. reflexivity.
    + apply Forall_true. auto.
    + apply new_account_eq in Hnew as [_ ->]. intros pre t. cbn.
      destruct (0 <? d).
      * change [mkTransaction "Initial Deposit" d d t1]
          with ([] ++ [mkTransaction "Initial Deposit" d d t1]).
        intros [_ <-]%app_inj_tail. reflexivity.
      * intros E. destruct pre; discriminate E.
Qed.

Lemma log_snapshots_consistent_witness :
  same_number
    (replay [mkTransaction "Initial Deposit" 100 100 "t1";
             mkTransaction "Deposit" 50 150 "t2"])
    150.
Proof.
  refine (proj1 (log_snapshots_consistent "t0" "t1" "ACC1001" "Alice" "1234"
                   100 "Savings"
                   [Deposit "t2" 50; Withdraw "t3" 200; Withdraw "t4" 30]
                   (mkAccount "ACC1001" "Alice" "1234" 100 "Savings" "t0"
                      [mkTransaction "Initial Deposit" 100 100 "t1"])
                   _ _)
                [mkTransaction "Initial Deposit" 100 100 "t1"]
                (mkTransaction "Deposit" 50 150 "t2")
                [mkTransaction "Withdrawal" 30 120 "t4"] _); reflexivity.
Defined.

(** X9: what the methods write into a log.  For an account that
    [create_account] opened, after any sequence of [deposit], [withdraw]
    and [add_interest] calls every log entry has one of the four types
    ["Initial Deposit"], ["Deposit"], ["Withdrawal"], ["Interest Credit"];
    an initial deposit records an amount above 0, a deposit or a withdrawal
    an amount that is above 0 or NaN (a NaN passes the guard
    [amount <= 0]); an interest credit may record any amount. *)
Theorem log_entries_well_formed t0 t1 number name_ pin_ (d : float) type_
    (ops : list operation) (account : Account) :
  new_account t0 t1 number name_ pin_ d type_ = Ok account ->
  forall t, t ∈ transactions (session ops account) ->
    (tx_type t = "Initial Deposit" /\ (0 <? tx_amount t) = true)
    \/ ((tx_type t = "Deposit" \/ tx_type t = "Withdrawal")
        /\ ((0 <? tx_amount t) = true \/ is_nan (tx_amount t) = true))
    \/ tx_type t = "Interest Credit".
Proof.
  intros Hnew.
  assert (H : Forall entry_well_formed (transactions (session ops account))).
  { apply (session_invariant
             (fun self => Forall entry_well_formed (transactions self))
             (fun _ => True)).
    - intros op self _ Hself.
      destruct op as [now a | now a | now r]; cbn [perform].
      + rewrite deposit_eq. destruct (a <=? 0) eqn:Ha; [exact Hself |].
        cbn. apply Forall_app. split; [exact Hself |].
        constructor; [| constructor]. right. left. split; [auto | exact Ha].
      + rewrite withdraw_eq. destruct (a <=? 0) eqn:Ha; [exact Hself |].
        destruct (balance self <? a); [exact Hself |].
        cbn. apply Forall_app. split; [exact Hself |].
        constructor; [| constructor]. right. left. split; [auto | exact Ha].
      + rewrite add_interest_eq.
        cbn. apply Forall_app. split; [exact Hself |].
        constructor; [| constructor]. right. right. reflexivity.
    - apply Forall_true. auto.
    - apply new_account_eq in Hnew as [_ ->]. cbn.
      destruct (0 <? d) eqn:Hd; constructor; [| constructor].
      left. split; [reflexivity | exact Hd]. }
  intros t Ht. rewrite Forall_forall in H.
  destruct (H t Ht) as [Hi | [[Hty Ha] | Hc]]; [left; exact Hi | | auto].
  right. left. split; [exact Hty |]. apply not_le_zero, Ha.
Qed.

Lemma log_entries_well_formed_witness :
  (tx_type (mkTransaction "Deposit" 50 150 "t2") = "Initial Deposit"
   /\ (0 <? tx_amount (mkTransaction "Deposit" 50 150 "t2")) = true)
  \/ ((tx_type (mkTransaction "Deposit" 50 150 "t2") = "Deposit"
       \/ tx_type (mkTransaction "Deposit" 50 150 "t2") = "Withdrawal")
      /\ ((0 <? tx_amount (mkTransaction "Deposit" 50 150 "t2")) = true
          \/ is_nan (tx_amount (mkTransaction "Deposit" 50 150 "t2")) = true))
  \/ tx_type (mkTransaction "Deposit" 50 150 "t2") = "Interest Credit".
Proof.
  apply (log_entries_well_formed "t0" "t1" "ACC1001" "Alice" "1234" 100
           "Savings" [Deposit "t2" 50; Withdraw "t3" 200]
           (mkAccount "ACC1001" "Alice" "1234" 100 "Savings" "t0"
              [mkTransaction "Initial Deposit" 100 100 "t1"])).
  - reflexivity.
  - vm_compute. apply list_elem_of_further, list_elem_of_here.
Defined.

End Binary64Log.

(** ** Consecutive identifiers *)

(** X12: identifiers are handed out consecutively.  When [create_account]
    has returned an identifier ending with the number [n], the next
    [create_account] with a deposit that is not negative returns ["ACC"]
    followed by [n + 1], whatever the directory held before. *)
Theorem consecutive_identifiers (self self1 : BankManagementSystem)
    (tA tA' nameA pinA : string) (dA : Q) (typeA a : string)
    (tB tB' nameB pinB : string) (dB : Q) (typeB : string) :
  create_account tA tA' nameA pinA dA typeA self = (Ok a, self1) ->
  (0 <= dB)%Q ->
  exists n self2,
    id_number a = Some n
    /\ create_account tB tB' nameB pinB dB typeB self1
       = (Ok ("ACC" +:+ py_str (n + 1)), self2).
Proof.
  rewrite create_account_eq.
  destruct (Qlt_bool dA 0); [discriminate |].
  destruct (fst (generate_account_number self)) as [id | e] eqn:Hgen;
    [| discriminate].
  cbv zeta. intros [= -> <-] HdB.
  destruct (generate_above self a Hgen) as (n & Hn & Habove).
  assert (Hkeys : keys_numbered self).
  { destruct (keys_numbered_dec self) as [H | H]; [exact H |].
    rewrite (generate_fails self H) in Hgen. discriminate. }
  set (self1 := mkBank _ _).
  assert (Hkeys1 : keys_numbered self1).
  { intros k [x Hk]. cbn in Hk. destruct (decide (a = k)) as [<- | Hne].
    - eauto.
    - rewrite lookup_insert_ne in Hk by exact Hne. eauto. }
  assert (Hne1 : accounts self1 <> ∅) by apply insert_non_empty.
  destruct (generate_nonempty self1 Hne1 Hkeys1)
    as (m & [(k & [x Hk] & Hm) Hmax] & Hgen1).
  assert (Hnm : (n <= m)%Z).
  { apply (Hmax a n); [| exact Hn]. cbn. rewrite lookup_insert_eq. eauto. }
  assert (m = n) as ->.
  { cbn in Hk. destruct (decide (a = k)) as [<- | Hne].
    - congruence.
    - rewrite lookup_insert_ne in Hk by exact Hne.
      specialize (Habove k m (ex_intro _ x Hk) Hm). lia. }
  exists n. rewrite create_account_eq.
  apply Qlt_bool_false in HdB. rewrite HdB, Hgen1. cbn [fst].
  eexists. split; [exact Hn | reflexivity].
Qed.

Lemma consecutive_identifiers_witness :
  exists n self2,
    id_number "ACC1001" = Some n
    /\ create_account "t2" "t3" "Bob" "2222" 0 "Current"
         (snd (create_account "t0" "t1" "Alice" "1111" 100 "Savings"
                              empty_bank))
       = (Ok ("ACC" +:+ py_str (n + 1)), self2).
Proof.
  apply (consecutive_identifiers empty_bank _ "t0" "t1" "Alice" "1111" 100
           "Savings").
  - vm_compute. reflexivity.
  - discriminate.
Defined.

(** ** load_data on any file *)

Lemma stateless_ret {S A} (a : A) : stateless (@ret S A a).
Proof. exists (Ok a). reflexivity. Qed.

Lemma stateless_raise {S A} (e : error) : stateless (@raise S A e).
Proof. exists (Raise e). reflexivity. Qed.

Lemma stateless_bind {S A B} (m : M S A) (k : A -> M S B) :
  stateless m -> (forall a, stateless (k a)) -> stateless (bind m k).
Proof.
  intros [[a | e] Hm] Hk.
  - destruct (Hk a) as [r Hr]. exists r. intros s.
    unfold bind. rewrite Hm. apply Hr.
  - exists (Raise e). intros s. unfold bind. rewrite Hm. reflexivity.
Qed.

Lemma stateless_subscript {S} (d : json) (key : string) :
  stateless (@subscript S d key).
Proof.
  unfold subscript. destruct d; try apply stateless_raise.
  destruct (items_lookup key items);
    [apply stateless_ret | apply stateless_raise].
Qed.

Lemma stateless_as_string {S} (j : json) : stateless (@as_string S j).
Proof. destruct j; first [apply stateless_ret | apply stateless_raise]. Qed.

Lemma stateless_as_number {S} (j : json) : stateless (@as_number S j).
Proof. destruct j; first [apply stateless_ret | apply stateless_raise]. Qed.

Lemma stateless_as_array {S} (j : json) : stateless (@as_array S j).
Proof. destruct j; first [apply stateless_ret | apply stateless_raise]. Qed.

Lemma stateless_comprehension {S A B} (f : A -> M S B) (l : list A) :
  (forall x, stateless (f x)) -> stateless (comprehension f l).
Proof.
  intros Hf. induction l as [| x l IH]; cbn [comprehension].
  - apply stateless_ret.
  - apply stateless_bind; [apply Hf |]. intros y.
    apply stateless_bind; [exact IH |]. intros ys. apply stateless_ret.
Qed.

Ltac stateless_steps :=
  repeat first
    [ apply stateless_ret | apply stateless_raise
    | apply stateless_subscript | apply stateless_as_string
    | apply stateless_as_number | apply stateless_as_array
    | apply stateless_bind; [| intros ?] ].

Lemma stateless_transaction_of_json {S} (j : json) :
  stateless (@transaction_of_json S j).
Proof. unfold transaction_of_json. stateless_steps. Qed.

Lemma stateless_account_of_json {S} (now : string) (acc_data : json) :
  stateless (@account_of_json S now acc_data).
Proof.
  unfold account_of_json. stateless_steps.
  apply stateless_comprehension. intros x. apply stateless_transaction_of_json.
Qed.

Lemma load_items_cons (now acc_num : string) (acc_data : json)
    (items : list (string * json)) (self : BankManagementSystem) :
  load_items now ((acc_num, acc_data) :: items) self
  = match fst (account_of_json now acc_data self) with
    | Ok account =>
        load_items now items (set_accounts (insert acc_num account) self)
    | Raise e => (Raise e, self)
    end.
Proof.
  destruct (stateless_account_of_json (S := BankManagementSystem)
              now acc_data) as [r Hr].
  cbn [load_items]. unfold bind at 1. rewrite Hr.
  destruct r; reflexivity.
Qed.

(** The state [load_items] leaves: the file is not touched and no key of
    the mapping is lost. *)
Lemma load_items_keeps (now : string) (items : list (string * json)) :
  forall self,
    data_file (snd (load_items now items self)) = data_file self
    /\ forall k, is_Some (accounts self !! k) ->
                 is_Some (accounts (snd (load_items now items self)) !! k).
Proof.
  induction items as [| [acc_num acc_data] items IH]; intros self.
  - split; [reflexivity | auto].
  - rewrite load_items_cons.
    destruct (fst (account_of_json now acc_data self)) as [account | e].
    + destruct (IH (set_accounts (insert acc_num account) self)) as [Hf Hk].
      split; [exact Hf |]. intros k Hsome. apply Hk. cbn.
      destruct (decide (acc_num = k)) as [-> | Hne].
      * rewrite lookup_insert_eq. eauto.
      * rewrite lookup_insert_ne by exact Hne. exact Hsome.
    + split; [reflexivity | auto].
Qed.

(** X14: [load_data] never raises, whatever the file holds.  It never
    writes the file and never removes an account from the mapping; when
    there is no file, or the document in it is no JSON object, the
    directory is left exactly as it was. *)
Theorem load_data_never_raises (now : string) (self : BankManagementSystem) :
  fst (load_data now self) = Ok tt
  /\ data_file (snd (load_data now self)) = data_file self
  /\ (forall k, is_Some (accounts self !! k) ->
                is_Some (accounts (snd (load_data now self)) !! k))
  /\ (data_file self = None -> snd (load_data now self) = self)
  /\ (forall data, data_file self = Some data ->
        (forall items, data <> JObject items) ->
        snd (load_data now self) = self).
Proof.
  unfold load_data, bind, get, try_except.
  destruct (data_file self) as [data |] eqn:Hfile.
  - destruct data as [| b | q | s | l | items].
    1-5: split_and!;
      [reflexivity | exact Hfile | auto | discriminate | intros; reflexivity].
    pose proof (load_items_keeps now items self) as [Hf Hk].
    destruct (load_items now items self) as [[[] | e] self'];
      cbn [fst snd] in *.
    + split_and!;
        [reflexivity | exact (eq_trans Hf Hfile) | exact Hk | discriminate |].
      intros data [= <-] Hno. destruct (Hno items eq_refl).
    + split_and!;
        [reflexivity | exact (eq_trans Hf Hfile) | exact Hk | discriminate |].
      intros data [= <-] Hno. destruct (Hno items eq_refl).
  - split_and!;
      [reflexivity | exact Hfile | auto | reflexivity | discriminate].
Qed.

Lemma load_items_app (now : string) (first : list (string * json)) :
  forall rest self,
    fst (load_items now first self) = Ok tt ->
    load_items now (first ++ rest) self
    = load_items now rest (snd (load_items now first self)).
Proof.
  induction first as [| [acc_num acc_data] first IH]; intros rest self.
  - reflexivity.
  - cbn [app]. rewrite !load_items_cons.
    destruct (fst (account_of_json now acc_data self)) as [account | e];
      [apply IH | discriminate].
Qed.

Lemma load_items_good (now : string) (good : list (string * Account)) :
  forall self,
    load_items now (prod_map id get_details <$> good) self
    = (Ok tt,
       set_accounts
         (fun accs => foldl (fun m kv => <[kv.1 := kv.2]> m) accs good) self).
Proof.
  induction good as [| [k a] good IH]; intros self.
  - destruct self. reflexivity.
  - cbn [fmap list_fmap prod_map fst snd id]. rewrite load_items_cons.
    rewrite account_of_get_details. cbn [fst]. rewrite IH. reflexivity.
Qed.

Lemma account_of_json_fields {S} (now : string) (acc_data : json) (s s' : S)
    (account : Account) :
  account_of_json now acc_data s = (Ok account, s') ->
  has_all_fields acc_data = true.
Proof.
  destruct acc_data as [| b | q | t | l | items]; try discriminate.
  unfold has_all_fields, account_fields. cbn [forallb].
  unfold account_of_json, bind, subscript.
  repeat lazymatch goal with
  | |- context [match items_lookup ?k items with _ => _ end] =>
      destruct (items_lookup k items) as [[| ? | ? | ? | ? | ?] |];
      try discriminate; cbn [ret raise as_string as_number as_array is_Some_b]
  end.
  reflexivity.
Qed.

(** X15: a record that cannot be read ends the loading, and what was
    loaded before it stays.  When the file holds, under distinct keys, the
    records of the accounts [good], then a record that is no JSON object
    or lacks one of the seven fields [load_data] reads, then any further
    records, the mapping afterwards is the old mapping with exactly the
    accounts [good] stored, in file order; the records after the bad one
    are not looked at. *)
Theorem load_data_stops_at_bad_record (now : string)
    (self : BankManagementSystem) (good : list (string * Account))
    (bad_key : string) (bad : json) (rest : list (string * json)) :
  data_file self
  = Some (JObject ((prod_map id get_details <$> good)
                   ++ (bad_key, bad) :: rest)) ->
  NoDup (good.*1 ++ bad_key :: rest.*1) ->
  has_all_fields bad = false ->
  load_data now self
  = (Ok tt,
     set_accounts
       (fun accs => foldl (fun m kv => <[kv.1 := kv.2]> m) accs good) self).
Proof.
  intros Hfile _ Hbad. unfold load_data, bind, get, try_except.
  rewrite Hfile.
  rewrite load_items_app by (rewrite load_items_good; reflexivity).
  rewrite load_items_good. cbn [snd]. rewrite load_items_cons.
  destruct (stateless_account_of_json (S := BankManagementSystem) now bad)
    as [r Hr].
  rewrite Hr. cbn [fst]. destruct r as [account | e]; [| reflexivity].
  rewrite (account_of_json_fields now bad self self account) in Hbad
    by apply Hr.
  discriminate Hbad.
Qed.

Lemma load_data_stops_at_bad_record_witness :
  accounts
    (snd (load_data "t9"
            (mkBank
               (Some (JObject
                  [("ACC1001",
                    get_details (Account_init "t0" "ACC1001" "Alice" "1234"
                                              100 "Savings"));
                   ("ACC1002", JObject [("name", JString "Bob")]);
                   ("ACC1003",
                    get_details (Account_init "t0" "ACC1003" "Carol" "3333"
                                              5 "Savings"))]))
               ∅)))
  = {[ "ACC1001" := Account_init "t0" "ACC1001" "Alice" "1234" 100 "Savings" ]}.
Proof.
  rewrite (load_data_stops_at_bad_record "t9" _
             [("ACC1001",
               Account_init "t0" "ACC1001" "Alice" "1234" 100 "Savings")]
             "ACC1002" (JObject [("name", JString "Bob")])
             [("ACC1003",
               get_details (Account_init "t0" "ACC1003" "Carol" "3333" 5
                                         "Savings"))]).
  - reflexivity.
  - reflexivity.
  - apply (bool_decide_eq_true_1 (NoDup ["ACC1001"; "ACC1002"; "ACC1003"])).
    vm_compute. reflexivity.
  - reflexivity.
Defined.

(** ** The keys of the directory *)

Lemma py_str_digits (n : Z) :
  (0 <= n)%Z -> all_digits (py_str n) = true /\ py_str n <> EmptyString.
Proof.
  destruct n as [| p | p]; [intros _ | intros _ | lia].
  - split; [reflexivity | discriminate].
  - unfold py_str. cbn [Z.to_int NilZero.string_of_int].
    pose proof (DecimalPos.Unsigned.to_uint_nonnil p) as Hnil.
    set (d := Pos.to_uint p) in *.
    assert (E : NilZero.string_of_uint d = NilEmpty.string_of_uint d)
      by (destruct d; [congruence | reflexivity ..]).
    rewrite E.
    auto using all_digits_string_of_uint, string_of_uint_nonempty.
Qed.

Lemma generate_shaped (self : BankManagementSystem) (id : string) :
  directory_consistent self ->
  fst (generate_account_number self) = Ok id -> acc_shaped id.
Proof.
  intros Hcons Hgen.
  destruct (decide (accounts self = ∅)) as [Hm | Hm].
  - rewrite (generate_empty self Hm) in Hgen. injection Hgen as <-.
    exists "1001". repeat split. discriminate.
  - assert (Hkeys : keys_numbered self).
    { intros k [a Hk]. destruct (Hcons k a Hk) as [_ Hshape].
      destruct (acc_shaped_number k Hshape) as (n & Hn & _). eauto. }
    destruct (generate_nonempty self Hm Hkeys)
      as (m & [(k & [a Hk] & Hkm) _] & E).
    rewrite E in Hgen. injection Hgen as <-.
    destruct (Hcons k a Hk) as [_ Hshape].
    destruct (acc_shaped_number k Hshape) as (n & Hn & Hpos).
    assert (n = m) as -> by congruence.
    destruct (py_str_digits (m + 1)) as [Hd Hne]; [lia |].
    exists (py_str (m + 1)). repeat split; assumption.
Qed.

Lemma on_account_consistent {A} (key : string) (m : M Account A)
    (self : BankManagementSystem) :
  (forall obj, account_number (snd (m obj)) = account_number obj) ->
  directory_consistent self ->
  directory_consistent (snd (on_account key m self)).
Proof.
  intros Hm Hself.
  destruct (accounts self !! key) as [obj |] eqn:E.
  - rewrite (on_account_Some _ _ _ _ E). cbn [snd].
    apply map_Forall_insert_2; [| exact Hself].
    destruct (Hself key obj E) as [Hnum Hshape].
    split; [rewrite Hm; exact Hnum | exact Hshape].
  - rewrite (on_account_None _ _ _ E). exact Hself.
Qed.

Lemma extends_log_number (obj obj' : Account) :
  extends_log obj obj' -> account_number obj' = account_number obj.
Proof. intros (added & _ & _ & H & _). symmetry. exact H. Qed.

Lemma run_command_consistent (c : command) (self : BankManagementSystem) :
  directory_consistent self -> directory_consistent (snd (run_command c self)).
Proof.
  intros Hself.
  destruct c as [t0 t1 name_ pin_ d type_ | number candidate
                | number now amount | number now amount | number now rate];
    cbn [run_command].
  - unfold bind. rewrite create_account_eq.
    destruct (Qlt_bool d 0); [exact Hself |].
    destruct (fst (generate_account_number self)) as [id | e] eqn:Hgen;
      [| exact Hself].
    cbv zeta. unfold ret. cbn [snd].
    apply map_Forall_insert_2; [| exact Hself].
    split; [reflexivity | apply (generate_shaped self id Hself Hgen)].
  - rewrite delete_account_eq.
    destruct (get_account number candidate self) as [[account | e] s'];
      [| exact Hself].
    rewrite save_data_eq. cbn [snd]. apply map_Forall_delete, Hself.
  - apply on_account_consistent; [| exact Hself].
    intros obj. apply extends_log_number, deposit_extends_log.
  - apply on_account_consistent; [| exact Hself].
    intros obj. apply extends_log_number, withdraw_extends_log.
  - apply on_account_consistent; [| exact Hself].
    intros obj. apply extends_log_number, add_interest_extends_log.
Qed.

Lemma run_consistent (cs : list command) : forall self,
  directory_consistent self -> directory_consistent (run cs self).
Proof.
  unfold run. induction cs as [| c cs IH]; intros self Hself; cbn.
  - exact Hself.
  - apply IH, run_command_consistent, Hself.
Qed.

(** X16: in any session from the empty directory, every account is stored
    under its own account number, and every key of the mapping is ["ACC"]
    followed by a decimal numeral. *)
Theorem directory_keys_consistent (cs : list command) :
  map_Forall
    (fun k account => account_number account = k /\ acc_shaped k)
    (accounts (run cs empty_bank)).
Proof. apply run_consistent. apply map_Forall_empty. Qed.

(** X17: in any session from the empty directory the generation of an
    identifier cannot fail, so [create_account] with a deposit that is not
    negative always returns; the identifier it returns is ["ACC"] followed
    by a decimal numeral and the new account is stored under it. *)
Theorem create_account_returns_in_session (cs : list command)
    (t0 t1 name_ pin_ : string) (d : Q) (type_ : string) :
  (0 <= d)%Q ->
  exists id self',
    create_account t0 t1 name_ pin_ d type_ (run cs empty_bank) = (Ok id, self')
    /\ acc_shaped id
    /\ accounts self' !! id = Some (opened_account t0 t1 id name_ pin_ d type_).
Proof.
  intros Hd.
  pose proof (run_consistent cs empty_bank (map_Forall_empty _)) as Hcons.
  set (self := run cs empty_bank) in *.
  assert (Hkeys : keys_numbered self).
  { intros k [a Hk]. destruct (Hcons k a Hk) as [_ Hshape].
    destruct (acc_shaped_number k Hshape) as (n & Hn & _). eauto. }
  destruct (generate_total self Hkeys) as [id Hgen].
  assert (Hfst : fst (generate_account_number self) = Ok id)
    by (rewrite Hgen; reflexivity).
  exists id. rewrite create_account_eq.
  apply Qlt_bool_false in Hd. rewrite Hd, Hfst.
  eexists. split; [reflexivity |].
  split; [apply (generate_shaped self id Hcons Hfst) |].
  cbn [accounts]. apply lookup_insert_eq.
Qed.

Lemma create_account_returns_in_session_witness :
  exists id self',
    create_account "t8" "t9" "Carol" "3333" 0 "Savings"
      (run [CreateAccount "t0" "t1" "Alice" "1111" 100 "Savings";
            CreateAccount "t2" "t3" "Bob" "2222" 0 "Current";
            DeleteAccount "ACC1001" "1111";
            AddInterest "ACC1002" "t4" (Some (-200)%Q)] empty_bank)
    = (Ok id, self')
    /\ acc_shaped id.
Proof.
  destruct (create_account_returns_in_session
              [CreateAccount "t0" "t1" "Alice" "1111" 100 "Savings";
               CreateAccount "t2" "t3" "Bob" "2222" 0 "Current";
               DeleteAccount "ACC1001" "1111";
               AddInterest "ACC1002" "t4" (Some (-200)%Q)]
              "t8" "t9" "Carol" "3333" 0 "Savings")
    as (id & self' & Hc & Hs & _); [discriminate |].
  exists id, self'. split; assumption.
Defined.

(** ** Properties of the console front end *)

Section ConsoleProperties.
Variable py_float : string -> option Q.

Lemma create_account_state (t0 t1 name_ pin_ : string) (d : Q) (type_ : string)
    (self : BankManagementSystem) (e : error) :
  fst (create_account t0 t1 name_ pin_ d type_ self) = Raise e ->
  snd (create_account t0 t1 name_ pin_ d type_ self) = self.
Proof.
  rewrite create_account_eq. destruct (Qlt_bool d 0); [reflexivity |].
  destruct (fst (generate_account_number self)); [discriminate | reflexivity].
Qed.

Lemma create_account_menu_eq (t0 t1 line1 line2 line3 line4 : string)
    (self : BankManagementSystem) :
  create_account_menu py_float t0 t1 line1 line2 line3 line4 self
  = (Ok tt,
     match create_request py_float line1 line2 line3 line4 with
     | Some (name_, pin_, d, type_) =>
         snd (create_account t0 t1 name_ pin_ d type_ self)
     | None => self
     end).
Proof.
  unfold create_account_menu, create_request, try_print, try_except.
  destruct (truthy (strip line1)); [| reflexivity]. cbn [negb orb].
  destruct (pin_rejected (strip line2)); [reflexivity |].
  unfold bind at 1. unfold float_or, float_.
  assert (Hcreate : forall d type_,
    (let (r, s') :=
       (account_number <- create_account t0 t1 (strip line1) (strip line2)
                                          d type_ ;; ret tt) self in
     match r with
     | Ok a => (Ok a, s')
     | Raise e =>
         (if is_ValueError e || is_Exception e then ret tt else raise e) s'
     end)
    = (Ok tt, snd (create_account t0 t1 (strip line1) (strip line2) d type_
                                  self))).
  { intros d type_. unfold bind.
    destruct (create_account t0 t1 (strip line1) (strip line2) d type_ self)
      as [[id | e] s'] eqn:E.
    - reflexivity.
    - cbn. rewrite orb_true_r. reflexivity. }
  destruct (truthy line4).
  - destruct (py_float line4) as [d |]; [| reflexivity].
    cbn [ret]. destruct (truthy (strip line3)); cbn [negb]; apply Hcreate.
  - cbn [ret]. destruct (truthy (strip line3)); cbn [negb]; apply Hcreate.
Qed.

(** X18: [create_account_menu] never raises, and lets no account in that
    is not presentable.  Every account of the directory after the menu
    was either there before, unchanged, or is new, and then its name is
    the name typed, stripped and not empty, its pin is the pin typed,
    stripped, of four [isdigit] characters, its type is not empty, and
    [< 0] does not hold of its balance (the deposit typed has passed the
    guard [initial_deposit < 0] of [create_account]). *)
Theorem create_account_menu_validates (t0 t1 line1 line2 line3 line4 : string)
    (self : BankManagementSystem) :
  fst (create_account_menu py_float t0 t1 line1 line2 line3 line4 self) = Ok tt
  /\ forall k account,
       accounts
         (snd (create_account_menu py_float t0 t1 line1 line2 line3 line4
                                   self)) !! k = Some account ->
       accounts self !! k = Some account
       \/ (accounts self !! k = None
           /\ name account = strip line1 /\ pin account = strip line2
           /\ presentable account /\ Qlt_bool (balance account) 0 = false).
Proof.
  rewrite create_account_menu_eq. split; [reflexivity |]. cbn [snd].
  unfold create_request.
  destruct (truthy (strip line1)) eqn:Hname; [| auto]. cbn [negb orb].
  destruct (pin_rejected (strip line2)) eqn:Hpin; [auto |].
  destruct (if truthy line4 then py_float line4 else Some 0%Q) as [d |];
    [| auto].
  rewrite create_account_eq.
  destruct (Qlt_bool d 0) eqn:Hd; [auto |].
  destruct (fst (generate_account_number self)) as [id | e] eqn:Hgen;
    [| auto].
  cbv zeta. cbn [snd accounts]. intros k account.
  destruct (decide (id = k)) as [<- | Hne].
  - rewrite lookup_insert_eq. intros [= <-]. right.
    split; [apply (generate_fresh self id Hgen) |].
    unfold presentable, opened_account. cbn.
    split_and!; try assumption; try reflexivity.
    destruct (truthy (strip line3)) eqn:Ht; [exact Ht | reflexivity].
  - rewrite lookup_insert_ne by exact Hne. auto.
Qed.

Lemma account_menu_eq (caught : error -> bool) (m : M Account unit)
    (account : string) (self : BankManagementSystem) :
  try_except (on_account account m ;; save_data)
             (fun e => if caught e then ret tt else raise e) self
  = match accounts self !! account with
    | None =>
        if caught (KeyError account) then (Ok tt, self)
        else (Raise (KeyError account), self)
    | Some obj =>
        match m obj with
        | (Ok _, obj') => (Ok tt, saved_after account obj' self)
        | (Raise e, obj') =>
            (if caught e then Ok tt else Raise e,
             set_accounts (insert account obj') self)
        end
    end.
Proof.
  unfold try_except, bind.
  destruct (accounts self !! account) as [obj |] eqn:E.
  - rewrite (on_account_Some _ _ _ _ E).
    destruct (m obj) as [[[] | e] obj']; cbn [fst snd]; [reflexivity |].
    destruct (caught e); reflexivity.
  - rewrite (on_account_None _ _ _ E).
    destruct (caught (KeyError account)); reflexivity.
Qed.

Lemma deposit_cases (now : string) (amount : Q) (obj : Account) :
  deposit now amount obj
  = if Qle_bool amount 0
    then (Raise (InvalidAmountError "Deposit amount must be positive"), obj)
    else (Ok tt, snd (deposit now amount obj)).
Proof. unfold deposit. destruct (Qle_bool amount 0); reflexivity. Qed.

Lemma withdraw_cases (now : string) (amount : Q) (obj : Account) :
  withdraw now amount obj
  = if Qle_bool amount 0
    then (Raise (InvalidAmountError "Withdrawal amount must be positive"), obj)
    else if Qgt_bool amount (balance obj)
    then (Raise (InsufficientBalanceError (balance obj)), obj)
    else (Ok tt, snd (withdraw now amount obj)).
Proof.
  unfold withdraw. destruct (Qle_bool amount 0); [reflexivity |].
  unfold bind, get. cbv beta.
  destruct (Qgt_bool amount (balance obj)); reflexivity.
Qed.

Lemma deposit_menu_eq (account now line : string)
    (self : BankManagementSystem) :
  deposit_menu py_float account now line self
  = match py_float line with
    | None => (Ok tt, self)
    | Some amount =>
        match accounts self !! account with
        | None => (Raise (KeyError account), self)
        | Some obj =>
            if Qle_bool amount 0 then (Ok tt, self)
            else (Ok tt,
                  saved_after account (snd (deposit now amount obj)) self)
        end
    end.
Proof.
  unfold deposit_menu, try_print, float_.
  destruct (py_float line) as [amount |]; [| reflexivity].
  match goal with |- _ = ?r =>
    change (try_except
              (on_account account (deposit now amount) ;; save_data)
              (fun e => if is_InvalidAmountError e || is_ValueError e
                        then ret tt else raise e) self = r)
  end.
  rewrite account_menu_eq.
  destruct (accounts self !! account) as [obj |] eqn:E; [| reflexivity].
  rewrite (deposit_cases now amount obj) at 1.
  destruct (Qle_bool amount 0); [| reflexivity].
  cbn [is_InvalidAmountError orb].
  rewrite (set_accounts_insert_id _ _ _ E). reflexivity.
Qed.

Lemma withdraw_menu_eq (account now line : string)
    (self : BankManagementSystem) :
  withdraw_menu py_float account now line self
  = match py_float line with
    | None => (Ok tt, self)
    | Some amount =>
        match accounts self !! account with
        | None => (Raise (KeyError account), self)
        | Some obj =>
            if Qle_bool amount 0 || Qgt_bool amount (balance obj)
            then (Ok tt, self)
            else (Ok tt,
                  saved_after account (snd (withdraw now amount obj)) self)
        end
    end.
Proof.
  unfold withdraw_menu, try_print, float_.
  destruct (py_float line) as [amount |]; [| reflexivity].
  match goal with |- _ = ?r =>
    change (try_except
              (on_account account (withdraw now amount) ;; save_data)
              (fun e => if is_InvalidAmountError e
                           || is_InsufficientBalanceError e || is_ValueError e
                        then ret tt else raise e) self = r)
  end.
  rewrite account_menu_eq.
  destruct (accounts self !! account) as [obj |] eqn:E; [| reflexivity].
  rewrite (withdraw_cases now amount obj) at 1.
  destruct (Qle_bool amount 0).
  - cbn [is_InvalidAmountError orb].
    rewrite (set_accounts_insert_id _ _ _ E). reflexivity.
  - cbn [orb]. destruct (Qgt_bool amount (balance obj)); [| reflexivity].
    cbn [is_InvalidAmountError is_InsufficientBalanceError orb].
    rewrite (set_accounts_insert_id _ _ _ E). reflexivity.
Qed.

Lemma calculate_interest_menu_eq (account now line1 line2 : string)
    (self : BankManagementSystem) :
  calculate_interest_menu py_float account now line1 line2 self
  = match (if truthy line1 then py_float line1 else Some 3.5%Q) with
    | None => (Ok tt, self)
    | Some rate =>
        match accounts self !! account with
        | None => (Raise (KeyError account), self)
        | Some obj =>
            if bool_decide (lower line2 = "y")
            then (Ok tt,
                  saved_after account
                    (snd (add_interest now (Some rate) obj)) self)
            else (Ok tt, self)
        end
    end.
Proof.
  unfold calculate_interest_menu, try_print, try_except, float_or, float_.
  unfold bind at 1.
  assert (Hrest : forall rate,
    (let (r, s') :=
       (interest <- on_account account (calculate_interest (Some rate)) ;;
        if bool_decide (lower line2 = "y")
        then on_account account (add_interest now (Some rate)) ;; save_data
        else ret tt) self in
     match r with
     | Ok a => (Ok a, s')
     | Raise e => (if is_ValueError e then ret tt else raise e) s'
     end)
    = match accounts self !! account with
      | None => (Raise (KeyError account), self)
      | Some obj =>
          if bool_decide (lower line2 = "y")
          then (Ok tt,
                saved_after account (snd (add_interest now (Some rate) obj))
                            self)
          else (Ok tt, self)
      end).
  { intros rate. unfold bind at 1.
    destruct (accounts self !! account) as [obj |] eqn:E.
    - rewrite (on_account_Some _ _ _ _ E).
      change (calculate_interest (Some rate) obj)
        with (Ok (balance obj * rate / 100)%Q, obj).
      cbn [fst snd]. rewrite (set_accounts_insert_id _ _ _ E).
      destruct (bool_decide (lower line2 = "y")); [| reflexivity].
      unfold bind at 1. rewrite (on_account_Some _ _ _ _ E). reflexivity.
    - rewrite (on_account_None _ _ _ E). reflexivity. }
  destruct (truthy line1).
  - destruct (py_float line1) as [rate |]; [apply Hrest | reflexivity].
  - apply Hrest.
Qed.

Lemma update_pin_menu_eq (account line1 line2 line3 : string)
    (self : BankManagementSystem) :
  update_pin_menu account line1 line2 line3 self
  = match accounts self !! account with
    | None => (Raise (KeyError account), self)
    | Some obj =>
        if bool_decide (pin obj = strip line1)
           && negb (pin_rejected (strip line2))
           && bool_decide (strip line2 = strip line3)
        then (Ok tt, saved_after account (set_pin (strip line2) obj) self)
        else (Ok tt, self)
    end.
Proof.
  unfold update_pin_menu, try_print, try_except. unfold bind at 1.
  destruct (accounts self !! account) as [obj |] eqn:E.
  - rewrite (on_account_Some _ _ _ _ E).
    change (verify_pin (strip line1) obj)
      with (Ok (bool_decide (pin obj = strip line1)), obj).
    cbn [fst snd]. rewrite (set_accounts_insert_id _ _ _ E).
    destruct (bool_decide (pin obj = strip line1)); [| reflexivity].
    cbn [negb andb]. destruct (pin_rejected (strip line2)); [reflexivity |].
    cbn [negb andb].
    destruct (bool_decide (strip line2 = strip line3)); [| reflexivity].
    cbn [negb]. unfold bind at 1. rewrite (on_account_Some _ _ _ _ E).
    reflexivity.
  - rewrite (on_account_None _ _ _ E). reflexivity.
Qed.

Lemma delete_account_menu_eq (account line1 line2 : string)
    (self : BankManagementSystem) :
  delete_account_menu account line1 line2 self
  = match accounts self !! account with
    | Some obj =>
        if bool_decide (strip line1 = "DELETE")
        then match fst (get_account (account_number obj) (strip line2) self)
             with
             | Ok _ =>
                 (Ok true,
                  snd (save_data
                         (set_accounts (delete (account_number obj)) self)))
             | Raise _ => (Ok false, self)
             end
        else (Ok false, self)
    | None => (Ok false, self)
    end.
Proof.
  unfold delete_account_menu, try_except.
  destruct (bool_decide (strip line1 = "DELETE")); cbn [negb].
  - unfold bind at 1.
    destruct (accounts self !! account) as [obj |] eqn:E.
    + rewrite (on_account_Some _ _ _ _ E). cbn [fst snd bind get ret].
      change ((self0 <- get ;; ret (account_number self0)) obj)
        with (Ok (account_number obj), obj).
      cbn [fst snd]. rewrite (set_accounts_insert_id _ _ _ E).
      unfold bind at 1. rewrite delete_account_eq.
      destruct (get_account (account_number obj) (strip line2) self)
        as [[a | e] s'] eqn:G; cbn [fst]; [| reflexivity].
      rewrite save_data_eq. reflexivity.
    + rewrite (on_account_None _ _ _ E). reflexivity.
  - destruct (accounts self !! account); reflexivity.
Qed.

(** X19: [update_pin_menu] changes the pin only for a user who types the
    current pin, a new pin of four [isdigit] characters, and the same new
    pin again (all three stripped of surrounding blanks); it then stores
    the new pin, touches no other account and saves the directory.  In
    every other case it changes nothing.  It never raises on an account of
    the directory. *)
Theorem update_pin_menu_spec (account line1 line2 line3 : string)
    (self : BankManagementSystem) (obj : Account) :
  accounts self !! account = Some obj ->
  (pin obj = strip line1 -> pin_rejected (strip line2) = false ->
   strip line2 = strip line3 ->
   exists self',
     update_pin_menu account line1 line2 line3 self = (Ok tt, self')
     /\ accounts self' !! account = Some (set_pin (strip line2) obj)
     /\ (forall k, k <> account -> accounts self' !! k = accounts self !! k)
     /\ file_in_sync self')
  /\ (pin obj <> strip line1 \/ pin_rejected (strip line2) = true
      \/ strip line2 <> strip line3 ->
      update_pin_menu account line1 line2 line3 self = (Ok tt, self)).
Proof.
  intros Hk. rewrite update_pin_menu_eq, Hk. split.
  - intros H1 H2 H3.
    rewrite !bool_decide_eq_true_2, H2 by assumption. cbn [negb andb].
    eexists. split; [reflexivity |]. unfold saved_after.
    rewrite save_data_eq. cbn [snd accounts set_accounts]. split_and!.
    + apply lookup_insert_eq.
    + intros k Hne. apply lookup_insert_ne. congruence.
    + reflexivity.
  - intros [H | [H | H]].
    + rewrite (bool_decide_eq_false_2 _ H). reflexivity.
    + rewrite H, andb_false_r. reflexivity.
    + rewrite (bool_decide_eq_false_2 _ H), andb_false_r. reflexivity.
Qed.

(** X20: [delete_account_menu] returns [True] exactly when the user types
    [DELETE] and then the pin of the account (both stripped of surrounding
    blanks); the account is then removed and the directory saved.  In
    every other case it returns [False] and changes nothing.  It never
    raises. *)
Theorem delete_account_menu_spec (account line1 line2 : string)
    (self : BankManagementSystem) (obj : Account) :
  accounts self !! account = Some obj -> account_number obj = account ->
  (strip line1 = "DELETE" -> pin obj = strip line2 ->
   exists self',
     delete_account_menu account line1 line2 self = (Ok true, self')
     /\ accounts self' = delete account (accounts self)
     /\ file_in_sync self')
  /\ (strip line1 <> "DELETE" \/ pin obj <> strip line2 ->
      delete_account_menu account line1 line2 self = (Ok false, self)).
Proof.
  intros Hk Hnum. rewrite delete_account_menu_eq, Hk, Hnum, get_account_eq, Hk.
  split.
  - intros H1 H2. rewrite !bool_decide_eq_true_2 by assumption. cbn [fst].
    rewrite save_data_eq. eexists. split; [reflexivity |].
    split; reflexivity.
  - intros [H | H].
    + rewrite (bool_decide_eq_false_2 _ H). reflexivity.
    + rewrite (bool_decide_eq_false_2 (pin obj = strip line2) H).
      destruct (bool_decide (strip line1 = "DELETE")); reflexivity.
Qed.

(** X21: [deposit_menu] deposits and saves, or does nothing.  On an
    account of the directory it never raises; when the text typed denotes
    a positive amount the balance grows by it and the directory is saved;
    when the text denotes no amount, or one that is not positive, nothing
    changes. *)
Theorem deposit_menu_spec (account now line : string)
    (self : BankManagementSystem) (obj : Account) :
  accounts self !! account = Some obj ->
  (forall amount, py_float line = Some amount -> (0 < amount)%Q ->
   exists self' obj',
     deposit_menu py_float account now line self = (Ok tt, self')
     /\ accounts self' !! account = Some obj'
     /\ balance obj' = (balance obj + amount)%Q
     /\ file_in_sync self')
  /\ (py_float line = None
      \/ (exists amount, py_float line = Some amount /\ (amount <= 0)%Q) ->
      deposit_menu py_float account now line self = (Ok tt, self)).
Proof.
  intros Hk. rewrite deposit_menu_eq. split.
  - intros amount -> Hpos. rewrite Hk.
    apply Qle_bool_false in Hpos. rewrite Hpos.
    eexists _, _. split; [reflexivity |]. unfold saved_after.
    rewrite save_data_eq. cbn [snd accounts set_accounts]. split_and!.
    + apply lookup_insert_eq.
    + unfold deposit. rewrite Hpos. reflexivity.
    + reflexivity.
  - intros [-> | (amount & -> & Hle)]; [reflexivity |].
    rewrite Hk. apply Qle_bool_iff in Hle. rewrite Hle. reflexivity.
Qed.

(** X22: [withdraw_menu] withdraws and saves, or does nothing.  On an
    account of the directory it never raises; when the text typed denotes
    a positive amount within the balance, the balance shrinks by it and
    the directory is saved; when the text denotes no amount, or one that
    is not positive or exceeds the balance, nothing changes. *)
Theorem withdraw_menu_spec (account now line : string)
    (self : BankManagementSystem) (obj : Account) :
  accounts self !! account = Some obj ->
  (forall amount, py_float line = Some amount ->
   (0 < amount)%Q -> (amount <= balance obj)%Q ->
   exists self' obj',
     withdraw_menu py_float account now line self = (Ok tt, self')
     /\ accounts self' !! account = Some obj'
     /\ balance obj' = (balance obj - amount)%Q
     /\ file_in_sync self')
  /\ (py_float line = None
      \/ (exists amount, py_float line = Some amount
                         /\ ((amount <= 0)%Q \/ (balance obj < amount)%Q)) ->
      withdraw_menu py_float account now line self = (Ok tt, self)).
Proof.
  intros Hk. rewrite withdraw_menu_eq. split.
  - intros amount -> Hpos Hle. rewrite Hk.
    apply Qle_bool_false in Hpos. apply Qgt_bool_false in Hle.
    rewrite Hpos, Hle. cbn [orb].
    eexists _, _. split; [reflexivity |]. unfold saved_after.
    rewrite save_data_eq. cbn [snd accounts set_accounts]. split_and!.
    + apply lookup_insert_eq.
    + unfold withdraw, bind, get. cbv beta. rewrite Hpos, Hle. reflexivity.
    + reflexivity.
  - intros [-> | (amount & -> & [Hle | Hgt])]; [reflexivity | |]; rewrite Hk.
    + apply Qle_bool_iff in Hle. rewrite Hle. reflexivity.
    + apply Qgt_bool_true in Hgt. rewrite Hgt, orb_true_r. reflexivity.
Qed.

Lemma lower_is_y (line : string) :
  lower line = "y" <-> line = "y" \/ line = "Y".
Proof.
  split.
  - destruct line as [| c r]; [discriminate |]. cbn [lower].
    intros H. injection H as Hc Hr. destruct r; [| discriminate].
    destruct c as [[] [] [] [] [] [] [] []]; vm_compute in Hc;
      try discriminate Hc; auto.
  - intros [-> | ->]; reflexivity.
Qed.

(** X23: [calculate_interest_menu] credits interest only on the answer
    [y] or [Y].  On an account of the directory it never raises; when the
    rate typed denotes a number (3.5 when nothing is typed) and the answer
    is exactly [y] or [Y], interest at that rate is added and the
    directory saved; with any other answer, [yes] included, or a rate that
    denotes no number, nothing changes. *)
Theorem calculate_interest_menu_spec (account now line1 line2 : string)
    (self : BankManagementSystem) (obj : Account) :
  accounts self !! account = Some obj ->
  (forall rate,
     (if truthy line1 then py_float line1 else Some 3.5%Q) = Some rate ->
     line2 = "y" \/ line2 = "Y" ->
     exists self' obj',
       calculate_interest_menu py_float account now line1 line2 self
       = (Ok tt, self')
       /\ accounts self' !! account = Some obj'
       /\ balance obj' = (balance obj + balance obj * rate / 100)%Q
       /\ file_in_sync self')
  /\ ((if truthy line1 then py_float line1 else Some 3.5%Q) = None
      \/ (line2 <> "y" /\ line2 <> "Y") ->
      calculate_interest_menu py_float account now line1 line2 self
      = (Ok tt, self)).
Proof.
  intros Hk. rewrite calculate_interest_menu_eq. split.
  - intros rate -> Hy. rewrite Hk.
    apply lower_is_y in Hy. rewrite (bool_decide_eq_true_2 _ Hy).
    eexists _, _. split; [reflexivity |]. unfold saved_after.
    rewrite save_data_eq. cbn [snd accounts set_accounts]. split_and!.
    + apply lookup_insert_eq.
    + reflexivity.
    + reflexivity.
  - intros [-> | [H1 H2]]; [reflexivity |].
    destruct (if truthy line1 then py_float line1 else Some 3.5%Q);
      [| reflexivity].
    rewrite Hk.
    rewrite bool_decide_eq_false_2; [reflexivity |].
    rewrite lower_is_y. tauto.
Qed.

Lemma presentable_same_identity (a b : Account) :
  same_identity a b -> presentable a -> presentable b.
Proof.
  intros (_ & Hn & Hp & Ht & _) (H1 & H2 & H3). unfold presentable.
  rewrite <- Hn, <- Hp, <- Ht. auto.
Qed.

Lemma saved_after_presentable (account : string) (obj obj' : Account)
    (self : BankManagementSystem) :
  accounts self !! account = Some obj ->
  (presentable obj -> presentable obj') ->
  every_account presentable self ->
  every_account presentable (saved_after account obj' self).
Proof.
  intros Hk Hobj Hself. unfold saved_after. rewrite save_data_eq.
  cbn [snd]. apply map_Forall_insert_2; [| exact Hself].
  apply Hobj, (Hself _ _ Hk).
Qed.

Lemma run_menu_presentable (c : menu) (self : BankManagementSystem) :
  every_account presentable self ->
  every_account presentable (snd (run_menu py_float c self)).
Proof.
  intros Hself.
  destruct c as [t0 t1 l1 l2 l3 l4 | account now line | account now line
                | account now l1 l2 | account l1 l2 l3 | account l1 l2];
    cbn [run_menu].
  - rewrite create_account_menu_eq. cbn [snd]. unfold create_request.
    destruct (truthy (strip l1)) eqn:Hname; [| exact Hself]. cbn [negb orb].
    destruct (pin_rejected (strip l2)) eqn:Hpin; [exact Hself |].
    destruct (if truthy l4 then py_float l4 else Some 0%Q) as [d |];
      [| exact Hself].
    rewrite create_account_eq. destruct (Qlt_bool d 0); [exact Hself |].
    destruct (fst (generate_account_number self)) as [id | e];
      [| exact Hself].
    cbv zeta. cbn [snd]. apply map_Forall_insert_2; [| exact Hself].
    unfold presentable, opened_account. cbn. split_and!; try assumption.
    destruct (truthy (strip l3)) eqn:Ht; [exact Ht | reflexivity].
  - rewrite deposit_menu_eq.
    destruct (py_float line) as [amount |]; [| exact Hself].
    destruct (accounts self !! account) as [obj |] eqn:E; [| exact Hself].
    destruct (Qle_bool amount 0); [exact Hself |].
    apply (saved_after_presentable _ obj); [exact E | | exact Hself].
    apply presentable_same_identity.
    destruct (deposit_extends_log now amount obj) as (? & _ & _ & H). exact H.
  - rewrite withdraw_menu_eq.
    destruct (py_float line) as [amount |]; [| exact Hself].
    destruct (accounts self !! account) as [obj |] eqn:E; [| exact Hself].
    destruct (Qle_bool amount 0 || Qgt_bool amount (balance obj));
      [exact Hself |].
    apply (saved_after_presentable _ obj); [exact E | | exact Hself].
    apply presentable_same_identity.
    destruct (withdraw_extends_log now amount obj) as (? & _ & _ & H). exact H.
  - rewrite calculate_interest_menu_eq.
    destruct (if truthy l1 then py_float l1 else Some 3.5%Q) as [rate |];
      [| exact Hself].
    destruct (accounts self !! account) as [obj |] eqn:E; [| exact Hself].
    destruct (bool_decide (lower l2 = "y")); [| exact Hself].
    apply (saved_after_presentable _ obj); [exact E | | exact Hself].
    apply presentable_same_identity.
    destruct (add_interest_extends_log now (Some rate) obj)
      as (? & _ & _ & H).
    exact H.
  - rewrite update_pin_menu_eq.
    destruct (accounts self !! account) as [obj |] eqn:E; [| exact Hself].
    destruct (bool_decide (pin obj = strip l1)); [| exact Hself].
    destruct (pin_rejected (strip l2)) eqn:Hpin; [exact Hself |].
    destruct (bool_decide (strip l2 = strip l3)); [| exact Hself].
    cbn [negb andb snd].
    apply (saved_after_presentable _ obj); [exact E | | exact Hself].
    intros (H1 & _ & H3). split_and!; assumption.
  - unfold bind. rewrite delete_account_menu_eq.
    destruct (accounts self !! account) as [obj |]; [| exact Hself].
    destruct (bool_decide (strip l1 = "DELETE")); [| exact Hself].
    destruct (fst (get_account (account_number obj) (strip l2) self));
      [| exact Hself].
    rewrite save_data_eq. cbn [snd]. apply map_Forall_delete, Hself.
Qed.

(** X25: the console keeps the directory presentable.  After any sequence
    of menus, starting from the empty directory, every account has a name
    that is not empty, a pin of exactly four characters that [isdigit]
    accepts, and a type that is not empty: the core checks none of this,
    the menus check it before they call the core. *)
Theorem console_sessions_presentable (cs : list menu) :
  map_Forall
    (fun _ account =>
       name account <> EmptyString
       /\ String.length (pin account) = 4
       /\ isdigit (pin account) = true
       /\ account_type account <> EmptyString)
    (accounts (run_menus py_float cs empty_bank)).
Proof.
  assert (H : forall self, every_account presentable self ->
                           every_account presentable
                             (run_menus py_float cs self)).
  { unfold run_menus. induction cs as [| c cs IH]; intros self Hself.
    - exact Hself.
    - cbn [foldl]. apply IH, run_menu_presentable, Hself. }
  intros k account Hk.
  destruct (H empty_bank (map_Forall_empty _) k account Hk)
    as (Hname & Hpin & Htype).
  unfold pin_rejected in Hpin. apply orb_false_elim in Hpin as [Hlen Hdig].
  apply negb_false_iff in Hlen, Hdig. apply Nat.eqb_eq in Hlen.
  split_and!; try assumption.
  - intros E. rewrite E in Hname. discriminate.
  - intros E. rewrite E in Htype. discriminate.
Qed.

Lemma BankApp_create_account_eq (t0 t1 name_text pin_text deposit_text : string)
    (self : BankManagementSystem) :
  BankApp_create_account py_float t0 t1 name_text pin_text deposit_text self
  = match (if truthy deposit_text then py_float deposit_text else Some 0%Q)
    with
    | None => (Raise ValueError, self)
    | Some d =>
        (Ok tt,
         if negb (truthy (strip name_text)) || pin_rejected (strip pin_text)
         then self
         else snd (create_account t0 t1 (strip name_text) (strip pin_text) d
                                  "Savings" self))
    end.
Proof.
  unfold BankApp_create_account, float_or, float_. unfold bind at 1.
  assert (Hrest : forall d,
    (if negb (truthy (strip name_text)) || pin_rejected (strip pin_text)
     then ret tt
     else try_print is_Exception
            (acc_num <- create_account t0 t1 (strip name_text)
                                       (strip pin_text) d "Savings" ;;
             ret tt)) self
    = (Ok tt,
       if negb (truthy (strip name_text)) || pin_rejected (strip pin_text)
       then self
       else snd (create_account t0 t1 (strip name_text) (strip pin_text) d
                                "Savings" self))).
  { intros d.
    destruct (negb (truthy (strip name_text)) || pin_rejected (strip pin_text));
      [reflexivity |].
    unfold try_print, try_except, bind.
    destruct (create_account t0 t1 (strip name_text) (strip pin_text) d
                             "Savings" self) as [[id | e] s']; reflexivity. }
  destruct (truthy deposit_text).
  - destruct (py_float deposit_text) as [d |]; [apply Hrest | reflexivity].
  - apply Hrest.
Qed.

(** X26: the two front ends open accounts alike.  On the same name, pin
    and deposit texts, the window form of [BMS.py] and the console menu
    (with the account type left empty) leave the directory in the same
    state.  They differ in one thing: the menu reports a deposit text that
    denotes no amount and returns, the form raises [ValueError] for it,
    whatever the name and the pin are. *)
Theorem front_ends_agree_on_create
    (t0 t1 name_text pin_text deposit_text : string)
    (self : BankManagementSystem) :
  snd (BankApp_create_account py_float t0 t1 name_text pin_text deposit_text
                              self)
  = snd (create_account_menu py_float t0 t1 name_text pin_text "" deposit_text
                             self)
  /\ fst (create_account_menu py_float t0 t1 name_text pin_text ""
                              deposit_text self) = Ok tt
  /\ (fst (BankApp_create_account py_float t0 t1 name_text pin_text
                                  deposit_text self) = Raise ValueError
      <-> deposit_text <> EmptyString /\ py_float deposit_text = None)
  /\ (fst (BankApp_create_account py_float t0 t1 name_text pin_text
                                  deposit_text self) <> Raise ValueError ->
      fst (BankApp_create_account py_float t0 t1 name_text pin_text
                                  deposit_text self) = Ok tt).
Proof.
  rewrite BankApp_create_account_eq, create_account_menu_eq.
  unfold create_request. change (strip "") with EmptyString. cbn [truthy].
  destruct deposit_text as [| c r]; cbn [truthy].
  - split_and!; try reflexivity.
    + destruct (negb (truthy (strip name_text))
                || pin_rejected (strip pin_text)); reflexivity.
    + split; [discriminate | intros [H _]; congruence].
  - destruct (py_float (String c r)) as [d |].
    + split_and!; try reflexivity.
      * destruct (negb (truthy (strip name_text))
                  || pin_rejected (strip pin_text)); reflexivity.
      * split; [discriminate | intros [_ H]; discriminate].
    + split_and!; try reflexivity.
      * destruct (negb (truthy (strip name_text))
                  || pin_rejected (strip pin_text)); reflexivity.
      * split; [intros _; split; [discriminate | reflexivity] | reflexivity].
      * intros H. destruct (H eq_refl).
Qed.

End ConsoleProperties.

(** ** The menus at work *)

Lemma alice_stored : accounts alice_bank !! "ACC1001" = Some alice.
Proof. vm_compute. reflexivity. Qed.

Lemma update_pin_menu_spec_witness :
  (exists self',
     update_pin_menu "ACC1001" " 1234 " "9876" "9876 " alice_bank
     = (Ok tt, self')
     /\ accounts self' !! "ACC1001" = Some (set_pin "9876" alice))
  /\ update_pin_menu "ACC1001" "1234" "98765" "98765" alice_bank
     = (Ok tt, alice_bank).
Proof.
  split.
  - destruct (proj1 (update_pin_menu_spec "ACC1001" " 1234 " "9876" "9876 "
                       alice_bank alice alice_stored))
      as (self' & Hrun & Hpin & _); [reflexivity ..|].
    exists self'. split; [exact Hrun | exact Hpin].
  - apply (proj2 (update_pin_menu_spec "ACC1001" "1234" "98765" "98765"
                    alice_bank alice alice_stored)).
    right. left. reflexivity.
Defined.

Lemma delete_account_menu_spec_witness :
  (exists self',
     delete_account_menu "ACC1001" "DELETE" "1234" alice_bank = (Ok true, self')
     /\ accounts self' = delete "ACC1001" (accounts alice_bank))
  /\ delete_account_menu "ACC1001" "delete" "1234" alice_bank
     = (Ok false, alice_bank).
Proof.
  split.
  - destruct (proj1 (delete_account_menu_spec "ACC1001" "DELETE" "1234"
                       alice_bank alice alice_stored eq_refl))
      as (self' & Hrun & Hacc & _); [reflexivity ..|].
    exists self'. split; [exact Hrun | exact Hacc].
  - apply (proj2 (delete_account_menu_spec "ACC1001" "delete" "1234"
                    alice_bank alice alice_stored eq_refl)).
    left. discriminate.
Defined.

Lemma deposit_menu_spec_witness :
  (exists self' obj',
     deposit_menu whole_number "ACC1001" "t2" "50" alice_bank = (Ok tt, self')
     /\ accounts self' !! "ACC1001" = Some obj'
     /\ balance obj' = (100 + 50)%Q)
  /\ deposit_menu whole_number "ACC1001" "t2" "fifty" alice_bank
     = (Ok tt, alice_bank).
Proof.
  split.
  - destruct (proj1 (deposit_menu_spec whole_number "ACC1001" "t2" "50"
                       alice_bank alice alice_stored) 50%Q)
      as (self' & obj' & Hrun & Hobj & Hbal & _); [reflexivity ..|].
    exists self', obj'. split_and!; assumption.
  - apply (proj2 (deposit_menu_spec whole_number "ACC1001" "t2" "fifty"
                    alice_bank alice alice_stored)).
    left. reflexivity.
Defined.

Lemma withdraw_menu_spec_witness :
  (exists self' obj',
     withdraw_menu whole_number "ACC1001" "t2" "100" alice_bank = (Ok tt, self')
     /\ accounts self' !! "ACC1001" = Some obj'
     /\ balance obj' = (100 - 100)%Q)
  /\ withdraw_menu whole_number "ACC1001" "t2" "200" alice_bank
     = (Ok tt, alice_bank).
Proof.
  split.
  - destruct (proj1 (withdraw_menu_spec whole_number "ACC1001" "t2" "100"
                       alice_bank alice alice_stored) 100%Q)
      as (self' & obj' & Hrun & Hobj & Hbal & _);
      [reflexivity | reflexivity | discriminate |].
    exists self', obj'. split_and!; assumption.
  - apply (proj2 (withdraw_menu_spec whole_number "ACC1001" "t2" "200"
                    alice_bank alice alice_stored)).
    right. exists 200%Q. split; [reflexivity | right; reflexivity].
Defined.

Lemma calculate_interest_menu_spec_witness :
  (exists self' obj',
     calculate_interest_menu whole_number "ACC1001" "t2" "" "Y" alice_bank
     = (Ok tt, self')
     /\ accounts self' !! "ACC1001" = Some obj'
     /\ balance obj' = (100 + 100 * 3.5 / 100)%Q)
  /\ calculate_interest_menu whole_number "ACC1001" "t2" "5" "yes" alice_bank
     = (Ok tt, alice_bank).
Proof.
  split.
  - destruct (proj1 (calculate_interest_menu_spec whole_number "ACC1001" "t2"
                       "" "Y" alice_bank alice alice_stored) 3.5%Q)
      as (self' & obj' & Hrun & Hobj & Hbal & _);
      [reflexivity | right; reflexivity |].
    exists self', obj'. split_and!; assumption.
  - apply (proj2 (calculate_interest_menu_spec whole_number "ACC1001" "t2"
                    "5" "yes" alice_bank alice alice_stored)).
    right. split; discriminate.
Defined.

(** The console refuses what the core would take: an empty name, a pin
    of three digits. *)
Example console_refuses :
  snd (create_account_menu whole_number "t0" "t1" "  " "1234" "" "10"
                           empty_bank) = empty_bank
  /\ snd (create_account_menu whole_number "t0" "t1" "Bob" "123" "" "10"
                              empty_bank) = empty_bank
  /\ accounts
       (snd (create_account_menu whole_number "t0" "t1" " Bob " "1234 " ""
                                 "" empty_bank)) !! "ACC1001"
     = Some (mkAccount "ACC1001" "Bob" "1234" 0 "Savings" "t0" []).
Proof. split_and!; vm_compute; reflexivity. Qed.
